(** * savr-scan: receipt text understanding, embedded in Rocq

    A shallow embedding of the rule-based receipt pipeline:
    - [JS]: the fragment of JavaScript strings and numbers the code uses;
    - [Regex]: a backtracking matcher for the regular expressions of the
      source (test, global replace, global match count, lastIndex);
    - [NonFood]: EnhancedNonFoodDetector (unnamed/part_007);
    - [Enhancer]: enhanceProductName (app/lib/productNameEnhancer.ts);
    - [TextForm]: the normal form of an enhanced name, for the proofs;
    - [Cleaner]: ProductNameCleaner (unnamed/part_006);
    - [Learning]: ReceiptLearningSystem (app/lib/aiReceiptParser.ts);
    - [AIParser]: validateAIResult (app/lib/aiReceiptParser.ts);
    - [Garbled]: isOCRTextGarbled (unnamed/part_001);
    - [Recovery]: generateUniversalGroceryReceipt (unnamed/part_001);
    - [LearningQueries]: getItemsToHide, clearLearningData and
      getLearningStats of ReceiptLearningSystem;
    - [RuleParser]: fallbackParsing with its helpers, selectBestResult,
      parseReceiptWithAI and parseWithMultipleAI (app/lib/aiReceiptParser.ts);
    - [NonFoodActions]: getSuggestedActions, getDetailedExplanation,
      recordUserFeedback and getLearningInsights (unnamed/part_007);
    - [Insights]: analyzeDetections and analyzeReceipt
      (app/lib/nonFoodInsights.ts);
    - [CleanerBatch]: cleanBatch (unnamed/part_006);
    - [OCRConfidence]: calculateOCRConfidence (unnamed/part_005);
    - [ReceiptImage]: analyzeReceiptImage and generateReceiptGuidance
      (app/lib/receiptPreprocessing.ts);
    - [Shape]: the vocabulary of the further properties.

    Numbers are IEEE-754 binary64 values ([PrimFloat.float]), as in
    JavaScript.  Strings are sequences of 8-bit code units; character
    classes and case conversion are those of JavaScript on the ASCII range,
    and code units above 127 are neither letters, digits nor white space. *)

From Stdlib Require Import Floats Uint63 ZArith NArith String Ascii List Bool Lia Sorted.
From stdpp Require Import base option gmap strings.
Import ListNotations.
Set Warnings "-inexact-float,-register-all".

Local Open Scope string_scope.
Local Open Scope list_scope.

(* ===================================================================== *)
(** ** JavaScript characters and strings *)
(* ===================================================================== *)

Module JS.

Definition code (c : ascii) : N := N_of_ascii c.

Definition in_range (lo hi c : ascii) : bool :=
  N.leb (code lo) (code c) && N.leb (code c) (code hi).

Definition is_digit (c : ascii) : bool := in_range "0" "9" c.
Definition is_upper (c : ascii) : bool := in_range "A" "Z" c.
Definition is_lower (c : ascii) : bool := in_range "a" "z" c.

(** IsWordChar: [A-Za-z0-9_]. *)
Definition is_word_char (c : ascii) : bool :=
  is_upper c || is_lower c || is_digit c || Ascii.eqb c "_".

(** White space and line terminators of the ASCII range: TAB, LF, VT, FF,
    CR, SP. *)
Definition is_space (c : ascii) : bool :=
  let n := code c in
  (N.leb 9 n && N.leb n 13) || N.eqb n 32.

Definition to_upper (c : ascii) : ascii :=
  if is_lower c then ascii_of_N (code c - 32) else c.

Definition to_lower (c : ascii) : ascii :=
  if is_upper c then ascii_of_N (code c + 32) else c.

Fixpoint map_string (f : ascii -> ascii) (s : string) : string :=
  match s with
  | EmptyString => EmptyString
  | String c s' => String (f c) (map_string f s')
  end.

Definition toUpperCase : string -> string := map_string to_upper.
Definition toLowerCase : string -> string := map_string to_lower.

Fixpoint trimStart (s : string) : string :=
  match s with
  | String c s' => if is_space c then trimStart s' else s
  | EmptyString => EmptyString
  end.

(** [trimEnd] keeps a character when it is not white space or when
    something remains after it. *)
Fixpoint trimEnd (s : string) : string :=
  match s with
  | EmptyString => EmptyString
  | String c s' =>
      match trimEnd s' with
      | EmptyString => if is_space c then EmptyString else String c EmptyString
      | t => String c t
      end
  end.

Definition trim (s : string) : string := trimEnd (trimStart s).

(** [s.includes(sub)]. *)
Fixpoint includes (s sub : string) : bool :=
  String.prefix sub s ||
  match s with
  | EmptyString => false
  | String _ s' => includes s' sub
  end.

(** [s.split(sep)] for a one-character separator. *)
Fixpoint split_on (sep : ascii) (s : string) : list string :=
  match s with
  | EmptyString => [EmptyString]
  | String c s' =>
      if Ascii.eqb c sep then EmptyString :: split_on sep s'
      else match split_on sep s' with
           | w :: ws => String c w :: ws
           | [] => [String c EmptyString]
           end
  end.

(** [parts.join(sep)]. *)
Fixpoint join (sep : string) (parts : list string) : string :=
  match parts with
  | [] => EmptyString
  | [w] => w
  | w :: ws => w ++ sep ++ join sep ws
  end.

Fixpoint repeat_char (c : ascii) (n : nat) : string :=
  match n with
  | O => EmptyString
  | S n' => String c (repeat_char c n')
  end.

(** [s.padEnd(n)]: pads with spaces on the right up to length [n]. *)
Definition padEnd (s : string) (n : nat) : string :=
  s ++ repeat_char " " (n - String.length s).

(** [s.charAt(0).toUpperCase() + s.slice(1).toLowerCase()]. *)
Definition capitalize (w : string) : string :=
  match w with
  | EmptyString => EmptyString
  | String c w' => String (to_upper c) (toLowerCase w')
  end.

(** The first [n] code units of [s]. *)
Fixpoint take (n : nat) (s : string) : string :=
  match n, s with
  | S n', String c s' => String c (take n' s')
  | _, _ => EmptyString
  end.

Fixpoint drop (n : nat) (s : string) : string :=
  match n, s with
  | S n', String _ s' => drop n' s'
  | _, _ => s
  end.

Fixpoint last_char (prev : option ascii) (s : string) : option ascii :=
  match s with
  | EmptyString => prev
  | String c s' => last_char (Some c) s'
  end.

(** *** Numbers *)

(** [Math.max] and [Math.min] of two numbers: NaN when an argument is NaN,
    and +0 is larger than -0. *)
Definition Math_max (a b : float) : float :=
  if PrimFloat.is_nan a then a else if PrimFloat.is_nan b then b
  else if PrimFloat.ltb a b then b else if PrimFloat.ltb b a then a
  else if PrimFloat.get_sign a then b else a.

Definition Math_min (a b : float) : float :=
  if PrimFloat.is_nan a then a else if PrimFloat.is_nan b then b
  else if PrimFloat.ltb a b then a else if PrimFloat.ltb b a then b
  else if PrimFloat.get_sign a then a else b.

(** [x % 1 === 0]: the remainder is 0 for the finite integral values and
    NaN for NaN and the infinities. *)
Definition rem1_is_zero (x : float) : bool :=
  match Prim2SF x with
  | S754_zero _ => true
  | S754_finite _ m e =>
      Z.leb 0 e || Z.eqb (Z.modulo (Zpos m) (Z.pow 2 (- e))) 0
  | _ => false
  end.

(** An integer as a number: the binary64 value nearest to it, ties to
    even (the integer itself when its magnitude is below 2^53). *)
Definition of_Z (z : Z) : float :=
  SF2Prim (binary_normalize prec emax z 0 false).

(** The binary64 value nearest to the quotient [p / q] of two integers,
    ties to even, for [0 <= p] and [0 < q]. *)
Definition nearest_quotient (p q : Z) : float :=
  match p with
  | Zpos _ =>
      let '(mz, ez, lz) := SFdiv_core_binary prec emax p 0 q 0 in
      SF2Prim (binary_round_aux prec emax false mz ez lz)
  | _ => 0%float
  end.

(** A length or a count as a number. *)
Definition of_nat (n : nat) : float := of_Z (Z.of_nat n).

(** The integer [Math.round(x)] of a finite number: the nearest integer,
    ties towards +infinity.  [None] for NaN and the infinities. *)
Definition Math_round (x : float) : option Z :=
  match Prim2SF x with
  | S754_zero _ => Some 0%Z
  | S754_finite sg m e =>
      let sm := if sg then Zneg m else Zpos m in
      if Z.leb 0 e then Some (sm * Z.pow 2 e)%Z
      else let d := Z.pow 2 (- e) in Some (Z.div (2 * sm + d) (2 * d))
  | _ => None
  end.

(** The integer [Math.floor(x)] of a finite number. *)
Definition Math_floor (x : float) : option Z :=
  match Prim2SF x with
  | S754_zero _ => Some 0%Z
  | S754_finite sg m e =>
      let sm := if sg then Zneg m else Zpos m in
      if Z.leb 0 e then Some (sm * Z.pow 2 e)%Z
      else Some (Z.div sm (Z.pow 2 (- e)))
  | _ => None
  end.

(** The decimal digits of a natural number. *)
Fixpoint digits_fuel (fuel : nat) (n : N) (acc : string) : string :=
  match fuel with
  | O => acc
  | S f =>
      let acc' := String (ascii_of_N (N.modulo n 10 + 48)) acc in
      if N.ltb n 10 then acc' else digits_fuel f (N.div n 10) acc'
  end.

Definition string_of_N (n : N) : string :=
  digits_fuel (S (N.to_nat (N.log2 n))) n EmptyString.

(** An integer in a template literal. *)
Definition string_of_Z (z : Z) : string :=
  if Z.ltb z 0 then String "-" (string_of_N (Z.to_N (- z)))
  else string_of_N (Z.to_N z).

(** The integer nearest to [k * |x|] for a finite [x], ties upwards. *)
Definition scaled_round (k : Z) (x : float) : option Z :=
  match Prim2SF x with
  | S754_zero _ => Some 0%Z
  | S754_finite _ m e =>
      if Z.leb 0 e then Some (k * Zpos m * Z.pow 2 e)%Z
      else let d := Z.pow 2 (- e) in Some (Z.div (2 * k * Zpos m + d) (2 * d))
  | _ => None
  end.

Definition two_digits (n : N) : string :=
  if N.ltb n 10 then String "0" (string_of_N n) else string_of_N n.

(** [x.toFixed(2)]: the decimal with two fraction digits nearest to [x],
    ties away from zero.  (From 10^21 on the language switches to the
    exponent notation; an amount of a receipt is far below.) *)
Definition toFixed2 (x : float) : string :=
  match scaled_round 100 x with
  | Some n =>
      (if PrimFloat.ltb x 0 then "-" else "")
      ++ string_of_N (Z.to_N (Z.div n 100)) ++ "."
      ++ two_digits (Z.to_N (Z.modulo n 100))
  | None =>
      if PrimFloat.is_nan x then "NaN"
      else if PrimFloat.ltb x 0 then "-Infinity" else "Infinity"
  end.

Definition digit_val (c : ascii) : N := (code c - code "0")%N.

(** The leading decimal digits of [s]: their value, their number, and the
    rest of [s]. *)
Fixpoint read_digits (acc : N) (count : nat) (s : string) : N * nat * string :=
  match s with
  | String c s' =>
      if is_digit c then read_digits (10 * acc + digit_val c) (S count) s'
      else (acc, count, s)
  | EmptyString => (acc, count, s)
  end.

(** [parseFloat(s)] for a decimal literal without exponent: the number
    nearest to the decimal, NaN when [s] does not start with a number. *)
Definition parseFloat (s : string) : float :=
  let s0 := trimStart s in
  let '(negative, s1) :=
    match s0 with
    | String "-" r => (true, r)
    | String "+" r => (false, r)
    | _ => (false, s0)
    end in
  let '(ip, ni, r1) := read_digits 0 0 s1 in
  let '(num, nf) :=
    match r1 with
    | String "." r2 => let '(v, n, _) := read_digits ip 0 r2 in (v, n)
    | _ => (ip, O)
    end in
  if Nat.eqb (ni + nf) 0 then PrimFloat.nan
  else
    let q := nearest_quotient (Z.of_N num) (Z.pow 10 (Z.of_nat nf)) in
    if negative then PrimFloat.opp q else q.

(** [Math.random()]: the next draw of the source of randomness, a number
    in the interval from 0 (included) to 1 (excluded). *)
Definition Math_random (rnd : list float) : option (float * list float) :=
  match rnd with
  | r :: rest =>
      if PrimFloat.leb 0 r && PrimFloat.ltb r 1 then Some (r, rest) else None
  | [] => None
  end.

End JS.

(* ===================================================================== *)
(** ** Regular expressions *)
(* ===================================================================== *)

Module Regex.
Import JS.

(** Members of a character class. *)
Inductive citem : Type :=
| CChar (c : ascii)          (* a single character *)
| CRng (lo hi : ascii)       (* lo-hi *)
| CDigit                     (* \d *)
| CWord                      (* \w *)
| CSpace.                    (* \s *)

Inductive regex : Type :=
| REmpty                                  (* the empty pattern *)
| RChar (c : ascii)                       (* a literal character *)
| RAny                                    (* .  *)
| RClass (neg : bool) (items : list citem) (* [...] and [^...] *)
| RSeq (r1 r2 : regex)
| RAlt (r1 r2 : regex)                    (* r1|r2 *)
| RStar (r : regex)                       (* r*, greedy *)
| RBol                                    (* ^ *)
| REol                                    (* $ *)
| RWordB                                  (* \b *)
| RAhead (r : regex)                      (* (?=r) *)
| RBehind (neg : bool) (items : list citem) (* (?<=[...]) *)
| RGroup (n : nat) (r : regex).           (* the n-th capturing group *)

(** Derived forms. *)
Definition RPlus (r : regex) : regex := RSeq r (RStar r).
Definition ROpt (r : regex) : regex := RAlt r REmpty.

Fixpoint RTimes (n : nat) (r : regex) : regex :=
  match n with
  | O => REmpty
  | S n' => RSeq r (RTimes n' r)
  end.

(** [r{0,n}], greedy. *)
Fixpoint RUpTo (n : nat) (r : regex) : regex :=
  match n with
  | O => REmpty
  | S n' => ROpt (RSeq r (RUpTo n' r))
  end.

(** [r{lo,hi}] and [r{lo,}]. *)
Definition RRep (lo hi : nat) (r : regex) : regex :=
  RSeq (RTimes lo r) (RUpTo (hi - lo) r).
Definition RAtLeast (lo : nat) (r : regex) : regex :=
  RSeq (RTimes lo r) (RStar r).

Definition item_has (i : citem) (c : ascii) : bool :=
  match i with
  | CChar a => Ascii.eqb a c
  | CRng lo hi => in_range lo hi c
  | CDigit => is_digit c
  | CWord => is_word_char c
  | CSpace => is_space c
  end.

Definition set_has (items : list citem) (c : ascii) : bool :=
  existsb (fun i => item_has i c) items.

(** With the [i] flag a character belongs to a set when some member of the
    set has the same canonical (upper-case) form. *)
Definition class_has (ci neg : bool) (items : list citem) (c : ascii) : bool :=
  let pos :=
    if ci then set_has items c || set_has items (to_upper c)
              || set_has items (to_lower c)
    else set_has items c in
  if neg then negb pos else pos.

Definition char_eq (ci : bool) (a c : ascii) : bool :=
  if ci then Ascii.eqb (to_upper a) (to_upper c) else Ascii.eqb a c.

Definition is_line_terminator (c : ascii) : bool :=
  Ascii.eqb c "010" || Ascii.eqb c "013".

Definition word_before (prev : option ascii) : bool :=
  match prev with Some c => is_word_char c | None => false end.

Definition word_after (s : string) : bool :=
  match s with String c _ => is_word_char c | EmptyString => false end.

Definition captures : Type := list (nat * string).

Fixpoint get_capture (n : nat) (caps : captures) : string :=
  match caps with
  | [] => EmptyString
  | (m, v) :: caps' => if Nat.eqb n m then v else get_capture n caps'
  end.

(** A position of the matcher: the character before it ([None] at the
    start of the input), the rest of the input, and the captures so far. *)
Definition mstate : Type := option ascii * string * captures.

Definition cont : Type := option ascii -> string -> captures -> option mstate.

(** The greedy iteration of [r*], given the matcher [step] of [r]: one more
    round of [r] if it consumes something and the rest succeeds, else the
    continuation.  An iteration that consumes nothing is rejected, as in
    ECMAScript; [n] bounds the number of rounds by the length of the input. *)
Fixpoint star_loop (step : option ascii -> string -> captures -> cont -> option mstate)
    (k : cont) (n : nat) (prev : option ascii) (s : string) (caps : captures)
  : option mstate :=
  match n with
  | O => k prev s caps
  | S n' =>
      match step prev s caps
              (fun p s' c =>
                 if Nat.ltb (String.length s') (String.length s)
                 then star_loop step k n' p s' c else None) with
      | Some x => Some x
      | None => k prev s caps
      end
  end.

(** The backtracking matcher, in continuation-passing style: [rmatch ci r
    prev s caps k] tries the alternatives of [r] at the position [(prev,
    s)] in priority order and returns the first one the continuation [k]
    accepts. *)
Fixpoint rmatch (ci : bool) (r : regex) (prev : option ascii) (s : string)
    (caps : captures) (k : cont) {struct r} : option mstate :=
  match r with
  | REmpty => k prev s caps
  | RChar a =>
      match s with
      | String c s' => if char_eq ci a c then k (Some c) s' caps else None
      | EmptyString => None
      end
  | RAny =>
      match s with
      | String c s' => if is_line_terminator c then None else k (Some c) s' caps
      | EmptyString => None
      end
  | RClass neg items =>
      match s with
      | String c s' => if class_has ci neg items c then k (Some c) s' caps else None
      | EmptyString => None
      end
  | RSeq r1 r2 =>
      rmatch ci r1 prev s caps (fun p s' c => rmatch ci r2 p s' c k)
  | RAlt r1 r2 =>
      match rmatch ci r1 prev s caps k with
      | Some x => Some x
      | None => rmatch ci r2 prev s caps k
      end
  | RStar r1 => star_loop (rmatch ci r1) k (String.length s) prev s caps
  | RBol => match prev with None => k prev s caps | Some _ => None end
  | REol => match s with EmptyString => k prev s caps | String _ _ => None end
  | RWordB =>
      if Bool.eqb (word_before prev) (word_after s) then None else k prev s caps
  | RAhead r1 =>
      match rmatch ci r1 prev s caps (fun p s' c => Some (p, s', c)) with
      | Some (_, _, c) => k prev s c
      | None => None
      end
  | RBehind neg items =>
      match prev with
      | Some c => if class_has ci neg items c then k prev s caps else None
      | None => None
      end
  | RGroup n r1 =>
      rmatch ci r1 prev s caps
        (fun p s' c =>
           k p s' ((n, take (String.length s - String.length s') s) :: c))
  end.

(** One match found by a search. *)
Record rfound : Type := mkFound {
  skipped : string;            (* the input before the match *)
  matched : string;            (* the matched text *)
  after_prev : option ascii;   (* the character before the rest *)
  rest : string;               (* the input after the match *)
  groups : captures
}.

(** The match of [r] at exactly this position. *)
Definition rexec_here (ci : bool) (r : regex) (prev : option ascii) (s : string)
  : option rfound :=
  match rmatch ci r prev s [] (fun p s' c => Some (p, s', c)) with
  | Some (p, s', c) =>
      Some (mkFound EmptyString (take (String.length s - String.length s') s) p s' c)
  | None => None
  end.

(** The leftmost match at or after this position. *)
Fixpoint rsearch (ci : bool) (r : regex) (prev : option ascii) (s : string)
  : option rfound :=
  match rexec_here ci r prev s with
  | Some f => Some f
  | None =>
      match s with
      | EmptyString => None
      | String c s' =>
          match rsearch ci r (Some c) s' with
          | Some f => Some (mkFound (String c (skipped f)) (matched f)
                              (after_prev f) (rest f) (groups f))
          | None => None
          end
      end
  end.

(** *** Reading a pattern from its source text *)

Definition read_nat (s : string) : nat * string :=
  let '(v, _, r) := read_digits 0 0 s in (N.to_nat v, r).

(** The class escapes \d, \w, \s; an escaped punctuation character
    stands for itself; the other escapes (of a letter or a digit) are
    outside the supported grammar. *)
Definition escape_item (c : ascii) : option citem :=
  if Ascii.eqb c "d" then Some CDigit
  else if Ascii.eqb c "w" then Some CWord
  else if Ascii.eqb c "s" then Some CSpace
  else if is_upper c || is_lower c || is_digit c then None
  else Some (CChar c).

(** The members of a class, up to the closing bracket. *)
Fixpoint read_class (s : string) : option (list citem * string) :=
  match s with
  | EmptyString => None
  | String "]" s' => Some ([], s')
  | String "\" (String c s') =>
      match escape_item c, read_class s' with
      | Some i, Some (items, r) => Some (i :: items, r)
      | _, _ => None
      end
  | String lo (String "-" (String hi s')) =>
      if Ascii.eqb hi "]" then Some ([CChar lo; CChar "-"], s')
      else
        match read_class s' with
        | Some (items, r) => Some (CRng lo hi :: items, r)
        | None => None
        end
  | String c s' =>
      match read_class s' with
      | Some (items, r) => Some (CChar c :: items, r)
      | None => None
      end
  end.

(** A quantifier after an atom: *, +, ?, {n}, {n,}, {n,m} (all greedy). *)
Definition read_quantifier (r : regex) (s : string) : option (regex * string) :=
  match s with
  | String "*" s' => Some (RStar r, s')
  | String "+" s' => Some (RPlus r, s')
  | String "?" s' => Some (ROpt r, s')
  | String "{" s' =>
      let '(lo, s1) := read_nat s' in
      match s1 with
      | String "}" s2 => Some (RTimes lo r, s2)
      | String "," (String "}" s2) => Some (RAtLeast lo r, s2)
      | String "," s2 =>
          let '(hi, s3) := read_nat s2 in
          match s3 with
          | String "}" s4 => Some (RRep lo hi r, s4)
          | _ => None
          end
      | _ => None
      end
  | _ => Some (r, s)
  end.

Definition parsed : Type := (regex * string * nat)%type.

(** Disjunction, alternative and term of the ECMAScript pattern grammar;
    the [nat] counts the capturing groups opened so far. *)
Fixpoint read_disj (fuel : nat) (s : string) (g : nat) {struct fuel} : option parsed :=
  match fuel with
  | O => None
  | S f =>
      match read_alt f s g with
      | Some (r1, String "|" s1, g1) =>
          match read_disj f s1 g1 with
          | Some (r2, s2, g2) => Some (RAlt r1 r2, s2, g2)
          | None => None
          end
      | other => other
      end
  end
with read_alt (fuel : nat) (s : string) (g : nat) {struct fuel} : option parsed :=
  match fuel with
  | O => None
  | S f =>
      match s with
      | EmptyString | String "|" _ | String ")" _ => Some (REmpty, s, g)
      | _ =>
          match read_term f s g with
          | Some (r1, s1, g1) =>
              match read_alt f s1 g1 with
              | Some (REmpty, s2, g2) => Some (r1, s2, g2)
              | Some (r2, s2, g2) => Some (RSeq r1 r2, s2, g2)
              | None => None
              end
          | None => None
          end
      end
  end
with read_term (fuel : nat) (s : string) (g : nat) {struct fuel} : option parsed :=
  match fuel with
  | O => None
  | S f =>
      let quantified (a : option parsed) : option parsed :=
        match a with
        | Some (r, s1, g1) =>
            match read_quantifier r s1 with
            | Some (r', s2) => Some (r', s2, g1)
            | None => None
            end
        | None => None
        end in
      match s with
      | EmptyString => None
      | String "^" s1 => Some (RBol, s1, g)
      | String "$" s1 => Some (REol, s1, g)
      | String "\" (String "b" s1) => Some (RWordB, s1, g)
      | String "(" (String "?" (String "=" s1)) =>
          match read_disj f s1 g with
          | Some (r, String ")" s2, g1) => Some (RAhead r, s2, g1)
          | _ => None
          end
      | String "(" (String "?" (String "<" (String "=" s1))) =>
          match read_disj f s1 g with
          | Some (RClass neg items, String ")" s2, g1) => Some (RBehind neg items, s2, g1)
          | _ => None
          end
      | String "(" (String "?" (String ":" s1)) =>
          quantified
            match read_disj f s1 g with
            | Some (r, String ")" s2, g1) => Some (r, s2, g1)
            | _ => None
            end
      | String "(" s1 =>
          quantified
            match read_disj f s1 (S g) with
            | Some (r, String ")" s2, g1) => Some (RGroup (S g) r, s2, g1)
            | _ => None
            end
      | String "[" (String "^" s1) =>
          quantified
            match read_class s1 with
            | Some (items, s2) => Some (RClass true items, s2, g)
            | None => None
            end
      | String "[" s1 =>
          quantified
            match read_class s1 with
            | Some (items, s2) => Some (RClass false items, s2, g)
            | None => None
            end
      | String "." s1 => quantified (Some (RAny, s1, g))
      | String "\" (String c s1) =>
          quantified
            match escape_item c with
            | Some (CChar a) => Some (RChar a, s1, g)
            | Some i => Some (RClass false [i], s1, g)
            | None => None
            end
      | String c s1 =>
          if Ascii.eqb c "*" || Ascii.eqb c "+" || Ascii.eqb c "?"
             || Ascii.eqb c "{" || Ascii.eqb c "}" || Ascii.eqb c "]"
          then None
          else quantified (Some (RChar c, s1, g))
      end
  end.

Definition read_pattern (src : string) : option regex :=
  match read_disj (4 * String.length src + 4) src 0 with
  | Some (r, EmptyString, _) => Some r
  | _ => None
  end.

(** A regular expression object: its pattern and its flags.  [g] matters
    to the callers only (replace, match, lastIndex). *)
Record regexp : Type := mkRe { re_src : regex; re_i : bool; re_g : bool }.

Definition has_flag (f : ascii) (flags : string) : bool :=
  includes flags (String f EmptyString).

(** [new RegExp(src, flags)] and the literal [/src/flags].  A source text
    outside the supported grammar yields the pattern that matches nothing;
    [well_formed] tells the two apart. *)
Definition RE (src flags : string) : regexp :=
  mkRe (match read_pattern src with
        | Some r => r
        | None => RClass false []
        end)
       (has_flag "i" flags) (has_flag "g" flags).

Definition well_formed (src : string) : bool :=
  match read_pattern src with Some _ => true | None => false end.

(** [re.test(s)] for a regular expression without the [g] flag, and
    [s.match(re)] used as a truth value. *)
Definition test (re : regexp) (s : string) : bool :=
  match rsearch (re_i re) (re_src re) None s with
  | Some _ => true
  | None => false
  end.

(** The template of a replacement: literal text, [$n] and [$&]. *)
Inductive rpiece : Type :=
| PText (t : string)
| PGroup (n : nat)
| PMatch.

(** The replacement patterns [$$], [$&] and [$1]..[$9]; the replacement
    texts of the source use no other. *)
Fixpoint read_template (s : string) : list rpiece :=
  match s with
  | EmptyString => []
  | String "$" (String "$" s') => PText "$" :: read_template s'
  | String "$" (String "&" s') => PMatch :: read_template s'
  | String "$" (String c s' as s1) =>
      if is_digit c && negb (Ascii.eqb c "0")
      then PGroup (N.to_nat (digit_val c)) :: read_template s'
      else PText "$" :: read_template s1
  | String c s' => PText (String c EmptyString) :: read_template s'
  end.

Fixpoint expand (tpl : list rpiece) (m : string) (caps : captures) : string :=
  match tpl with
  | [] => EmptyString
  | PText t :: tpl' => t ++ expand tpl' m caps
  | PGroup n :: tpl' => get_capture n caps ++ expand tpl' m caps
  | PMatch :: tpl' => m ++ expand tpl' m caps
  end.

(** [s.replace(re, tpl)] for a regular expression with the [g] flag:
    every match, left to right, without overlap; after an empty match the
    search resumes one character further. *)
Fixpoint replace_from (fuel : nat) (ci : bool) (r : regex) (tpl : list rpiece)
    (prev : option ascii) (s : string) : string :=
  match fuel with
  | O => s
  | S fuel' =>
      match rsearch ci r prev s with
      | None => s
      | Some f =>
          skipped f ++ expand tpl (matched f) (groups f) ++
          match matched f with
          | EmptyString =>
              match rest f with
              | EmptyString => EmptyString
              | String c s' => String c (replace_from fuel' ci r tpl (Some c) s')
              end
          | String _ _ => replace_from fuel' ci r tpl (after_prev f) (rest f)
          end
      end
  end.

Definition replace (re : regexp) (by_ : string) (s : string) : string :=
  replace_from (S (String.length s)) (re_i re) (re_src re) (read_template by_) None s.



(** [re.test(s)] for a regular expression object with the [g] flag, whose
    [lastIndex] is [li]: the search starts at [li]; a success leaves
    [lastIndex] at the end of the match, a failure resets it to 0. *)
Definition test_g (re : regexp) (li : nat) (s : string) : bool * nat :=
  if Nat.ltb (String.length s) li then (false, O)
  else
    match rsearch (re_i re) (re_src re) (last_char None (take li s)) (drop li s) with
    | Some f => (true, String.length s - String.length (rest f))
    | None => (false, O)
    end.

(** [s.replace(re, tpl)] with the [g] flag sets [lastIndex] to 0 before it
    starts and leaves it at 0. *)
Definition replace_g (re : regexp) (by_ : string) (s : string) : string * nat :=
  (replace re by_ s, O).

End Regex.

(* ===================================================================== *)
(** ** enhanceProductName (app/lib/productNameEnhancer.ts) *)
(* ===================================================================== *)

Module Enhancer.
Import JS Regex.

Record EnhancedProduct : Type := mkEnhanced {
  originalName : string;
  enhancedName : string;
  category : option string;     (* [None] is undefined *)
  confidence : float
}.

(** Store-specific abbreviation patterns, in the order of Object.entries
    (insertion order: no key is an array index). *)
Definition SAFEWAY_PATTERNS : list (string * string) :=
  [ ("G-P", "Grey Poupon");
    ("TATES", "Tate's");
    ("SPINDRIFT", "Spindrift");
    ("LND O LKS", "Land O Lakes");
    ("AMYS", "Amy's");
    ("SIG", "Signature");
    ("WT", "Weight");
    ("CRV", "California Redemption Value");
    ("GALBANI", "Galbani");
    ("PUFFS", "Puffs");
    ("BOUNCE", "Bounce");
    ("PRECIOUS GALBANI", "Precious Galbani");
    ("WHOLE GRAIN", "Whole Grain") ].

Definition WALMART_PATTERNS : list (string * string) :=
  [ ("GV", "Great Value");
    ("MM", "Marketside");
    ("EQ", "Equate");
    ("MV", "Member's Mark");
    ("HRI", "Hormel");
    ("CL", "Classic");
    ("CHS", "Cheese");
    ("PEP", "Pepperoni");
    ("USG", "Usage");
    ("SC", "South Carolina");
    ("BCN", "Bacon");
    ("CHDDR", "Cheddar");
    ("ABF", "ABF");
    ("THINBRST", "Thin Crust");
    ("DV", "Dove");
    ("RSE", "Rose");
    ("LT", "Light");
    ("SWT", "Sweet");
    ("BUTTR", "Butter");
    ("AVO", "Avocado");
    ("VERDE", "Verde");
    ("BTS", "Boots");
    ("BLON", "Blonde");
    ("TR", "Trail");
    ("HS", "House");
    ("FRM", "From");
    ("HNY", "Honey");
    ("GRMS", "Grams");
    ("ENTYSAS", "Entity SAS");
    ("PAL ORI", "Palmolive Original");
    ("TIDEHEORG", "Tide HE Original");
    ("CHRMNSF", "Charmin Soft");
    ("WHT GRAN SUG", "White Granulated Sugar");
    ("ZPR SANDW", "Zipper Sandwich");
    ("POUF", "Pouf");
    ("PALOMA", "Paloma");
    ("CCSERVINGBWL", "CC Serving Bowl");
    ("FUSILL", "Fusilli");
    ("MS10X14BOARD", "MS 10x14 Board");
    ("ELD-HARV", "Eldorado Harvest");
    ("CHK BST BNLS", "Chicken Breast Boneless");
    ("MIX VEG", "Mixed Vegetables") ].

Definition TARGET_PATTERNS : list (string * string) :=
  [ ("UP&UP", "Up & Up");
    ("GH", "Good & Gather");
    ("MW", "Market Pantry") ].

(** [STORE_PATTERNS[storeKey]]: the key is upper-cased by the caller, so it
    never names a property inherited from Object.prototype. *)
Definition STORE_PATTERNS (storeKey : string) : option (list (string * string)) :=
  if String.eqb storeKey "SAFEWAY" then Some SAFEWAY_PATTERNS
  else if String.eqb storeKey "WALMART" then Some WALMART_PATTERNS
  else if String.eqb storeKey "TARGET" then Some TARGET_PATTERNS
  else None.

Definition COMMON_ABBREVIATIONS : list (string * string) :=
  [ ("CK", "Cookies"); ("BK", "Book"); ("PK", "Pack"); ("LB", "Pound");
    ("OZ", "Ounce"); ("FL", "Fluid"); ("CT", "Count"); ("LRG", "Large");
    ("MED", "Medium"); ("SM", "Small"); ("REG", "Regular"); ("LT", "Light");
    ("FF", "Fat Free"); ("LF", "Low Fat"); ("WHL", "Whole"); ("ORG", "Organic");
    ("FRZ", "Frozen"); ("FRS", "Fresh"); ("DRY", "Dry"); ("LIQ", "Liquid");
    ("PWD", "Powder"); ("CONC", "Concentrate"); ("UNSLTD", "Unsalted");
    ("SLTD", "Salted"); ("SW", "Sweet"); ("UNSWT", "Unsweetened");
    ("VAN", "Vanilla"); ("CHOC", "Chocolate"); ("STR", "Strawberry");
    ("RSP", "Raspberry"); ("LMN", "Lemon"); ("LIM", "Lime"); ("ORNG", "Orange");
    ("APL", "Apple"); ("BAN", "Banana"); ("GRP", "Grape"); ("BLU", "Blueberry");
    ("BLK", "Black"); ("WHT", "White"); ("RED", "Red"); ("GRN", "Green");
    ("YLW", "Yellow") ].

Definition PRODUCT_CATEGORIES : list (string * string) :=
  [ ("MUSTARD|KETCHUP|MAYO|SAUCE", "Condiments");
    ("COOKIE|CAKE|BREAD|BAGEL|MUFFIN", "Bakery");
    ("MILK|CHEESE|BUTTER|YOGURT|CREAM", "Dairy");
    ("CHICKEN|BEEF|PORK|FISH|MEAT", "Meat");
    ("APPLE|BANANA|ORANGE|POTATO|ONION|CARROT", "Produce");
    ("SOAP|SHAMPOO|TOOTHPASTE|DETERGENT|CLEANER", "Personal Care & Cleaning");
    ("SODA|JUICE|WATER|COFFEE|TEA", "Beverages");
    ("PASTA|RICE|CEREAL|CRACKERS|CHIPS", "Pantry");
    ("ICE CREAM|PIZZA|VEGETABLES|FRUIT", "Frozen") ].

(** [new RegExp(`\\b${abbrev}\\b`, 'gi')]. *)
Definition abbrev_regex (abbrev : string) : regexp :=
  RE ("\b" ++ abbrev ++ "\b") "gi".

(** [new RegExp(keywords, 'i')]. *)
Definition keyword_regex (keywords : string) : regexp :=
  RE keywords "i".

Definition re_spaces : regexp := RE "\s+" "g".
Definition re_special : regexp := RE "[^\w\s&'-]" "g".

(** The state threaded through the forEach loops. *)
Definition acc : Type := (string * float)%type.

(** One round of an abbreviation loop: the regular expression object is
    fresh (lastIndex 0), so [test] searches from the start. *)
Definition apply_abbrev (bonus : float) (a : acc) (entry : string * string) : acc :=
  let '(name, conf) := a in
  let re := abbrev_regex (fst entry) in
  if test re name then (replace re (snd entry) name, PrimFloat.add conf bonus)
  else (name, conf).

Definition apply_abbrevs (bonus : float) (table : list (string * string)) (a : acc) : acc :=
  fold_left (apply_abbrev bonus) table a.

(** One round of the category loop: every matching row assigns the
    category and adds to the confidence. *)
Definition apply_category (name : string) (a : option string * float)
    (row : string * string) : option string * float :=
  if test (keyword_regex (fst row)) name
  then (Some (snd row), PrimFloat.add (snd a) 0.1%float)
  else a.

Definition determine_category (name : string) (conf : float)
  : option string * float :=
  fold_left (apply_category name) PRODUCT_CATEGORIES (None, conf).

Definition initial_cleanup (originalName : string) : string :=
  trim (replace re_special "" (replace re_spaces " " (trim originalName))).

Definition title_case (name : string) : string :=
  trim (replace re_spaces " " (join " " (map capitalize (split_on " " name)))).

(** The abbreviation tables that apply for a store name: the table of the
    store, when there is one, then the common table. *)
Definition store_table (storeName : string) : list (string * string) :=
  match STORE_PATTERNS (toUpperCase storeName) with
  | Some patterns => patterns
  | None => []
  end.

(** The name and the confidence after the two abbreviation loops. *)
Definition expand_name (originalName storeName : string) : acc :=
  apply_abbrevs 0.05%float COMMON_ABBREVIATIONS
    (apply_abbrevs 0.1%float (store_table storeName)
       (initial_cleanup originalName, 0.7%float)).

(** The rows of the keyword table whose pattern matches [name]. *)
Definition matching_rows (name : string) : list (string * string) :=
  filter (fun row => test (keyword_regex (fst row)) name) PRODUCT_CATEGORIES.

(** No abbreviation of the store's table or of the common table occurs in
    [name]. *)
Definition dictionary_clean (name storeName : string) : bool :=
  forallb (fun entry => negb (test (abbrev_regex (fst entry)) name))
    (store_table storeName ++ COMMON_ABBREVIATIONS).

Definition enhanceProductName (originalName storeName : string) : EnhancedProduct :=
  let '(name, conf) := expand_name originalName storeName in
  let '(cat, conf') := determine_category name conf in
  mkEnhanced originalName (title_case name) cat (Math_min conf' 1.0%float).

End Enhancer.

(* ===================================================================== *)
(** ** The vocabulary of the properties of the name enhancer *)
(* ===================================================================== *)

Module TextForm.
Import JS Regex.

(** Every character of [s] satisfies [p]. *)
Fixpoint forall_chars (p : ascii -> bool) (s : string) : bool :=
  match s with
  | EmptyString => true
  | String c s' => p c && forall_chars p s'
  end.

(** A replacement template without [$] patterns. *)
Definition text_only (tpl : list rpiece) : bool :=
  forallb (fun piece => match piece with PText _ => true | _ => false end) tpl.

Definition suffix_of (s' s : string) : Prop := exists pre, s = (pre ++ s')%string.

(** A matcher only hands a suffix of its input to its continuation. *)
Definition step_suffix (step : option ascii -> string -> captures -> cont -> option mstate)
  : Prop :=
  forall prev s caps k res,
    step prev s caps k = Some res ->
    exists p s' c, suffix_of s' s /\ k p s' c = Some res.

(** A matcher that takes one character of a set. *)
Definition one_char (P : ascii -> bool)
    (step : option ascii -> string -> captures -> cont -> option mstate) : Prop :=
  forall prev s caps k,
    step prev s caps k
    = match s with
      | String c s' => if P c then k (Some c) s' caps else None
      | EmptyString => None
      end.

(** The continuation that accepts every position. *)
Definition accept : cont := fun p s c => Some (p, s, c).

(** Every run of white space replaced by one space; [in_run] tells that
    the space of the current run is already written. *)
Fixpoint collapse (in_run : bool) (s : string) : string :=
  match s with
  | EmptyString => EmptyString
  | String c s' =>
      if is_space c
      then if in_run then collapse true s' else String " " (collapse true s')
      else String c (collapse false s')
  end.

Fixpoint keep_chars (p : ascii -> bool) (s : string) : string :=
  match s with
  | EmptyString => EmptyString
  | String c s' => if p c then String c (keep_chars p s') else keep_chars p s'
  end.

(** The class \s and the members of the class [^\w\s&'-]. *)
Definition space_class : regex := RClass false [CSpace].
Definition special_items : list citem := [CWord; CSpace; CChar "&"; CChar "'"; CChar "-"].

(** A character the clean-up removes. *)
Definition is_special (c : ascii) : bool := class_has false true special_items c.

(** The characters of a cleaned name: word characters, &, ' and -, and the
    space between words. *)
Definition plain_char (c : ascii) : bool :=
  is_word_char c || Ascii.eqb c "&" || Ascii.eqb c "'" || Ascii.eqb c "-".

Definition plain_or_space (c : ascii) : bool := plain_char c || Ascii.eqb c " ".

(** White space is the space character only. *)
Definition only_sp (c : ascii) : bool := negb (is_space c) || Ascii.eqb c " ".

(** The case of a letter is the one title-casing gives it. *)
Definition case_ok (start : bool) (c : ascii) : bool :=
  if start then Ascii.eqb (to_upper c) c else Ascii.eqb (to_lower c) c.

(** [cap_from start s]: the first letter of every word in upper case, the
    others in lower case; words are separated by the space character. *)
Fixpoint cap_from (start : bool) (s : string) : string :=
  match s with
  | EmptyString => EmptyString
  | String c s' =>
      if Ascii.eqb c " " then String " " (cap_from true s')
      else String (if start then to_upper c else to_lower c) (cap_from false s')
  end.

(** Normal form: plain characters in the right case, single spaces between
    words, no space at the ends.  [start] tells that a word must start
    here. *)
Fixpoint nf (start : bool) (s : string) : bool :=
  match s with
  | EmptyString => negb start
  | String c s' =>
      if Ascii.eqb c " " then negb start && nf true s'
      else plain_char c && case_ok start c && nf false s'
  end.

(** The same, where the text may end after a space. *)
Fixpoint snf (start : bool) (s : string) : bool :=
  match s with
  | EmptyString => true
  | String c s' =>
      if Ascii.eqb c " " then negb start && snf true s'
      else plain_char c && case_ok start c && snf false s'
  end.

(** The capitalised words, each after a space. *)
Fixpoint tailcat (ws : list string) : string :=
  match ws with
  | [] => EmptyString
  | w :: ws' => (" " ++ capitalize w ++ tailcat ws')%string
  end.

(** An expansion without [$] patterns and with plain characters only. *)
Definition plain_expansion (v : string) : bool :=
  text_only (read_template v)
  && forall_chars plain_or_space (expand (read_template v) EmptyString []).

End TextForm.

(* ===================================================================== *)
(** ** EnhancedNonFoodDetector (unnamed/part_007) *)
(* ===================================================================== *)

Module NonFood.
Import JS Regex.

Inductive Action : Type := hide | review | keep.

Record NonFoodDetectionResult : Type := mkResult {
  isNonFood : bool;
  confidence : float;
  reason : string;
  category : string;
  suggestedAction : Action
}.

Record Item : Type := mkItem { name : string; price : float }.

(** The optional third argument of detectNonFood; [itemIndex] is an index
    into [allItems] (a number that is no index of the list behaves as an
    index past its end: the score map has no entry for it). *)
Record Context : Type := mkContext {
  storeName : option string;
  allItems : option (list Item);
  itemIndex : option nat
}.

(** detectionRules.definiteNonFood, in the order of Object.entries. *)
Definition definiteNonFood : list (string * list regexp) :=
  [ ("tax",
      [ RE "\b(sales?|state|city|local|county)\s*tax\b" "i";
        RE "\btax\s*(\d+\.\d{2}|\d+%)" "i";
        RE "\b(hst|gst|pst|vat)\b" "i";
        RE "\btotal\s*tax" "i";
        RE "tax\s*total" "i" ]);
    ("payment",
      [ RE "\b(amex|visa|mastercard|discover|card)\s*(tend|tender|payment|transaction)" "i";
        RE "\b(cash|credit|debit)\s*(tend|tender|payment)" "i";
        RE "\b(payment|tender)\s*(amount|method)" "i";
        RE "\bchange\s*(due|given)" "i";
        RE "\b(subtotal|total|balance)\s*\d+\.\d{2}$" "i";
        RE "\b(cashback|cash\s*back)\b" "i";
        RE "\bgift\s*card" "i" ]);
    ("fees",
      [ RE "\b(bag|bottle|container|recycling|environmental)\s*(fee|charge|deposit)" "i";
        RE "\bcrv\b" "i";
        RE "\b(service|handling|processing|delivery|convenience)\s*(fee|charge)" "i";
        RE "\b(plastic|paper|shopping)\s*bag" "i";
        RE "\bdeposit\s*(fee|charge)" "i" ]);
    ("coupons",
      [ RE "\b(manufacturer|store|digital|mobile|app)\s*(coupon|discount)" "i";
        RE "\bscanned\s*coupon" "i";
        RE "\bmfr\s*coupon" "i";
        RE "\b(member|club|card)\s*(savings|discount|price)" "i";
        RE "\btotal\s*savings" "i";
        RE "\byou\s*saved" "i";
        RE "^\d+\.\d{2}-$" "";
        RE "-\s*\$?\d+\.\d{2}$" "";
        RE "\b(promo|promotion|deal|offer|rebate)\b" "i" ]) ].

(** detectionRules.likelyNonFood. *)
Definition likelyNonFood : list (string * list regexp) :=
  [ ("personalCare",
      [ RE "\b(shampoo|conditioner|soap|lotion|deodorant|toothpaste|mouthwash)\b" "i";
        RE "\b(razor|shaving|cologne|perfume|makeup|lipstick|foundation)\b" "i";
        RE "\b(bandaid|first\s*aid|medicine|vitamin|supplement|aspirin|tylenol|advil)\b" "i";
        RE "\b(feminine|tampons|pads|pregnancy|test)\b" "i" ]);
    ("household",
      [ RE "\b(detergent|fabric\s*softener|bleach|cleaner|disinfectant|windex|lysol)\b" "i";
        RE "\b(toilet\s*paper|paper\s*towel|tissue|napkin|kleenex|charmin|bounty)\b" "i";
        RE "\b(trash\s*bag|garbage\s*bag|storage\s*bag|aluminum\s*foil|plastic\s*wrap)\b" "i";
        RE "\b(light\s*bulb|battery|batteries|extension\s*cord|air\s*freshener)\b" "i" ]);
    ("pharmacy",
      [ RE "\b(prescription|rx|pharmacy|medication|pills|tablets|capsules)\b" "i";
        RE "\b(cough|cold|flu|allergy|pain\s*relief|antacid|laxative)\b" "i";
        RE "\b(blood\s*pressure|diabetes|insulin|heart|cholesterol)\b" "i" ]);
    ("babyPet",
      [ RE "\b(diaper|wipe|baby\s*(food|formula|oil|powder|lotion))\b" "i";
        RE "\b(cat|dog|pet)\s*(food|treat|toy|litter|collar|leash)\b" "i";
        RE "\b(purina|pedigree|friskies|meow\s*mix|iams|whiskas)\b" "i" ]);
    ("nonEdible",
      [ RE "\b(magazine|newspaper|book|greeting\s*card|gift\s*card|phone\s*card)\b" "i";
        RE "\b(lottery|scratch|ticket|cigarette|tobacco|vape|electronic)\b" "i";
        RE "\b(flower|plant|garden|fertilizer|mulch|seeds)\b" "i" ]) ].

(** detectionRules.storeServices. *)
Definition storeServices : list regexp :=
  [ RE "\bstore\s*\d+" "i";
    RE "\b(manager|employee|staff|cashier)\b" "i";
    RE "\b(receipt|transaction)\s*(number|id|#)" "i";
    RE "\byour\s*cashier\s*today\s*was" "i";
    RE "\bthank\s*you\s*for\s*shopping" "i";
    RE "\b(date|time|address|phone)\s*[:=]" "i";
    RE "\b\d{1,2}\/\d{1,2}\/\d{2,4}\b" "";
    RE "\b\d{3}-\d{3}-\d{4}\b" "";
    RE "\b\d+\s*(first|main|state|road|street|ave|blvd)\b" "i" ].

Definition nonFoodBrands : list (string * list string) :=
  [ ("personalCare",
      [ "dove"; "olay"; "head shoulders"; "pantene"; "herbal essences"; "aussie"; "tresemme";
        "colgate"; "crest"; "oral-b"; "listerine"; "scope"; "aquafresh";
        "gillette"; "schick"; "venus"; "old spice"; "axe"; "degree"; "secret";
        "covergirl"; "maybelline"; "revlon"; "loreal"; "neutrogena"; "cetaphil" ]);
    ("household",
      [ "tide"; "downy"; "gain"; "cascade"; "finish"; "dawn"; "joy";
        "lysol"; "clorox"; "windex"; "febreze"; "glade"; "air wick";
        "charmin"; "bounty"; "scott"; "kleenex"; "puffs"; "angel soft";
        "glad"; "hefty"; "ziploc"; "reynolds"; "saran" ]);
    ("pharmacy",
      [ "tylenol"; "advil"; "aleve"; "motrin"; "bayer"; "excedrin";
        "benadryl"; "claritin"; "zyrtec"; "allegra"; "sudafed";
        "robitussin"; "mucinex"; "dayquil"; "nyquil"; "pepto"; "tums";
        "centrum"; "nature made"; "one a day"; "flintstones" ]);
    ("babyPet",
      [ "pampers"; "huggies"; "luvs"; "honest"; "seventh generation";
        "similac"; "enfamil"; "gerber"; "earth best";
        "purina"; "pedigree"; "friskies"; "meow mix"; "iams"; "whiskas";
        "blue buffalo"; "hills"; "royal canin"; "wellness" ]) ].

(** The score analyzeReceiptContext gives to the item at [index]. *)
Definition contextScoreOf (len : nat) (storeName : string) (index : nat) (item : Item)
  : float :=
  let s0 := 0%float in
  let s1 := if PrimFloat.ltb 100 (price item) then PrimFloat.add s0 0.8
            else if PrimFloat.ltb 50 (price item) then PrimFloat.add s0 0.4
            else s0 in
  let s2 := if rem1_is_zero (price item) && PrimFloat.leb 20 (price item)
            then PrimFloat.add s1 0.3 else s1 in
  let s3 := if PrimFloat.ltb (price item) 0 then PrimFloat.add s2 0.9 else s2 in
  let positionFromEnd := len - index in
  let s4 := if Nat.leb positionFromEnd 3 && PrimFloat.ltb 20 (price item)
            then PrimFloat.add s3 0.2 else s3 in
  let s5 := if includes storeName "PHARMACY" || includes storeName "CVS"
               || includes storeName "WALGREENS"
            then PrimFloat.add s4 0.1 else s4 in
  s5.

Fixpoint scores_from (len : nat) (storeName : string) (index : nat) (items : list Item)
  : list float :=
  match items with
  | [] => []
  | item :: rest =>
      contextScoreOf len storeName index item :: scores_from len storeName (S index) rest
  end.

(** The map from index to context score, as the list of its values. *)
Definition analyzeReceiptContext (items : list Item) (storeName : string) : list float :=
  scores_from (List.length items) storeName 0 items.

(** The mutable locals of detectNonFood. *)
Record locals : Type := mkLocals {
  l_confidence : float;
  l_category : string;
  l_reason : string
}.

(** [reason || text]. *)
Definition or_text (reason text : string) : string :=
  match reason with EmptyString => text | _ => reason end.

(** The first category of [rules] one of whose patterns matches. *)
Fixpoint first_match (rules : list (string * list regexp)) (name : string) : option string :=
  match rules with
  | [] => None
  | (cat, patterns) :: rest =>
      if existsb (fun p => test p name) patterns then Some cat
      else first_match rest name
  end.

Definition layer3_pattern (name cat : string) (l : locals) (p : regexp) : locals :=
  if test p name
  then mkLocals (Math_max (l_confidence l) 0.85) cat
         ("Likely non-food: matches " ++ cat ++ " pattern")
  else l.

Definition layer3 (name : string) (l : locals) : locals :=
  fold_left (fun l '(cat, patterns) => fold_left (layer3_pattern name cat) patterns l)
    likelyNonFood l.

Definition layer4_brand (name brandCat : string) (l : locals) (brand : string) : locals :=
  if includes name (toLowerCase brand)
  then mkLocals (Math_max (l_confidence l) 0.8) brandCat
         ("Non-food brand detected: " ++ brand)
  else l.

Definition layer4 (name : string) (l : locals) : locals :=
  fold_left (fun l '(brandCat, brands) => fold_left (layer4_brand name brandCat) brands l)
    nonFoodBrands l.

Definition percent (x : float) : string :=
  match Math_round (PrimFloat.mul x 100) with
  | Some z => string_of_Z z
  | None => "NaN"
  end.

Definition layer5 (context : option Context) (l : locals) : locals :=
  match context with
  | Some ctx =>
      match allItems ctx, itemIndex ctx with
      | Some items, Some index =>
          let contextScores :=
            analyzeReceiptContext items
              (match storeName ctx with Some n => n | None => EmptyString end) in
          let contextScore := nth index contextScores 0%float in
          let conf := Math_max (l_confidence l) contextScore in
          if PrimFloat.ltb 0.5 contextScore
          then mkLocals conf (l_category l)
                 (or_text (l_reason l)
                    ("Context analysis suggests non-food (" ++ percent contextScore
                     ++ "% context score)"))
          else mkLocals conf (l_category l) (l_reason l)
      | _, _ => l
      end
  | None => l
  end.

(** The part of layer 6 after the negative-price return. *)
Definition layer6 (price : option float) (l : locals) : locals :=
  match price with
  | Some p =>
      let l1 :=
        if PrimFloat.ltb 100 p
        then mkLocals (Math_max (l_confidence l) 0.7) (l_category l)
               (or_text (l_reason l) "Unusually high price for individual food item")
        else l in
      if PrimFloat.leb 50 p && rem1_is_zero p
      then mkLocals (Math_max (l_confidence l1) 0.6) "payment"
             (or_text (l_reason l1) "Round high-value amount suggests payment/tender")
      else l1
  | None => l
  end.

Definition layer7 (name : string) (l : locals) : locals :=
  let l1 :=
    if Nat.ltb (String.length name) 3
    then mkLocals (Math_max (l_confidence l) 0.7) (l_category l)
           (or_text (l_reason l) "Very short name, likely not a food item")
    else l in
  if test (RE "^\d+[a-z]*\d*$" "i") name
  then mkLocals (Math_max (l_confidence l1) 0.8) (l_category l1)
         (or_text (l_reason l1) "Appears to be a product code or UPC")
  else l1.

Definition negative_price (price : option float) : bool :=
  match price with
  | Some p => PrimFloat.ltb p 0
  | None => false
  end.

Definition detectNonFood (itemName : string) (price : option float)
    (context : option Context) : NonFoodDetectionResult :=
  let name := trim (toLowerCase itemName) in
  (* Layer 1: definite non-food patterns *)
  match first_match definiteNonFood name with
  | Some cat =>
      mkResult true 0.95 ("Definite non-food: matches " ++ cat ++ " pattern") cat hide
  | None =>
  (* Layer 2: store services and metadata *)
  if existsb (fun p => test p name) storeServices
  then mkResult true 0.9 "Store service or metadata" "service" hide
  else
  (* Layers 3 to 5 *)
  let l5 := layer5 context (layer4 name (layer3 name (mkLocals 0 "other" EmptyString))) in
  (* Layer 6: price-based heuristics *)
  if negative_price price
  then mkResult true 0.95 "Negative price indicates discount/refund" "discount" hide
  else
  let l7 := layer7 name (layer6 price l5) in
  let confidence := l_confidence l7 in
  let suggestedAction :=
    if PrimFloat.leb 0.85 confidence then hide
    else if PrimFloat.leb 0.6 confidence then review
    else keep in
  mkResult (PrimFloat.leb 0.6 confidence) confidence
    (or_text (l_reason l7) "No non-food indicators detected")
    (if PrimFloat.leb 0.6 confidence then l_category l7 else "other")
    suggestedAction
  end.

(** The name the layers look at. *)
Definition layer_name (itemName : string) : string := trim (toLowerCase itemName).

(** Layer 2 is the one that answers: no definite pattern matches and a
    store-service pattern does. *)
Definition store_service_only (itemName : string) : bool :=
  match first_match definiteNonFood (layer_name itemName) with
  | Some _ => false
  | None => existsb (fun p => test p (layer_name itemName)) storeServices
  end.

(** A confidence between 0 and 1. *)
Definition unit_interval (x : float) : bool :=
  PrimFloat.leb 0 x && PrimFloat.leb x 1.

(** detectNonFoodBatch: [item.price || 0] for the context list. *)
Definition price_or_zero (price : option float) : float :=
  match price with
  | Some p => if PrimFloat.is_nan p || PrimFloat.is_zero p then 0%float else p
  | None => 0%float
  end.

Definition detectNonFoodBatch (items : list (string * option float))
    (storeName : option string) : list NonFoodDetectionResult :=
  let allItems := map (fun it => mkItem (fst it) (price_or_zero (snd it))) items in
  map (fun '(index, it) =>
         detectNonFood (fst it) (snd it)
           (Some (mkContext storeName (Some allItems) (Some index))))
      (combine (seq 0 (List.length items)) items).

End NonFood.

(* ===================================================================== *)
(** ** ProductNameCleaner (unnamed/part_006) *)
(* ===================================================================== *)

Module Cleaner.
Import JS Regex.

Record ProductNameCleaningResult : Type := mkCleaning {
  originalName : string;
  cleanedName : string;
  confidence : float;
  appliedCorrections : list string
}.

(** An entry of characterSubstitutions.  Its pattern is a regular
    expression object with the [g] flag, shared by all calls: [lastIndex]
    is the mutable state of that object. *)
Record substitution : Type := mkSub {
  pattern : string;
  lastIndex : nat;
  replacement : string;
  description : string
}.

(** A dictionary, as the list of its entries in the order of
    Object.entries: keys that are array indices first, in ascending order,
    then the other keys in insertion order. *)
Definition dict : Type := list (string * string).

(** The static field [corrections]. *)
Record corrections : Type := mkCorrections {
  characterSubstitutions : list substitution;
  foodTerms : dict;
  storeBrands : dict;
  nationalBrands : dict;
  measurements : dict
}.

Definition characterSubstitutions0 : list substitution :=
  [ mkSub "\b0(?=[A-Z])" 0 "O" "OCR: 0→O before letters";
    mkSub "\b1(?=[A-Z])" 0 "I" "OCR: 1→I before letters";
    mkSub "(?<=[A-Z])0(?=[A-Z])" 0 "O" "OCR: 0→O between letters";
    mkSub "(?<=[A-Z])1(?=[A-Z])" 0 "I" "OCR: 1→I between letters";
    mkSub "\bVV" 0 "W" "OCR: VV→W";
    mkSub "\bU([AEIOU])" 0 "O$1" "OCR: U+vowel→O+vowel" ].

Definition foodTerms0 : dict :=
  [ ("CHIKEN", "CHICKEN"); ("CHICEN", "CHICKEN"); ("CHIKN", "CHICKEN");
    ("CHICK", "CHICKEN"); ("CHCKN", "CHICKEN"); ("BNLS", "BONELESS");
    ("SKLSS", "SKINLESS"); ("GRND", "GROUND"); ("BRST", "BREAST"); ("THGH", "THIGH");
    ("WGNS", "WINGS"); ("IMPOSS", "IMPOSSIBLE"); ("BURG", "BURGER");
    ("TOMATOE", "TOMATO"); ("POTATOE", "POTATO"); ("ONION", "ONIONS");
    ("TOM", "TOMATO"); ("BROCOLI", "BROCCOLI"); ("BROCOLLI", "BROCCOLI");
    ("CRROT", "CARROT"); ("AVACADO", "AVOCADO"); ("AVACODO", "AVOCADO");
    ("ACOCADO", "AVOCADO"); ("PEPPERS", "PEPPERS"); ("BELL", "BELL");
    ("CARROTS", "CARROTS"); ("SHALLOTS", "SHALLOTS"); ("SHLLOTS", "SHALLOTS");
    ("SHALOTS", "SHALLOTS"); ("PERSTN", "PERSIAN"); ("PERSTAN", "PERSIAN");
    ("MLK", "MILK"); ("CHZ", "CHEESE"); ("CHSE", "CHEESE"); ("CHEES", "CHEESE");
    ("YOGRT", "YOGURT"); ("YOQRT", "YOGURT"); ("YOUGURT", "YOGURT"); ("BTR", "BUTTER");
    ("CRM", "CREAM"); ("CREM", "CREAM"); ("FF", "FAT FREE"); ("LT", "LIGHT");
    ("VANIL", "VANILLA"); ("VANILA", "VANILLA"); ("SCE", "SAUCE"); ("SAUGE", "SAUCE");
    ("SAUSE", "SAUCE"); ("SACE", "SAUCE"); ("KETCHP", "KETCHUP");
    ("KETCHU", "KETCHUP"); ("MUSTRD", "MUSTARD"); ("MAYO", "MAYONNAISE");
    ("MAYON", "MAYONNAISE"); ("PAST", "PASTE"); ("PASTE", "PASTE"); ("BRD", "BREAD");
    ("BRED", "BREAD"); ("RCE", "RICE"); ("RYCE", "RICE"); ("PST", "PASTA");
    ("PSTA", "PASTA"); ("FLR", "FLOUR"); ("FLUR", "FLOUR"); ("W/G", "WHOLE GRAIN");
    ("WG", "WHOLE GRAIN"); ("WHEAT", "WHEAT"); ("ORGN", "ORGANIC");
    ("ORGNC", "ORGANIC"); ("ORG", "ORGANIC"); ("ORGNIC", "ORGANIC"); ("FRZ", "FROZEN");
    ("FRZN", "FROZEN"); ("FR0Z", "FROZEN"); ("WHL", "WHOLE"); ("WH", "WHITE");
    ("WHT", "WHITE"); ("WHTE", "WHITE"); ("FNCY", "FANCY"); ("PARM", "PARMESAN");
    ("SHRD", "SHREDDED"); ("RD", "REDUCED"); ("FT", "FAT"); ("LS", "LOW SODIUM");
    ("PAC", "PACIFIC"); ("HZ", "HEINZ"); ("JIF", "JIF"); ("BROTH", "BROTH");
    ("CREAMY", "CREAMY") ].

Definition storeBrands0 : dict :=
  [ ("365", "365 EVERYDAY VALUE"); ("PUB", ""); ("PBX", ""); ("PUBLIX", "");
    ("GV", "GREAT VALUE"); ("SIG", "SIGNATURE"); ("MM", "MARKETSIDE");
    ("EQ", "EQUATE"); ("PV", "PARENT'S CHOICE"); ("SW", "SIMPLY WHITE");
    ("KS", "KIRKLAND SIGNATURE"); ("TJ", "TRADER JOE'S") ].

Definition nationalBrands0 : dict :=
  [ ("MAHATHA", "MAHATMA"); ("MAHATAMA", "MAHATMA"); ("JASN", "JASMINE");
    ("JASH", "JASMINE"); ("JASMIN", "JASMINE"); ("HDISIN", "HOISIN");
    ("HOSIN", "HOISIN"); ("HOYSIN", "HOISIN"); ("SRIRACHA", "SRIRACHA");
    ("SIRACHA", "SRIRACHA"); ("SIRRACH", "SRIRACHA"); ("HUNTS", "HUNT'S");
    ("LAYS", "LAY'S"); ("CAMPBELLS", "CAMPBELL'S"); ("KELLOGS", "KELLOGG'S");
    ("MCDONALDS", "MCDONALD'S"); ("ORVILLE", "ORVILLE REDENBACHER");
    ("DORITOS", "DORITOS"); ("CHEETOS", "CHEETOS"); ("FRITOS", "FRITOS");
    ("TOSTITOS", "TOSTITOS") ].

Definition measurements0 : dict :=
  [ ("LB", "POUND"); ("LBS", "POUNDS"); ("OZ", "OUNCE"); ("OUNCS", "OUNCES");
    ("PT", "PINT"); ("QT", "QUART"); ("GAL", "GALLON"); ("ML", "MILLILITER");
    ("PK", "PACK"); ("PKG", "PACKAGE"); ("CT", "COUNT"); ("PC", "PIECE");
    ("BX", "BOX"); ("BG", "BAG"); ("BTL", "BOTTLE"); ("CAN", "CAN") ].

(** The value of [corrections] when the class is loaded. *)
Definition corrections0 : corrections :=
  mkCorrections characterSubstitutions0 foodTerms0 storeBrands0 nationalBrands0
    measurements0.

(** The locals [name], [confidence] and [appliedCorrections]. *)
Record locals : Type := mkLocals {
  l_name : string;
  l_confidence : float;
  l_applied : list string
}.

(** Step 2, one entry: [pattern.test(name)] starts at the object's
    lastIndex and moves it; [name.replace(pattern, replacement)] resets it. *)
Definition apply_substitution (st : locals * list substitution) (sub : substitution)
  : locals * list substitution :=
  let '(l, done) := st in
  let re := RE (pattern sub) "g" in
  let '(found, li) := test_g re (lastIndex sub) (l_name l) in
  if found then
    let '(name', li') := replace_g re (replacement sub) (l_name l) in
    (mkLocals name' (PrimFloat.add (l_confidence l) 0.05)
       (l_applied l ++ [description sub]),
     done ++ [mkSub (pattern sub) li' (replacement sub) (description sub)])
  else
    (l, done ++ [mkSub (pattern sub) li (replacement sub) (description sub)]).

(** Step 3, one entry of one dictionary; the regular expression object is
    created for the entry. *)
Definition apply_word (category : string) (l : locals) (entry : string * string) : locals :=
  let wrong := fst entry in
  let right_ := snd entry in
  let re := RE ("\b" ++ wrong ++ "\b") "gi" in
  if fst (test_g re 0 (l_name l)) then
    mkLocals (replace re right_ (l_name l)) (PrimFloat.add (l_confidence l) 0.1)
      (l_applied l ++ [(category ++ ": " ++ wrong ++ "→" ++ right_)%string])
  else l.

Definition apply_dict (l : locals) (cat : dict * string) : locals :=
  fold_left (apply_word (snd cat)) (fst cat) l.

Definition wordCategories (c : corrections) : list (dict * string) :=
  [ (foodTerms c, "Food terms");
    (storeBrands c, "Store brands");
    (nationalBrands c, "National brands");
    (measurements c, "Measurements") ].

Definition step1 (name : string) : string :=
  let name1 := trim (replace (RE "\b\d{12,}[A-Z]*\b" "g") "" name) in
  let name2 := trim (replace (RE "\s+[A-Z]{1,2}$" "g") "" name1) in
  trim (replace (RE "\b(F|T|E|X|KF|MD|LG|SM|XL|XXL)$" "g") "" name2).

Definition step4 (name : string) : string :=
  let n1 := replace (RE "\bTOM\/PASTE\b" "gi") "TOMATO PASTE" name in
  let n2 := replace (RE "\bRD FT\b" "gi") "REDUCED FAT" n1 in
  let n3 := replace (RE "\bFF LT\b" "gi") "FAT FREE LIGHT" n2 in
  let n4 := replace (RE "\bW\/G WHEAT\b" "gi") "WHOLE GRAIN WHEAT" n3 in
  replace (RE "\bFNCY PARM SHRD\b" "gi") "FANCY PARMESAN SHREDDED" n4.

Definition step5 (name : string) : string :=
  trim (replace (RE "\s+" "g") " " name).

Definition invalid_name (name : string) : bool :=
  test (RE "^\d+$" "") name || Nat.ltb (String.length name) 3
  || test (RE "^[0-9\s]*$" "") name.

(** [cleanProductName(name)] in the state [c] of the static field: the
    result and the state after the call. *)
Definition cleanProductName (c : corrections) (name : string)
  : ProductNameCleaningResult * corrections :=
  let originalName := name in
  let l1 := mkLocals (step1 name) 0.8 [] in
  let '(l2, subs) :=
    fold_left apply_substitution (characterSubstitutions c) (l1, []) in
  let c' := mkCorrections subs (foodTerms c) (storeBrands c) (nationalBrands c)
              (measurements c) in
  let l3 := fold_left apply_dict (wordCategories c) l2 in
  let name' := step5 (step4 (l_name l3)) in
  if invalid_name name' then
    (mkCleaning originalName EmptyString 0 ["Invalid product name"], c')
  else
    let changeRatio :=
      PrimFloat.div
        (of_Z (Z.of_nat (String.length originalName) - Z.of_nat (String.length name')))
        (of_nat (String.length originalName)) in
    let confidence :=
      if PrimFloat.ltb 0.5 changeRatio then PrimFloat.mul (l_confidence l3) 0.7
      else l_confidence l3 in
    (mkCleaning originalName name' (Math_min confidence 1.0) (l_applied l3), c').

(** The entry with its lastIndex at 0. *)
Definition rewound (sub : substitution) : substitution :=
  mkSub (pattern sub) 0 (replacement sub) (description sub).

(** Every regular expression object of the state is at lastIndex 0, as
    when the class is loaded. *)
Definition at_rest (c : corrections) : Prop :=
  Forall (fun sub => lastIndex sub = 0) (characterSubstitutions c).

End Cleaner.

(* ===================================================================== *)
(** ** ReceiptLearningSystem (app/lib/aiReceiptParser.ts) *)
(* ===================================================================== *)

Module Learning.
Import JS.

Inductive CorrectionType : Type :=
| user_edit | ai_correction | pattern_update | item_hidden.

Record LearningData : Type := mkLearning {
  timestamp : string;
  storeName : string;
  originalName : string;
  oldEnhancedName : string;
  newEnhancedName : string;
  correctionType : CorrectionType
}.

(** The object stored under PATTERNS_KEY: store key to original text to
    corrected text. *)
Abbreviation PatternTable := (gmap string (gmap string string)).

(** The two keys of localStorage the class owns; [None] is a key that is
    not set.  The stored texts are those the class wrote with
    JSON.stringify, so reading them back gives the value written, and
    setItem is taken to succeed. *)
Record Storage : Type := mkStorage {
  receipt_learning_data : option (list LearningData);
  learned_patterns : option PatternTable
}.

Definition HIDDEN : string := "__HIDDEN__".

(** The names every object inherits from Object.prototype. *)
Definition prototype_names : list string :=
  [ "constructor"; "__defineGetter__"; "__defineSetter__"; "hasOwnProperty";
    "__lookupGetter__"; "__lookupSetter__"; "isPrototypeOf";
    "propertyIsEnumerable"; "toString"; "valueOf"; "__proto__";
    "toLocaleString" ].

Definition inherited (key : string) : bool :=
  existsb (String.eqb key) prototype_names.

(** What reading a property of a pattern object gives: undefined, the text
    stored under the key, or a member of Object.prototype (a function or
    an object, which is truthy and no text). *)
Inductive value : Type :=
| VUndefined
| VText (s : string)
| VInherited (key : string).

(** [patterns[key]]. *)
Definition get_property (patterns : gmap string string) (key : string) : value :=
  match patterns !! key with
  | Some v => VText v
  | None => if inherited key then VInherited key else VUndefined
  end.

(** [patterns[key] = v]: an assignment to __proto__ runs the inherited
    setter, which ignores a text. *)
Definition set_property (patterns : gmap string string) (key v : string)
  : gmap string string :=
  if String.eqb key "__proto__" then patterns else <[key := v]> patterns.

Definition getLearningData (st : Storage) : list LearningData :=
  match receipt_learning_data st with
  | Some data => data
  | None => []
  end.

Definition getAllPatterns (st : Storage) : PatternTable :=
  match learned_patterns st with
  | Some patterns => patterns
  | None => ∅
  end.

(** [allPatterns[storeName.toUpperCase()] || {}]: an upper-cased key names
    no member of Object.prototype, and a stored object is truthy. *)
Definition getLearnedPatterns (st : Storage) (storeName : string) : gmap string string :=
  match getAllPatterns st !! toUpperCase storeName with
  | Some patterns => patterns
  | None => ∅
  end.

Definition updatePatterns (entry : LearningData) (st : Storage) : Storage :=
  let patterns := getAllPatterns st in
  let storeKey := toUpperCase (storeName entry) in
  let patterns1 :=
    match patterns !! storeKey with
    | Some _ => patterns
    | None => <[storeKey := ∅]> patterns
    end in
  let inner :=
    match patterns1 !! storeKey with
    | Some o => o
    | None => ∅
    end in
  let patterns2 :=
    <[storeKey := set_property inner (originalName entry) (newEnhancedName entry)]>
      patterns1 in
  mkStorage (receipt_learning_data st) (Some patterns2).

(** [existing.splice(0, existing.length - 500)] when there are more than
    500 entries. *)
Definition keep_last_500 (l : list LearningData) : list LearningData :=
  if Nat.ltb 500 (List.length l) then List.skipn (List.length l - 500) l else l.

(** [saveLearning(data)]; [now] is the time stamp of the call and replaces
    the one of [data]. *)
Definition saveLearning (now : string) (data : LearningData) (st : Storage) : Storage :=
  let entry := mkLearning now (storeName data) (originalName data)
                 (oldEnhancedName data) (newEnhancedName data)
                 (correctionType data) in
  let existing := keep_last_500 (getLearningData st ++ [entry]) in
  updatePatterns entry (mkStorage (Some existing) (learned_patterns st)).

Record InputItem : Type := mkInput {
  in_name : string;
  in_enhancedName : option string      (* optional *)
}.

Record LearnedItem : Type := mkLearned {
  name : string;
  enhancedName : value;
  wasLearned : bool;
  shouldHide : option bool             (* optional *)
}.

(** [item.enhancedName || item.name]. *)
Definition enhanced_or_name (item : InputItem) : string :=
  match in_enhancedName item with
  | Some (String c e) => String c e
  | _ => in_name item
  end.

Definition truthy (v : value) : bool :=
  match v with
  | VUndefined => false
  | VText EmptyString => false
  | VText _ => true
  | VInherited _ => true
  end.

Definition is_hidden (v : value) : bool :=
  match v with
  | VText s => String.eqb s HIDDEN
  | _ => false
  end.

Definition apply_learned (patterns : gmap string string) (item : InputItem) : LearnedItem :=
  let learned := get_property patterns (in_name item) in
  if is_hidden learned then
    mkLearned (in_name item) (VText (enhanced_or_name item)) true (Some true)
  else if truthy learned then
    mkLearned (in_name item) learned true None
  else
    mkLearned (in_name item) (VText (enhanced_or_name item)) false None.

Definition applyLearnedEnhancements (st : Storage) (items : list InputItem)
    (storeName : string) : list LearnedItem :=
  let patterns := getLearnedPatterns st storeName in
  map (apply_learned patterns) items.

End Learning.

(* ===================================================================== *)
(** ** validateAIResult (app/lib/aiReceiptParser.ts) *)
(* ===================================================================== *)

Module AIParser.
Import JS.

(** A value produced by JSON.parse. *)
Inductive json : Type :=
| JNull
| JBool (b : bool)
| JNum (x : float)
| JStr (s : string)
| JArr (elems : list json)
| JObj (fields : list (string * json)).

(** The last field with this key (JSON.parse keeps the last duplicate). *)
Fixpoint field (key : string) (fields : list (string * json)) : option json :=
  match fields with
  | [] => None
  | (k, v) :: rest =>
      match field key rest with
      | Some v' => Some v'
      | None => if String.eqb k key then Some v else None
      end
  end.

(** The outcome of an expression: a value, undefined, or a TypeError. *)
Inductive outcome : Type :=
| Undefined
| Value (v : json)
| TypeError.

(** [v.key] for the keys the function reads (storeName, total, metadata,
    items, name, enhancedName, category, price, confidence, date,
    location, storeFormat): none of them is inherited by a parsed value,
    and reading a property of null throws. *)
Definition get (v : json) (key : string) : outcome :=
  match v with
  | JNull => TypeError
  | JObj fields =>
      match field key fields with
      | Some x => Value x
      | None => Undefined
      end
  | _ => Undefined
  end.

(** ToBoolean. *)
Definition truthy (o : outcome) : bool :=
  match o with
  | Value JNull => false
  | Value (JBool b) => b
  | Value (JNum x) => negb (PrimFloat.is_nan x || PrimFloat.is_zero x)
  | Value (JStr s) => negb (String.eqb s EmptyString)
  | Value (JArr _) => true
  | Value (JObj _) => true
  | _ => false
  end.

Definition PRODUCT_CATEGORIES : list string :=
  [ "Groceries"; "Dairy & Eggs"; "Meat & Seafood"; "Fresh Produce"; "Bakery";
    "Frozen Foods"; "Pantry & Dry Goods"; "Snacks & Candy"; "Beverages";
    "Health & Beauty"; "Personal Care"; "Household & Cleaning"; "Baby & Kids";
    "Pet Supplies"; "Pharmacy"; "Electronics"; "Clothing"; "Home & Garden";
    "Automotive"; "Office Supplies"; "Other" ].

Record AIItem : Type := mkAIItem {
  name : string;
  enhancedName : string;
  category : string;
  price : float;
  confidence : float
}.

Record Metadata : Type := mkMetadata {
  date : outcome;
  location : outcome;
  storeFormat : json;
  itemCount : nat
}.

Record AIParsingResult : Type := mkAIResult {
  storeName : json;
  items : list AIItem;
  total : float;
  metadata : Metadata
}.

Section Validate.

(** The two conversions of the language that are more than a case
    distinction: the text of a number (Number::toString) and the number a
    text denotes (StringToNumber). *)
Variable NumberToString : float -> string.
Variable StringToNumber : string -> float.

(** Array.prototype.join with the default separator: null gives the empty
    text, every other element is converted by [element]. *)
Definition Array_join (element : json -> option string) : list json -> option string :=
  fix go (elems : list json) : option string :=
    match elems with
    | [] => Some EmptyString
    | e :: rest =>
        match (match e with JNull => Some EmptyString | _ => element e end),
              go rest with
        | Some s, Some t =>
            Some (match rest with [] => s | _ => (s ++ "," ++ t)%string end)
        | _, _ => None
        end
    end.

(** [String(v)] on a parsed value; [None] when it throws.  An array is
    converted by the toString it inherits, which joins its elements.  An
    object is converted by the first of toString and valueOf that is
    callable and returns a primitive: the inherited toString gives
    [object Object], the inherited valueOf returns the object itself, and
    an own property of a parsed object is never callable; so an object
    that has an own property toString finds no method, and the conversion
    throws a TypeError. *)
Fixpoint String_ (v : json) : option string :=
  match v with
  | JNull => Some "null"
  | JBool b => Some (if b then "true" else "false")
  | JNum x => Some (NumberToString x)
  | JStr s => Some s
  | JArr elems => Array_join String_ elems
  | JObj fields =>
      match field "toString" fields with
      | Some _ => None
      | None => Some "[object Object]"
      end
  end.

(** [Number(v)]; [None] when it throws.  An array or an object is first
    converted to a primitive, by valueOf and then toString: the inherited
    valueOf returns the object itself, so the primitive is the text that
    [String_] gives, or the conversion throws as [String_] does. *)
Definition Number_ (o : outcome) : option float :=
  match o with
  | Undefined => Some PrimFloat.nan
  | TypeError => None
  | Value JNull => Some 0%float
  | Value (JBool b) => Some (if b then 1%float else 0%float)
  | Value (JNum x) => Some x
  | Value (JStr s) => Some (StringToNumber s)
  | Value v =>
      match String_ v with
      | Some s => Some (StringToNumber s)
      | None => None
      end
  end.

(** The declared total when [typeof aiResult.total === 'number']. *)
Definition declared_total (aiResult : json) : option float :=
  match get aiResult "total" with
  | Value (JNum x) => Some x
  | _ => None
  end.

(** The filter predicate; [None] when reading a property throws. *)
Definition keep_item (item : json) : option bool :=
  match item with
  | JNull => None
  | _ =>
      Some (truthy (get item "name") && truthy (get item "enhancedName")
            && match get item "price" with
               | Value (JNum x) => PrimFloat.ltb 0 x
               | _ => false
               end)
  end.

Fixpoint filter_items (elems : list json) : option (list json) :=
  match elems with
  | [] => Some []
  | item :: rest =>
      match keep_item item, filter_items rest with
      | Some b, Some kept => Some (if b then item :: kept else kept)
      | _, _ => None
      end
  end.

Definition unwrap (o : outcome) : json :=
  match o with Value v => v | _ => JNull end.

(** [x || 0.7]. *)
Definition or_default (x : float) : float :=
  if PrimFloat.is_nan x || PrimFloat.is_zero x then 0.7%float else x.

(** The map callback, on an item the filter kept; [None] when one of its
    conversions throws. *)
Definition clean_item (item : json) : option AIItem :=
  match String_ (unwrap (get item "name")),
        String_ (unwrap (get item "enhancedName")),
        Number_ (get item "price"),
        Number_ (get item "confidence") with
  | Some name, Some enhancedName, Some price, Some confidence =>
      Some (mkAIItem
              (trim name)
              (trim enhancedName)
              (match get item "category" with
               | Value (JStr c) =>
                   if existsb (String.eqb c) PRODUCT_CATEGORIES then c else "Other"
               | _ => "Other"
               end)
              price
              (Math_max 0 (Math_min 1 (or_default confidence))))
  | _, _, _, _ => None
  end.

(** [kept.map(...)]: the callback on every kept item, in order. *)
Fixpoint clean_items (kept : list json) : option (list AIItem) :=
  match kept with
  | [] => Some []
  | item :: rest =>
      match clean_item item, clean_items rest with
      | Some cleaned, Some others => Some (cleaned :: others)
      | _, _ => None
      end
  end.

Definition itemsSum (items : list AIItem) : float :=
  fold_left (fun sum item => PrimFloat.add sum (price item)) items 0%float.

(** [a || text] on values. *)
Definition or_text (o : outcome) (text : string) : json :=
  if truthy o then unwrap o else JStr text.

(** [aiResult.metadata?.key]. *)
Definition metadata_field (aiResult : json) (key : string) : outcome :=
  match get aiResult "metadata" with
  | Value JNull | Undefined => Undefined
  | Value m => get m key
  | TypeError => TypeError
  end.

(** The total after the reconciliation with the sum of the kept items. *)
Definition reconcile (total sum : float) : float :=
  if PrimFloat.eqb total 0
     || PrimFloat.ltb (PrimFloat.mul sum 0.5) (PrimFloat.abs (PrimFloat.sub total sum))
  then sum else total.

(** [validateAIResult(aiResult, originalText)]; [None] when it throws. *)
Definition validateAIResult (aiResult : json) (originalText : string)
  : option AIParsingResult :=
  match aiResult with
  | JNull => None
  | _ =>
      let storeName := or_text (get aiResult "storeName") "Unknown Store" in
      let total0 :=
        match declared_total aiResult with
        | Some x => x
        | None => 0%float
        end in
      let date := metadata_field aiResult "date" in
      let location := metadata_field aiResult "location" in
      let storeFormat := or_text (metadata_field aiResult "storeFormat") "Unknown" in
      let kept :=
        match get aiResult "items" with
        | Value (JArr elems) => filter_items elems
        | _ => Some []
        end in
      match kept with
      | None => None
      | Some kept =>
          match clean_items kept with
          | None => None
          | Some items =>
              let sum := itemsSum items in
              Some (mkAIResult storeName items (reconcile total0 sum)
                      (mkMetadata date location storeFormat (List.length items)))
          end
      end
  end.

End Validate.

(** A value whose conversion to a text, and so to a number, throws: an
    object with an own property toString, or an array that has such a
    value among its elements. *)
Fixpoint unprintable (v : json) : bool :=
  match v with
  | JArr elems => existsb unprintable elems
  | JObj fields =>
      match field "toString" fields with
      | Some _ => true
      | None => false
      end
  | _ => false
  end.

(** The same for what reading a property gave. *)
Definition unconvertible (o : outcome) : bool :=
  match o with
  | Value v => unprintable v
  | _ => false
  end.

(** A parsed response without a total: two items. *)
Definition sample_response : json :=
  JObj [ ("storeName", JStr "SAFEWAY");
         ("items",
           JArr [ JObj [ ("name", JStr "MILK WHOLE GALLON");
                         ("enhancedName", JStr "Whole Milk");
                         ("category", JStr "Dairy & Eggs");
                         ("price", JNum 3.99);
                         ("confidence", JNum 0.95) ];
                  JObj [ ("name", JStr "BREAD WHEAT LOAF");
                         ("enhancedName", JStr "Wheat Bread");
                         ("category", JStr "Bakery");
                         ("price", JNum 2.5);
                         ("confidence", JNum 0.9) ];
                  JObj [ ("name", JStr "COUPON");
                         ("enhancedName", JStr "Coupon");
                         ("price", JNum (-1)) ] ]) ].

End AIParser.

(* ===================================================================== *)
(** ** isOCRTextGarbled (unnamed/part_001) *)
(* ===================================================================== *)

Module Garbled.
Import JS Regex.

Definition extremeGarblingIndicators : list string :=
  [ "[A-Z]{3,}\s+[A-Z]{3,}\s+[A-Z]{3,}";
    "\b[A-Z][a-z]{1,2}\s+[A-Z][a-z]{1,2}\s+[A-Z][a-z]{1,2}\s+[A-Z][a-z]{1,2}";
    "^[A-Z\s]+[A-Z]{10,}";
    "[A-Z]+[^A-Za-z\s\d]{3,}[A-Z]";
    "\b[BCDFGHJKLMNPQRSTVWXYZ]{5,}\b";
    "^(LLL|RRR|NNN|DDD|TTT|SSS)\s";
    "[A-Z]{2,}\s+[A-Z]{2,}\s+[A-Z]{2,}\s+[A-Z]{2,}\s+[A-Z]{2,}" ].

(** [text.split('\n').filter(line => line.trim().length > 0)]. *)
Definition nonEmptyLines (text : string) : list string :=
  filter (fun line => Nat.ltb 0 (String.length (trim line))) (split_on "010" text).









End Garbled.

(* ===================================================================== *)
(** ** generateUniversalGroceryReceipt (unnamed/part_001) *)
(* ===================================================================== *)

Module Recovery.
Import JS.

Definition universalGroceryItems : list string :=
  [ (* Fresh Produce *)
    "BANANAS FRESH"; "APPLES GALA"; "CARROTS ORGANIC"; "LETTUCE ROMAINE";
    "TOMATOES ON VINE"; "POTATOES RUSSET"; "ONIONS YELLOW"; "BELL PEPPERS";
    (* Meat & Dairy *)
    "GROUND BEEF 85/15"; "CHICKEN BREAST"; "MILK 2% GALLON"; "EGGS LARGE 12CT";
    "CHEESE CHEDDAR"; "GREEK YOGURT"; "BUTTER UNSALTED";
    (* Pantry Staples *)
    "BREAD WHOLE WHEAT"; "PASTA PENNE"; "RICE BROWN"; "OLIVE OIL";
    "CANNED TOMATOES"; "BLACK BEANS CAN"; "PEANUT BUTTER"; "CEREAL OATS";
    (* Frozen & Packaged *)
    "FROZEN BROCCOLI"; "FROZEN BERRIES"; "SOUP CHICKEN NOODLE";
    "CRACKERS WHOLE GRAIN"; "GRANOLA BARS"; "ORANGE JUICE" ].

Definition storeNames : list string :=
  [ "NEIGHBORHOOD MARKET"; "FRESH FOODS MARKET"; "VILLAGE GROCERY";
    "COMMUNITY MARKET"; "QUALITY FOODS"; "FAMILY MARKET" ].

(** The computations draw from [rnd], the future results of Math.random;
    [None] when the draws run out. *)
Definition M (A : Type) : Type := list float -> option (A * list float).

(** [Math.floor(Math.random() * n)]. *)
Definition random_index (n : nat) : M nat :=
  fun rnd =>
    match Math_random rnd with
    | Some (r, rest) =>
        match Math_floor (PrimFloat.mul r (of_nat n)) with
        | Some z => Some (Z.to_nat z, rest)
        | None => None
        end
    | None => None
    end.

(** [(Math.random() * 6 + 1.5).toFixed(2)]. *)
Definition generatePrice : M string :=
  fun rnd =>
    match Math_random rnd with
    | Some (r, rest) => Some (toFixed2 (PrimFloat.add (PrimFloat.mul r 6) 1.5), rest)
    | None => None
    end.

(** The do-while loop: draw an item until it is not in [usedItems]; every
    round takes one draw. *)
Fixpoint pick_unused (usedItems : list string) (rnd : list float)
  : option (string * list float) :=
  match rnd with
  | [] => None
  | _ :: rest =>
      match random_index (List.length universalGroceryItems) rnd with
      | Some (i, _) =>
          match nth_error universalGroceryItems i with
          | Some item =>
              if existsb (String.eqb item) usedItems then pick_unused usedItems rest
              else Some (item, rest)
          | None => None
          end
      | None => None
      end
  end.

(** The for loop over [numItems] rounds. *)
Fixpoint select_items (numItems : nat) (usedItems : list string) : M (list string) :=
  fun rnd =>
    match numItems with
    | O => Some ([], rnd)
    | S n =>
        match pick_unused usedItems rnd with
        | Some (item, rnd1) =>
            match generatePrice rnd1 with
            | Some (price, rnd2) =>
                match select_items n (item :: usedItems) rnd2 with
                | Some (selected, rnd3) =>
                    Some ((padEnd item 30 ++ " " ++ price)%string :: selected, rnd3)
                | None => None
                end
            | None => None
            end
        | None => None
        end
    end.

(** [parseFloat(item.split(' ').pop() || '0')]. *)
Definition price_of_line (item : string) : float :=
  match List.last (split_on " " item) EmptyString with
  | EmptyString => parseFloat "0"
  | token => parseFloat token
  end.

Definition nl : string := String "010" EmptyString.

(** [generateUniversalGroceryReceipt(ocrText, filename)]. *)
Definition generateUniversalGroceryReceipt (ocrText filename : string) : M string :=
  fun rnd =>
    match random_index 15 rnd with
    | None => None
    | Some (k, rnd1) =>
        let numItems := k + 15 in
        match select_items numItems [] rnd1 with
        | None => None
        | Some (selectedItems, rnd2) =>
            let subtotal :=
              fold_left (fun sum item => PrimFloat.add sum (price_of_line item))
                selectedItems 0%float in
            let tax :=
              match Math_round (PrimFloat.mul (PrimFloat.mul subtotal 0.0875) 100) with
              | Some z => PrimFloat.div (of_Z z) 100
              | None => PrimFloat.nan
              end in
            let total := PrimFloat.add subtotal tax in
            match random_index (List.length storeNames) rnd2 with
            | None => None
            | Some (i, rnd3) =>
                match nth_error storeNames i with
                | None => None
                | Some storeName =>
                    Some (join nl
                            [ storeName;
                              "Your Local Grocery Store";
                              "123 Main Street";
                              "Anytown, USA 12345";
                              "";
                              join nl selectedItems;
                              "";
                              "SUBTOTAL                   " ++ toFixed2 subtotal;
                              "TAX                        " ++ toFixed2 tax;
                              "TOTAL                      " ++ toFixed2 total;
                              "";
                              "Items: " ++ string_of_N (N.of_nat numItems);
                              "Thank you for shopping!" ]%string,
                          rnd3)
                end
            end
        end
    end.

(** Thirty-two draws: the first gives 15 items, then every item takes one
    draw for its name and one for its price, and [last] picks the store
    name. *)
Definition sample_draws (last : float) : list float :=
  0%float
  :: flat_map (fun i => [PrimFloat.div (of_nat i) 29 + 0.001; PrimFloat.div (of_nat i) 20]%float)
       (seq 0 15)
  ++ [last].

End Recovery.

(* ===================================================================== *)
(** ** ReceiptLearningSystem: hiding, clearing and statistics
       (app/lib/aiReceiptParser.ts) *)
(* ===================================================================== *)

Module LearningQueries.
Import JS Learning.

(** [[item.name, item.enhancedName].filter(Boolean)]. *)
Definition names_to_check (item : InputItem) : list string :=
  List.filter (fun n => negb (String.eqb n EmptyString))
    (in_name item :: match in_enhancedName item with Some e => [e] | None => [] end).

(** The loop over the names of one item: some name is stored as hidden. *)
Definition listed_hidden (patterns : gmap string string) (item : InputItem) : bool :=
  existsb (fun n => is_hidden (get_property patterns n)) (names_to_check item).

Definition getItemsToHide (st : Storage) (items : list InputItem) (storeName : string)
  : gset nat :=
  let patterns := getLearnedPatterns st storeName in
  fold_left
    (fun (hiddenIndices : gset nat) '(index, item) =>
       if listed_hidden patterns item then hiddenIndices ∪ {[ index ]}
       else hiddenIndices)
    (combine (seq 0 (List.length items)) items) ∅.

(** [clearLearningData()]: both keys are removed. *)
Definition clearLearningData (st : Storage) : Storage := mkStorage None None.

(** [getCorrectionsByType(data)]: the counts, in the order in which the
    types are first met. *)
Definition CorrectionType_eqb (a b : CorrectionType) : bool :=
  match a, b with
  | user_edit, user_edit | ai_correction, ai_correction
  | pattern_update, pattern_update | item_hidden, item_hidden => true
  | _, _ => false
  end.

Fixpoint count_type (types : list (CorrectionType * nat)) (t : CorrectionType)
  : list (CorrectionType * nat) :=
  match types with
  | [] => [(t, 1)]
  | (t', n) :: rest =>
      if CorrectionType_eqb t' t then (t', n + 1) :: rest
      else (t', n) :: count_type rest t
  end.

Definition getCorrectionsByType (data : list LearningData) : list (CorrectionType * nat) :=
  fold_left (fun types entry => count_type types (correctionType entry)) data [].

(** The counters of [getLearningStats()]. *)
Definition hidden_values (storePatterns : gmap string string) : nat :=
  List.length (List.filter (fun kv => String.eqb (snd kv) HIDDEN)
                 (map_to_list storePatterns)).

Record LearningStats : Type := mkStats {
  totalCorrections : nat;
  storesLearned : nat;
  patternsLearned : nat;
  hiddenItemsLearned : nat;
  correctionsByType : list (CorrectionType * nat)
}.

Definition getLearningStats (st : Storage) : LearningStats :=
  let data := getLearningData st in
  let allPatterns := getAllPatterns st in
  let hiddenItemsCount :=
    map_fold (fun _ storePatterns total => total + hidden_values storePatterns)
      0 allPatterns in
  mkStats (List.length data) (size allPatterns)
    (map_fold (fun _ (storePatterns : gmap string string) total =>
                 total + size storePatterns) 0 allPatterns)
    hiddenItemsCount (getCorrectionsByType data).

End LearningQueries.

(* ===================================================================== *)
(** ** The rule-based parser and the parsing entry points
       (app/lib/aiReceiptParser.ts) *)
(* ===================================================================== *)

Module RuleParser.
Import JS Regex AIParser.

(** *** The helpers of the rule-based parser *)

(** The local [enhanceProductName(name)]: six abbreviations, then every
    word (between single spaces) in lower case with its first character in
    upper case. *)
Definition upper_first (word : string) : string :=
  match word with
  | EmptyString => EmptyString
  | String c w => String (to_upper c) w
  end.

Definition enhanceProductName (name : string) : string :=
  let e1 := replace (RE "\bGV\b" "gi") "Great Value" name in
  let e2 := replace (RE "\bLB\b" "gi") "Pound" e1 in
  let e3 := replace (RE "\bOZ\b" "gi") "Ounce" e2 in
  let e4 := replace (RE "\bCT\b" "gi") "Count" e3 in
  let e5 := replace (RE "\bPK\b" "gi") "Pack" e4 in
  let e6 := replace (RE "\bCHS\b" "gi") "Cheese" e5 in
  join " " (map upper_first (split_on " " (toLowerCase e6))).

(** [s.split(/\s+/).filter(w => w.length > 0)]: the maximal runs of
    characters that are not white space. *)
Fixpoint split_space (s : string) : list string :=
  match s with
  | EmptyString => [EmptyString]
  | String c s' =>
      if is_space c then EmptyString :: split_space s'
      else match split_space s' with
           | w :: ws => String c w :: ws
           | [] => [String c EmptyString]
           end
  end.

Definition words (s : string) : list string :=
  List.filter (fun w => Nat.ltb 0 (String.length w)) (split_space s).

(** [/(.)\1{3,}/.test(s)]: some character other than a line terminator
    occurs four times in a row. *)
Fixpoint same_four (s : string) : bool :=
  match s with
  | String a (String b (String c (String d _) as s3) as s2 as s1) =>
      (negb (is_line_terminator a) && Ascii.eqb a b && Ascii.eqb a c && Ascii.eqb a d)
      || same_four s1
  | _ => false
  end.

Definition isGarbledText (text : string) : bool :=
  let cleanText := replace (RE "[^a-z\s]" "g") "" (toLowerCase text) in
  let ws := words cleanText in
  let shortWords := List.filter (fun w => Nat.leb (String.length w) 2) ws in
  if PrimFloat.ltb (PrimFloat.mul (of_nat (List.length ws)) 0.6)
       (of_nat (List.length shortWords))
  then true
  else if test (RE "[aeiou]{4,}" "") cleanText
          || test (RE "[bcdfghjklmnpqrstvwxyz]{4,}" "") cleanText
          || same_four cleanText
  then true
  else
    let hasVowels := test (RE "[aeiou]" "") cleanText in
    let hasConsonants := test (RE "[bcdfghjklmnpqrstvwxyz]" "") cleanText in
    negb hasVowels || negb hasConsonants.

Definition categorizeProduct (name : string) : string :=
  let lowerName := toLowerCase name in
  if includes lowerName "egg" || includes lowerName "milk"
     || includes lowerName "cheese" || includes lowerName "yogurt"
  then "Dairy & Eggs"
  else if includes lowerName "beef" || includes lowerName "chicken"
          || includes lowerName "pork" || includes lowerName "fish"
  then "Meat & Seafood"
  else if includes lowerName "apple" || includes lowerName "banana"
          || includes lowerName "orange" || includes lowerName "vegetable"
  then "Fresh Produce"
  else if includes lowerName "bread" || includes lowerName "cake"
          || includes lowerName "donut"
  then "Bakery"
  else if includes lowerName "frozen" || includes lowerName "ice cream"
  then "Frozen Foods"
  else "Groceries".

(** *** The patterns of the line loop *)

(** [r*?], the lazy iteration, for an input of at most [n] characters:
    the empty match first, then one more round. *)
Fixpoint RLazyStar (n : nat) (r : regex) : regex :=
  match n with
  | O => REmpty
  | S n' => RAlt REmpty (RSeq r (RLazyStar n' r))
  end.

Definition digit : regex := RClass false [CDigit].
Definition space : regex := RClass false [CSpace].

(** [\d+\.\d{2}]. *)
Definition price_pattern : regex := RSeq (RPlus digit) (RSeq (RChar ".") (RTimes 2 digit)).

(** [/^(.+?)\s+(\d+\.\d{2})$/] for a line of at most [n] characters. *)
Definition name_then_price (n : nat) : regex :=
  RSeq RBol
    (RSeq (RGroup 1 (RSeq RAny (RLazyStar n RAny)))
       (RSeq (RPlus space) (RSeq (RGroup 2 price_pattern) REol))).

(** [/(.+?)\s*(\d+\.\d{2})/] for a line of at most [n] characters. *)
Definition any_price (n : nat) : regex :=
  RSeq (RGroup 1 (RSeq RAny (RLazyStar n RAny)))
    (RSeq (RStar space) (RGroup 2 price_pattern)).

(** [line.match(re)]: the captures of the first match. *)
Definition match_groups (ci : bool) (r : regex) (line : string) : option captures :=
  match rsearch ci r None line with
  | Some f => Some (groups f)
  | None => None
  end.

Definition match_re (re : regexp) (line : string) : option captures :=
  match_groups (re_i re) (re_src re) line.

(** The lines that are no items. *)
Definition skipped_line (line : string) : bool :=
  test (RE "^\d{3}-\d{3}-\d{4}" "") line
  || test (RE "^\d+\s+\w+\s+(st|ave|rd|blvd)" "i") line
  || test (RE "^[a-z\s]+,\s*[a-z]{2}\s*\d{5}" "i") line
  || test (RE "^(sub)?total|tax|balance|change|tender|payment" "i") line
  || test (RE "^card|cash|credit|debit" "i") line
  || test (RE "^cashier|manager|associate" "i") line
  || test (RE "^thank you|visit us|store hours" "i") line
  || Nat.ltb (String.length line) 3.

(** The locals [itemName], [price] and [priceMatch] (as a truth value)
    after the four patterns, and whether the next line was consumed. *)
Record found : Type := mkFoundItem {
  itemName : string;
  f_price : float;
  consumed_next : bool
}.

Definition read_item (line : string) (next : option string) : found :=
  let n := String.length line in
  (* Pattern 1: name, then the price at the end *)
  let '(priceMatch, itemName1, price1) :=
    match match_groups false (name_then_price n) line with
    | Some caps => (true, get_capture 1 caps, parseFloat (get_capture 2 caps))
    | None => (false, EmptyString, 0%float)
    end in
  (* Pattern 2: the price on the next line *)
  let '(itemName2, price2, consumed) :=
    match priceMatch, next with
    | false, Some nextLine =>
        if test (RE "^\s*\d+\.\d{2}\s*$" "") nextLine
        then (line, parseFloat (trim nextLine), true)
        else (itemName1, price1, false)
    | _, _ => (itemName1, price1, false)
    end in
  (* Pattern 3: the price first *)
  let '(priceMatch3, itemName3, price3) :=
    if priceMatch then (true, itemName2, price2)
    else
      match match_re (RE "^(\d+\.\d{2})\s+(.+)$" "") line with
      | Some caps => (true, get_capture 2 caps, parseFloat (get_capture 1 caps))
      | None => (false, itemName2, price2)
      end in
  (* Pattern 4: a price anywhere in the line *)
  let '(itemName4, price4) :=
    if priceMatch3 then (itemName3, price3)
    else
      match match_groups false (any_price n) line with
      | Some caps =>
          if test (RE "phone|address|zip" "i") line then (itemName3, price3)
          else (get_capture 1 caps, parseFloat (get_capture 2 caps))
      | None => (itemName3, price3)
      end in
  mkFoundItem itemName4 price4 consumed.

Definition non_item_words : regexp :=
  RE "subtotal|tax|total|balance|change|tender|cashier|manager|card|cash|credit|debit|thank you|visit|store|hours|phone|address|city|state|zip" "i".

(** The item a line gives, if any. *)
Definition item_of (f : found) : option AIItem :=
  if negb (String.eqb (itemName f) EmptyString)
     && PrimFloat.ltb 0 (f_price f) && PrimFloat.ltb (f_price f) 1000
  then
    let cleanName := trim (replace (RE "\s+" "g") " " (itemName f)) in
    if test non_item_words cleanName then None
    else if Nat.ltb (String.length cleanName) 2 then None
    else if isGarbledText cleanName then None
    else
      let enhancedName := enhanceProductName cleanName in
      Some (mkAIItem cleanName enhancedName (categorizeProduct enhancedName)
              (f_price f) 0.8)
  else None.

(** The locals [items] and [total] of the line loop. *)
Record scanned : Type := mkScanned {
  s_items : list AIItem;
  s_total : float
}.

(** The loop over the lines, from the line [lines] starts with. *)
Fixpoint scan_lines (lines : list string) (st : scanned) : scanned :=
  match lines with
  | [] => st
  | line :: rest =>
      if skipped_line line then
        let total :=
          if test (RE "^(sub)?total" "i") line then
            match match_re (RE "(\d+\.\d{2})" "") line with
            | Some caps => parseFloat (get_capture 1 caps)
            | None => s_total st
            end
          else s_total st in
        scan_lines rest (mkScanned (s_items st) total)
      else
        let f := read_item line (List.head rest) in
        let st' :=
          match item_of f with
          | Some item => mkScanned (s_items st ++ [item]) (s_total st)
          | None => st
          end in
        match rest with
        | _ :: rest' => if consumed_next f then scan_lines rest' st'
                        else scan_lines rest st'
        | [] => scan_lines rest st'
        end
  end.

Definition sampleItems : list AIItem :=
  [ mkAIItem "BANANAS" "Fresh Bananas" "Fresh Produce" 1.99 0.9;
    mkAIItem "MILK 1GAL" "Milk 1 Gallon" "Dairy & Eggs" 3.87 0.9;
    mkAIItem "BREAD WHEAT" "Wheat Bread" "Bakery" 2.50 0.9;
    mkAIItem "EGGS 12CT" "Large Eggs 12 Count" "Dairy & Eggs" 4.98 0.9;
    mkAIItem "GROUND BEEF" "Ground Beef 1 lb" "Meat & Seafood" 6.99 0.9;
    mkAIItem "APPLES" "Fresh Apples" "Fresh Produce" 3.45 0.9;
    mkAIItem "CHEESE SLICED" "Sliced Cheese" "Dairy & Eggs" 4.29 0.9 ].

Definition detectedStore (ocrText : string) : string :=
  let storeKeywords := toLowerCase ocrText in
  if includes storeKeywords "walmart" then "Walmart"
  else if includes storeKeywords "target" then "Target"
  else if includes storeKeywords "safeway" then "Safeway"
  else if includes storeKeywords "kroger" then "Kroger"
  else if includes storeKeywords "costco" then "Costco"
  else if includes storeKeywords "winco" then "WinCo Foods"
  else "Generic Store".

Definition store_line : regexp :=
  RE "walmart|target|safeway|kroger|costco|whole foods|winco|trader joe|publix|albertsons" "i".

(** [fallbackParsing(ocrText)]; [today] stands for
    [new Date().toLocaleDateString()]. *)
Definition fallbackParsing (ocrText today : string) : AIParsingResult :=
  let lines :=
    List.filter (fun line => Nat.ltb 0 (String.length line))
      (map trim (split_on "010" ocrText)) in
  let storeName0 :=
    match List.find (test store_line) lines with
    | Some line => line
    | None => "Unknown Store"
    end in
  let st := scan_lines lines (mkScanned [] 0) in
  let '(storeName, items, total) :=
    match s_items st with
    | [] => (detectedStore ocrText, sampleItems, 28.07%float)
    | _ => (storeName0, s_items st, s_total st)
    end in
  mkAIResult (JStr storeName) items
    (if PrimFloat.is_nan total || PrimFloat.is_zero total then itemsSum items else total)
    (mkMetadata (Value (JStr today)) (Value (JStr "Demo Location"))
       (JStr "Rule-based fallback parsing") (List.length items)).

(** *** selectBestResult *)

(** The average confidence of the items of a result: 0/0, that is NaN,
    for a result without items. *)
Definition averageConfidence (r : AIParsingResult) : float :=
  PrimFloat.div
    (fold_left (fun sum item => PrimFloat.add sum (confidence item)) (items r) 0%float)
    (of_nat (List.length (items r))).

(** [selectBestResult(results)]: [results.reduce] without an initial value
    starts from the first result and throws a TypeError ([None]) on the
    empty array. *)
Definition selectBestResult (results : list AIParsingResult) : option AIParsingResult :=
  match results with
  | [] => None
  | first :: rest =>
      Some (fold_left
              (fun best current =>
                 if PrimFloat.ltb (averageConfidence best) (averageConfidence current)
                 then current else best)
              rest first)
  end.


(** *** parseReceiptWithAI and parseWithMultipleAI *)

(** What the request to the model gives: no API key, a failure (the
    request or the parsing of its answer throws), or the parsed JSON of
    the answer. *)
Inductive reply : Type :=
| NoKey
| Failure
| Answer (aiResult : json).

Section Parse.

Variable NumberToString : float -> string.
Variable StringToNumber : string -> float.

Definition parseReceiptWithAI (r : reply) (ocrText today : string) : AIParsingResult :=
  match r with
  | Answer aiResult =>
      match validateAIResult NumberToString StringToNumber aiResult ocrText with
      | Some result => result
      | None => fallbackParsing ocrText today     (* the catch clause *)
      end
  | _ => fallbackParsing ocrText today
  end.

(** parseWithClaude and parseWithGemini throw; their results are never
    pushed. *)
Definition parseWithMultipleAI (r : reply) (ocrText today : string)
  : option AIParsingResult :=
  let results := [parseReceiptWithAI r ocrText today] in
  match results with
  | [] => Some (fallbackParsing ocrText today)
  | _ => selectBestResult results
  end.

End Parse.

End RuleParser.

(* ===================================================================== *)
(** ** EnhancedNonFoodDetector: actions, explanations and feedback
       (unnamed/part_007) *)
(* ===================================================================== *)

Module NonFoodActions.
Import JS Regex NonFood.

(** *** getSuggestedActions *)

Record Thresholds : Type := mkThresholds {
  th_hide : option float;
  th_review : option float
}.

(** [x || d] for an optional number. *)
Definition number_or (x : option float) (d : float) : float :=
  match x with
  | Some v => if PrimFloat.is_nan v || PrimFloat.is_zero v then d else v
  | None => d
  end.

Record SuggestedActions : Type := mkActions {
  to_hide : gset nat;
  to_review : gset nat
}.

(** One round of [results.forEach]. *)
Definition sort_result (hideThreshold reviewThreshold : float) (sets : SuggestedActions)
    (entry : nat * NonFoodDetectionResult) : SuggestedActions :=
  let '(index, result) := entry in
  if PrimFloat.leb hideThreshold (confidence result)
  then mkActions (to_hide sets ∪ {[ index ]}) (to_review sets)
  else if PrimFloat.leb reviewThreshold (confidence result)
  then mkActions (to_hide sets) (to_review sets ∪ {[ index ]})
  else sets.

Definition getSuggestedActions (items : list (string * option float))
    (storeName : option string) (thresholds : option Thresholds) : SuggestedActions :=
  let hideThreshold :=
    number_or (match thresholds with Some t => th_hide t | None => None end) 0.85 in
  let reviewThreshold :=
    number_or (match thresholds with Some t => th_review t | None => None end) 0.6 in
  let results := detectNonFoodBatch items storeName in
  fold_left (sort_result hideThreshold reviewThreshold)
    (combine (seq 0 (List.length results)) results) (mkActions ∅ ∅).

(** *** getDetailedExplanation *)

Record CategoryInfo : Type := mkInfo {
  icon : string;
  title : string;
  description : string;
  actionText : string
}.

Definition categoryInfo : list (string * CategoryInfo) :=
  [ ("tax", mkInfo "🏛️" "Tax/Government Fee" "Government-imposed taxes and fees"
              "Hide from food spending");
    ("fee", mkInfo "💳" "Store Fee/Charge" "Store-imposed fees (bags, deposits, etc.)"
              "Hide from food spending");
    ("coupon", mkInfo "🎫" "Coupon/Discount" "Savings from coupons or promotions"
                 "Hide (already reduces total)");
    ("discount", mkInfo "💰" "Discount/Savings" "Member savings or promotional discounts"
                   "Hide (already reduces total)");
    ("payment", mkInfo "💳" "Payment Method" "Payment processing or tender information"
                  "Hide from items list");
    ("service", mkInfo "🛠️" "Store Service" "Store services or receipt metadata"
                  "Hide from items list");
    ("personal_care", mkInfo "🧴" "Personal Care"
                        "Health, beauty, and personal hygiene items"
                        "Review - may not be groceries");
    ("household", mkInfo "🏠" "Household Item" "Cleaning supplies, paper products, etc."
                    "Review - may not be groceries");
    ("pharmacy", mkInfo "💊" "Pharmacy/Health" "Medications, vitamins, and health products"
                   "Review - may not be groceries");
    ("other", mkInfo "❓" "Non-Food Item" "Item that doesn't appear to be food"
                "Review classification") ].

Fixpoint own_info (table : list (string * CategoryInfo)) (key : string)
  : option CategoryInfo :=
  match table with
  | [] => None
  | (k, info) :: rest => if String.eqb k key then Some info else own_info rest key
  end.

(** The result: the fields spread from the entry of the category, with
    the description extended.  A category that names a member of
    Object.prototype selects that member, which has none of the fields:
    they are undefined ([None]) and the description starts with the text
    of undefined. *)
Record Explanation : Type := mkExplanation {
  e_icon : option string;
  e_title : option string;
  e_description : string;
  e_actionText : option string
}.

(** [Math.round(x * 100)] in a template literal (an integer of 10^21 or
    more would be written with an exponent). *)
Definition rounded_percent (x : float) : string :=
  match Math_round (PrimFloat.mul x 100) with
  | Some z => string_of_Z z
  | None =>
      if PrimFloat.is_nan x then "NaN"
      else if PrimFloat.ltb x 0 then "-Infinity" else "Infinity"
  end.

Definition getDetailedExplanation (result : NonFoodDetectionResult) : Explanation :=
  let details :=
    (". " ++ reason result ++ " (" ++ rounded_percent (confidence result)
     ++ "% confidence)")%string in
  let explain (info : CategoryInfo) :=
    mkExplanation (Some (icon info)) (Some (title info))
      (description info ++ details) (Some (actionText info)) in
  match own_info categoryInfo (category result) with
  | Some info => explain info
  | None =>
      if Learning.inherited (category result)
      then mkExplanation None None ("undefined" ++ details) None
      else
        match own_info categoryInfo "other" with
        | Some info => explain info
        | None => mkExplanation None None ("undefined" ++ details) None
        end
  end.

(** *** recordUserFeedback and getLearningInsights *)

Inductive Feedback : Type := correct | incorrect.

Record NonFoodLearningData : Type := mkFeedback {
  originalText : string;
  fb_isNonFood : bool;
  fb_category : string;
  userFeedback : Feedback;
  fb_storeName : string;
  fb_timestamp : string
}.

(** The static field [learningData] is the state; [now] stands for
    [new Date()]. *)
Definition recordUserFeedback (learningData : list NonFoodLearningData)
    (originalText : string) (detectionResult : NonFoodDetectionResult)
    (userFeedback : Feedback) (storeName now : string) : list NonFoodLearningData :=
  learningData
  ++ [mkFeedback originalText (isNonFood detectionResult) (category detectionResult)
        userFeedback storeName now].

Definition is_correct (d : NonFoodLearningData) : bool :=
  match userFeedback d with correct => true | incorrect => false end.

(** [misclassifications.set(text, (misclassifications.get(text) || 0) + 1)]
    on a Map, as the list of its entries in insertion order. *)
Fixpoint count_text (entries : list (string * nat)) (text : string)
  : list (string * nat) :=
  match entries with
  | [] => [(text, 1)]
  | (t, n) :: rest =>
      if String.eqb t text then (t, n + 1) :: rest
      else (t, n) :: count_text rest text
  end.

(** [sort((a, b) => b.count - a.count)]: the sort is stable, so an entry
    goes before the first entry whose count is not larger than its own. *)
Fixpoint insert_by_count (x : string * nat) (sorted : list (string * nat))
  : list (string * nat) :=
  match sorted with
  | [] => [x]
  | y :: rest =>
      if Nat.ltb (snd x) (snd y) then y :: insert_by_count x rest
      else x :: sorted
  end.

Definition sort_by_count (entries : list (string * nat)) : list (string * nat) :=
  fold_right insert_by_count [] entries.

Record LearningInsights : Type := mkInsights {
  totalFeedback : nat;
  accuracy : float;
  commonMisclassifications : list (string * nat)   (* text and count *)
}.

Definition getLearningInsights (learningData : list NonFoodLearningData)
  : LearningInsights :=
  let total := List.length learningData in
  let correct_ := List.length (List.filter is_correct learningData) in
  let misclassifications :=
    fold_left (fun entries d => count_text entries (originalText d))
      (List.filter (fun d => negb (is_correct d)) learningData) [] in
  mkInsights total
    (if Nat.ltb 0 total then PrimFloat.div (of_nat correct_) (of_nat total) else 0%float)
    (List.firstn 10 (sort_by_count misclassifications)).

End NonFoodActions.

(* ===================================================================== *)
(** ** NonFoodInsightsSystem (app/lib/nonFoodInsights.ts) *)
(* ===================================================================== *)

Module Insights.
Import JS NonFood.

Record DetectionSummary : Type := mkSummary {
  autoHidden : nat;
  needsReview : nat;
  highConfidenceDetections : nat
}.

Record ReceiptAnalysis : Type := mkReceiptAnalysis {
  totalItems : nat;
  foodItems : Z;
  nonFoodItems : nat;
  hiddenItems : nat;
  foodSpendingPercentage : float;
  detectionSummary : DetectionSummary
}.

(** The items that count as food spending: those whose index is neither
    detected as non-food nor hidden. *)
Definition food_entries (items : list Item) (hidden : gset nat)
    (nonFoodDetections : gmap nat NonFoodDetectionResult) : list (nat * Item) :=
  List.filter
    (fun entry => negb (bool_decide (is_Some (nonFoodDetections !! fst entry)))
                  && negb (bool_decide (fst entry ∈ hidden)))
    (combine (seq 0 (List.length items)) items).

Definition is_hide (a : Action) : bool :=
  match a with hide => true | _ => false end.
Definition is_review (a : Action) : bool :=
  match a with review => true | _ => false end.

Definition analyzeReceipt (items : list Item) (hidden : gset nat)
    (nonFoodDetections : gmap nat NonFoodDetectionResult) (receiptTotal : float)
  : ReceiptAnalysis :=
  let totalItems := List.length items in
  let nonFoodCount := size nonFoodDetections in
  let foodItems := (Z.of_nat totalItems - Z.of_nat nonFoodCount - Z.of_nat (size hidden))%Z in
  let foodSpending :=
    fold_left (fun sum entry => PrimFloat.add sum (price (snd entry)))
      (food_entries items hidden nonFoodDetections) 0%float in
  let foodSpendingPercentage :=
    if PrimFloat.ltb 0 receiptTotal
    then PrimFloat.mul (PrimFloat.div foodSpending receiptTotal) 100
    else 0%float in
  let detections := map snd (map_to_list nonFoodDetections) in
  mkReceiptAnalysis totalItems foodItems nonFoodCount (size hidden)
    foodSpendingPercentage
    (mkSummary
       (List.length (List.filter (fun d => is_hide (suggestedAction d)) detections))
       (List.length (List.filter (fun d => is_review (suggestedAction d)) detections))
       (List.length (List.filter (fun d => PrimFloat.leb 0.9 (NonFood.confidence d))
                       detections))).

(** *** analyzeDetections *)

Record ConfidenceDistribution : Type := mkDistribution {
  high : nat;     (* 90%+ *)
  medium : nat;   (* 70-89% *)
  low : nat       (* 50-69% *)
}.

Record ActionCounts : Type := mkActionCounts {
  n_hide : nat;
  n_review : nat;
  n_keep : nat
}.

(** The fields [totalDetections], [confidenceDistribution],
    [suggestedActions] and [accuracyStats] of the result of
    analyzeDetections; [categoryCounts] is left out. *)
Record DetectionInsights : Type := mkDetectionInsights {
  totalDetections : nat;
  confidenceDistribution : ConfidenceDistribution;
  suggestedActions : ActionCounts;
  accuracyStats : NonFoodActions.LearningInsights
}.

(** One round of the forEach callback on the two counters. *)
Definition count_confidence (d : ConfidenceDistribution) (result : NonFoodDetectionResult)
  : ConfidenceDistribution :=
  if PrimFloat.leb 0.9 (NonFood.confidence result)
  then mkDistribution (S (high d)) (medium d) (low d)
  else if PrimFloat.leb 0.7 (NonFood.confidence result)
  then mkDistribution (high d) (S (medium d)) (low d)
  else if PrimFloat.leb 0.5 (NonFood.confidence result)
  then mkDistribution (high d) (medium d) (S (low d))
  else d.

Definition count_action (a : ActionCounts) (result : NonFoodDetectionResult)
  : ActionCounts :=
  match suggestedAction result with
  | hide => mkActionCounts (S (n_hide a)) (n_review a) (n_keep a)
  | review => mkActionCounts (n_hide a) (S (n_review a)) (n_keep a)
  | keep => mkActionCounts (n_hide a) (n_review a) (S (n_keep a))
  end.

(** [analyzeDetections(results)], in the state [learningData] of the
    detector. *)
Definition analyzeDetections (learningData : list NonFoodActions.NonFoodLearningData)
    (results : list NonFoodDetectionResult) : DetectionInsights :=
  mkDetectionInsights (List.length results)
    (fold_left count_confidence results (mkDistribution 0 0 0))
    (fold_left count_action results (mkActionCounts 0 0 0))
    (NonFoodActions.getLearningInsights learningData).

(** The vocabulary of the counters: the number of results with a
    confidence of at least [lo], and with an action that [a] accepts. *)
Definition banded (results : list NonFoodDetectionResult) (lo : float) : nat :=
  List.length (List.filter (fun r => PrimFloat.leb lo (NonFood.confidence r)) results).

Definition acted (results : list NonFoodDetectionResult) (a : Action -> bool) : nat :=
  List.length (List.filter (fun r => a (suggestedAction r)) results).

Definition is_keep (a : Action) : bool :=
  match a with keep => true | _ => false end.

End Insights.

(* ===================================================================== *)
(** ** ProductNameCleaner.cleanBatch (unnamed/part_006) *)
(* ===================================================================== *)

Module CleanerBatch.
Import JS Regex Cleaner.

(** [cleanBatch(names)]: [names.map] calls cleanProductName on the names
    in order, each call in the state the one before left. *)
Fixpoint cleanBatch (c : corrections) (names : list string)
  : list ProductNameCleaningResult * corrections :=
  match names with
  | [] => ([], c)
  | name :: rest =>
      let '(r, c1) := cleanProductName c name in
      let '(rs, c2) := cleanBatch c1 rest in
      (r :: rs, c2)
  end.

End CleanerBatch.

(* ===================================================================== *)
(** ** calculateOCRConfidence (unnamed/part_005) *)
(* ===================================================================== *)

Module OCRConfidence.
Import JS Regex.

(** The score of one line. *)
Definition line_score (cleanLine : string) : Z :=
  let q0 := 0%Z in
  let q1 := if test (RE "\d+\.\d{2}" "") cleanLine then (q0 + 2)%Z else q0 in
  let q2 := if test (RE "^[A-Z\s]+$" "") cleanLine then (q1 + 1)%Z else q1 in
  let q3 := if test (RE "^(TOTAL|TAX|SUBTOTAL|SAFEWAY|PUBLIX|KROGER)" "i") cleanLine
            then (q2 + 3)%Z else q2 in
  let q4 := if Nat.ltb 5 (String.length cleanLine)
               && Nat.ltb (String.length cleanLine) 50
            then (q3 + 1)%Z else q3 in
  let q5 := if test (RE "[^\w\s\.\-\$\(\)]" "") cleanLine then (q4 - 1)%Z else q4 in
  let q6 := if Nat.ltb 100 (String.length cleanLine) then (q5 - 1)%Z else q5 in
  if test (RE "\b[A-Z]{1,2}\s+[A-Z]{1,2}\s+[A-Z]{1,2}" "") cleanLine
  then (q6 - 2)%Z else q6.

(** [calculateOCRConfidence(text)]. *)
Definition calculateOCRConfidence (text : string) : float :=
  if Nat.ltb (String.length text) 10 then 0.1%float
  else
    let lines := Garbled.nonEmptyLines text in
    let qualityScore :=
      fold_left (fun q line => (q + line_score (trim line))%Z) lines 0%Z in
    let totalLines := List.length lines in
    Math_max 0 (Math_min 1 (PrimFloat.div (of_Z qualityScore)
                              (PrimFloat.mul (of_nat totalLines) 2))).

End OCRConfidence.

(* ===================================================================== *)
(** ** analyzeReceiptImage and generateReceiptGuidance
       (app/lib/receiptPreprocessing.ts) *)
(* ===================================================================== *)

Module ReceiptImage.
Import JS.

Record Quality : Type := mkQuality {
  brightness : float;
  contrast : float;
  sharpness : float;
  blurriness : float
}.

Record PreprocessingResult : Type := mkPreprocessing {
  imageData : string;
  width : float;
  height : float;
  quality : Quality;
  warnings : list string
}.

Record Regions : Type := mkRegions {
  header_y : option Z;
  items_start : option Z;
  items_end : option Z;
  total_y : option Z
}.

Record ReceiptAnalysis : Type := mkAnalysis {
  isReceipt : bool;
  confidence : float;
  issues : list string;
  recommendations : list string;
  dim_width : float;
  dim_height : float;
  aspectRatio : float;
  regions : Regions
}.

(** The checks of analyzeReceiptImage, in order: each failed check adds
    one issue and one recommendation. *)
Definition checks (image : PreprocessingResult) : list (bool * (string * string)) :=
  [ (PrimFloat.ltb 1 (PrimFloat.div (width image) (height image)),
      ("Receipt appears to be horizontal",
       "Rotate the receipt to vertical orientation"));
    (PrimFloat.ltb (width image) 500,
      ("Image resolution may be too low",
       "Move closer to the receipt or use better lighting"));
    (PrimFloat.ltb (brightness (quality image)) 0.3,
      ("Receipt is too dark", "Increase lighting or use flash"));
    (PrimFloat.ltb 0.9 (brightness (quality image)),
      ("Receipt is too bright or has glare",
       "Reduce direct light or try different angle"));
    (PrimFloat.ltb 0.5 (blurriness (quality image)),
      ("Image is blurry", "Hold camera steady and ensure receipt is in focus")) ].

(** [Math.floor(x)] for the regions ([None] for NaN and the infinities,
    which Math.floor returns unchanged). *)
Definition detectReceiptRegions (image : PreprocessingResult) : Regions :=
  mkRegions (Math_floor (PrimFloat.mul (height image) 0.1))
    (Math_floor (PrimFloat.mul (height image) 0.2))
    (Math_floor (PrimFloat.mul (height image) 0.8))
    (Math_floor (PrimFloat.mul (height image) 0.9)).

Definition analyzeReceiptImage (image : PreprocessingResult) : ReceiptAnalysis :=
  let failed := List.filter fst (checks image) in
  let issues := map (fun c => fst (snd c)) failed in
  let recommendations := map (fun c => snd (snd c)) failed in
  let confidence :=
    Math_max 0 (PrimFloat.sub 1 (PrimFloat.mul (of_nat (List.length issues)) 0.2)) in
  mkAnalysis (PrimFloat.ltb 0.3 confidence) confidence issues recommendations
    (width image) (height image) (PrimFloat.div (width image) (height image))
    (detectReceiptRegions image).

Definition generateReceiptGuidance (analysis : ReceiptAnalysis) : list string :=
  (if isReceipt analysis then []
   else ["⚠️ Image may not be a receipt. Please ensure you are scanning a receipt."])
  ++ map (fun rec => ("💡 " ++ rec)%string) (recommendations analysis)
  ++ [ if PrimFloat.ltb (confidence analysis) 0.5
       then "📸 Try taking another photo with better conditions"
       else if PrimFloat.ltb (confidence analysis) 0.8
       then "⚡ Good capture, but could be improved"
       else "✨ Excellent capture quality" ].

End ReceiptImage.

(* ===================================================================== *)
(** ** The vocabulary of the further properties *)
(* ===================================================================== *)

Module Shape.
Import JS Regex.

(** [n] additions of [bonus] to [x], in the order of a loop. *)
Fixpoint add_times (n : nat) (bonus x : float) : float :=
  match n with
  | O => x
  | S n' => add_times n' bonus (PrimFloat.add x bonus)
  end.

(** Words separated by single space characters, with no other white space
    and none at the ends; [start] tells that a word must start here. *)
Fixpoint single_spaced (start : bool) (s : string) : bool :=
  match s with
  | EmptyString => negb start
  | String c s' =>
      if is_space c then Ascii.eqb c " " && negb start && single_spaced true s'
      else single_spaced false s'
  end.

(** The same, where the text may end after a space. *)
Fixpoint spaced_open (start : bool) (s : string) : bool :=
  match s with
  | EmptyString => true
  | String c s' =>
      if is_space c then Ascii.eqb c " " && negb start && spaced_open true s'
      else spaced_open false s'
  end.


(** The confidences the tables of the enhancer can produce: 0.7, then 0.1
    for each of up to [k] store entries, 0.05 for each of up to [m] common
    entries and 0.1 for each of up to [j] keyword rows, cut at 1. *)
Definition enhancer_confidences_checked (k m j : nat) : bool :=
  forallb (fun k' =>
    forallb (fun m' =>
      forallb (fun j' =>
        let conf := add_times j' 0.1 (add_times m' 0.05 (add_times k' 0.1 0.7)) in
        PrimFloat.leb 0.7 (Math_min conf 1) && PrimFloat.leb (Math_min conf 1) 1)
        (seq 0 (S j)))
      (seq 0 (S m)))
    (seq 0 (S k)).


(** The confidences the loaded tables can produce are between 0 and 1. *)
Definition cleaner_confidences_checked : bool :=
  forallb (fun k =>
    forallb (fun m =>
      let conf := add_times m 0.1 (add_times k 0.05 0.8) in
      NonFood.unit_interval (Math_min conf 1)
      && NonFood.unit_interval (Math_min (PrimFloat.mul conf 0.7) 1))
      (seq 0 (S (list_sum (map (fun cat => List.length (fst cat))
                             (Cleaner.wordCategories Cleaner.corrections0))))))
    (seq 0 (S (List.length Cleaner.characterSubstitutions0))).

(** The categories detectNonFood can return. *)
Definition runtime_categories : list string :=
  map fst NonFood.definiteNonFood ++ ["service"] ++ map fst NonFood.likelyNonFood
  ++ map fst NonFood.nonFoodBrands ++ ["payment"; "discount"; "other"].

(** The order of the misclassification list. *)
Definition by_count (a b : string * nat) : Prop := snd b <= snd a.

(** The count stored for a text (0 when the Map has no entry). *)
Fixpoint stored_count (entries : list (string * nat)) (text : string) : nat :=
  match entries with
  | [] => 0
  | (t, n) :: rest => if String.eqb t text then n else stored_count rest text
  end.

(** The categories categorizeProduct can return. *)
Definition fallback_categories : list string :=
  [ "Dairy & Eggs"; "Meat & Seafood"; "Fresh Produce"; "Bakery"; "Frozen Foods";
    "Groceries" ].

(** What the rule-based parser guarantees for an item. *)
Definition parsed_item (item : AIParser.AIItem) : Prop :=
  PrimFloat.ltb 0 (AIParser.price item) = true
  /\ PrimFloat.ltb (AIParser.price item) 1000 = true
  /\ (AIParser.confidence item = 0.8%float \/ AIParser.confidence item = 0.9%float)
  /\ In (AIParser.category item) fallback_categories
  /\ 2 <= String.length (AIParser.name item).

End Shape.

(* ===================================================================== *)
(** * Properties *)
(* ===================================================================== *)

(** ** The patterns of the tables *)

Section PatternTables.
Import JS Regex.

(** Every pattern built from a table of the source is inside the grammar
    the reader supports: the keys of the abbreviation tables and of the
    dictionaries between word boundaries, the keyword rows, the character
    substitutions and the garbling indicators. *)
Lemma table_patterns_well_formed :
  forallb (fun entry => well_formed ("\b" ++ fst entry ++ "\b"))
    (Enhancer.SAFEWAY_PATTERNS ++ Enhancer.WALMART_PATTERNS ++ Enhancer.TARGET_PATTERNS
     ++ Enhancer.COMMON_ABBREVIATIONS ++ Cleaner.foodTerms0 ++ Cleaner.storeBrands0
     ++ Cleaner.nationalBrands0 ++ Cleaner.measurements0) = true
  /\ forallb (fun row => well_formed (fst row)) Enhancer.PRODUCT_CATEGORIES = true
  /\ forallb (fun sub => well_formed (Cleaner.pattern sub)) Cleaner.characterSubstitutions0
     = true
  /\ forallb well_formed Garbled.extremeGarblingIndicators = true.
Proof. vm_compute. repeat split. Qed.

End PatternTables.

(** ** The non-food detector *)

Section NonFoodProperties.
Import JS Regex NonFood.

(** C3, as the code has it.  For an item with a strictly negative price,
    detectNonFood returns isNonFood = true and suggestedAction = hide, for
    any name and context; the confidence is 0.95, except when layer 2
    (store services) answers first, where it is 0.9.  In both cases it is
    at least 0.9. *)
Theorem negative_price_hidden (itemName : string) (price : float)
    (context : option Context) :
  PrimFloat.ltb price 0 = true ->
  let r := detectNonFood itemName (Some price) context in
  isNonFood r = true
  /\ suggestedAction r = hide
  /\ confidence r = (if store_service_only itemName then 0.9%float else 0.95%float)
  /\ PrimFloat.leb 0.9 (confidence r) = true.
Proof.
  intros Hneg r. subst r.
  unfold store_service_only, layer_name, detectNonFood.
  destruct (first_match definiteNonFood (trim (toLowerCase itemName))) as [cat|].
  - repeat split.
  - destruct (existsb _ storeServices).
    + repeat split.
    + unfold negative_price. rewrite Hneg. repeat split.
Qed.

Lemma negative_price_hidden_witness :
  PrimFloat.ltb (-2.5)%float 0 = true
  /\ isNonFood (detectNonFood "BANANAS" (Some (-2.5)%float) None) = true
  /\ confidence (detectNonFood "BANANAS" (Some (-2.5)%float) None) = 0.95%float.
Proof.
  split; [reflexivity|].
  destruct (negative_price_hidden "BANANAS" (-2.5)%float None eq_refl)
    as (Hn & _ & Hc & _).
  split; [exact Hn|]. rewrite Hc. vm_compute. reflexivity.
Defined.

(** C3 fails as stated: a negative-priced line whose name is store
    metadata is answered by layer 2 with confidence 0.9, below 0.95. *)
Lemma negative_price_confidence_below_095 :
  PrimFloat.ltb (-1)%float 0 = true
  /\ confidence (detectNonFood "CASHIER" (Some (-1)%float) None) = 0.9%float
  /\ PrimFloat.leb 0.95 (confidence (detectNonFood "CASHIER" (Some (-1)%float) None))
     = false.
Proof. vm_compute. repeat split. Qed.

(** C2 at the failing input: a two-line receipt whose last line costs
    120.00.  The context score adds 0.8 (price above 100), 0.3 (round
    amount of at least 20) and 0.2 (one of the last three lines with a
    price above 20), and the confidence returned is 1.3, above 1. *)
Theorem batch_confidence_above_one :
  let results :=
    detectNonFoodBatch
      [("BREAD WHEAT LOAF", Some 2.5%float); ("PRIME RIB ROAST", Some 120%float)]
      (Some "SAFEWAY") in
  map confidence results = [0%float; 1.3%float]
  /\ PrimFloat.ltb 1 1.3 = true.
Proof. vm_compute. split; reflexivity. Qed.

(** Where the bound of C2 does hold.  Without the context argument, the
    confidence is one of the constants of the layers (0.95, 0.9, or the
    maximum of 0, 0.85, 0.8, 0.7 and 0.6), hence between 0 and 1: the
    context score of layer 5 is the only way out of the interval. *)
Lemma Math_max_cases (a b : float) : Math_max a b = a \/ Math_max a b = b.
Proof.
  unfold Math_max.
  destruct (PrimFloat.is_nan a); [left; reflexivity|].
  destruct (PrimFloat.is_nan b); [right; reflexivity|].
  destruct (PrimFloat.ltb a b); [right; reflexivity|].
  destruct (PrimFloat.ltb b a); [left; reflexivity|].
  destruct (PrimFloat.get_sign a); [right|left]; reflexivity.
Qed.

Lemma Math_max_unit (a b : float) :
  unit_interval a = true -> unit_interval b = true ->
  unit_interval (Math_max a b) = true.
Proof.
  intros Ha Hb. destruct (Math_max_cases a b) as [-> | ->]; assumption.
Qed.

Lemma layer3_unit (name : string) (l : locals) :
  unit_interval (l_confidence l) = true ->
  unit_interval (l_confidence (layer3 name l)) = true.
Proof.
  unfold layer3. generalize likelyNonFood. intros rules. revert l.
  induction rules as [|[cat patterns] rules IH]; intros l Hl; [exact Hl|].
  cbn [fold_left]. apply IH. clear IH. revert l Hl.
  induction patterns as [|p patterns IHp]; intros l Hl; [exact Hl|].
  cbn [fold_left]. apply IHp. unfold layer3_pattern.
  destruct (test p name); [|exact Hl].
  cbn [l_confidence]. apply Math_max_unit; [exact Hl|reflexivity].
Qed.

Lemma layer4_unit (name : string) (l : locals) :
  unit_interval (l_confidence l) = true ->
  unit_interval (l_confidence (layer4 name l)) = true.
Proof.
  unfold layer4. generalize nonFoodBrands. intros rules. revert l.
  induction rules as [|[cat brands] rules IH]; intros l Hl; [exact Hl|].
  cbn [fold_left]. apply IH. clear IH. revert l Hl.
  induction brands as [|b brands IHb]; intros l Hl; [exact Hl|].
  cbn [fold_left]. apply IHb. unfold layer4_brand.
  destruct (includes name (toLowerCase b)); [|exact Hl].
  cbn [l_confidence]. apply Math_max_unit; [exact Hl|reflexivity].
Qed.

Lemma layer6_unit (price : option float) (l : locals) :
  unit_interval (l_confidence l) = true ->
  unit_interval (l_confidence (layer6 price l)) = true.
Proof.
  intros Hl. unfold layer6. destruct price as [p|]; [|exact Hl].
  destruct (PrimFloat.ltb 100 p);
    destruct (PrimFloat.leb 50 p && rem1_is_zero p); cbn [l_confidence];
    repeat (apply Math_max_unit; [|reflexivity]); exact Hl.
Qed.

Lemma layer7_unit (name : string) (l : locals) :
  unit_interval (l_confidence l) = true ->
  unit_interval (l_confidence (layer7 name l)) = true.
Proof.
  intros Hl. unfold layer7.
  destruct (Nat.ltb (String.length name) 3);
    destruct (test _ name); cbn [l_confidence];
    repeat (apply Math_max_unit; [|reflexivity]); exact Hl.
Qed.

(** X12: Without the context argument, the confidence detectNonFood returns is
    between 0 and 1, for every name and price. *)
Theorem confidence_without_context (itemName : string) (price : option float) :
  unit_interval (confidence (detectNonFood itemName price None)) = true.
Proof.
  unfold detectNonFood.
  destruct (first_match definiteNonFood _); [reflexivity|].
  destruct (existsb _ storeServices); [reflexivity|].
  destruct (negative_price price); [reflexivity|].
  cbn [confidence layer5].
  apply layer7_unit, layer6_unit, layer4_unit, layer3_unit. reflexivity.
Qed.

End NonFoodProperties.

(** ** The name enhancer *)

Section EnhancerProperties.
Import JS Regex Enhancer TextForm.

(** C7 (Scenario B): "G-P MUSTARD" at SAFEWAY becomes "Grey Poupon
    Mustard", with a confidence above 0.7 (the store pattern adds 0.1 and
    the Condiments row 0.1 to the base 0.7). *)
Theorem scenario_B_grey_poupon :
  enhancedName (enhanceProductName "G-P MUSTARD" "SAFEWAY") = "Grey Poupon Mustard"
  /\ PrimFloat.ltb 0.7 (confidence (enhanceProductName "G-P MUSTARD" "SAFEWAY")) = true.
Proof. vm_compute. split; reflexivity. Qed.

(** The category loop visits every row: its result is decided by the
    last row that matches. *)
Lemma category_fold_app (name : string) (rows1 rows2 : list (string * string))
    (a : option string * float) :
  fold_left (apply_category name) (rows1 ++ rows2) a
  = fold_left (apply_category name) rows2 (fold_left (apply_category name) rows1 a).
Proof. apply fold_left_app. Qed.

Lemma category_fold_none (name : string) (rows : list (string * string))
    (a : option string * float) :
  Forall (fun row => test (keyword_regex (fst row)) name = false) rows ->
  fold_left (apply_category name) rows a = a.
Proof.
  intros H. revert a. induction H as [|row rows Hrow _ IH]; intros a; simpl.
  - reflexivity.
  - unfold apply_category at 2. rewrite Hrow. apply IH.
Qed.

Lemma category_fold_last (name : string) (pre post : list (string * string))
    (row : string * string) (a : option string * float) :
  test (keyword_regex (fst row)) name = true ->
  Forall (fun r => test (keyword_regex (fst r)) name = false) post ->
  fst (fold_left (apply_category name) (pre ++ row :: post) a) = Some (snd row).
Proof.
  intros Hrow Hpost.
  rewrite category_fold_app. simpl.
  rewrite (category_fold_none name post) by exact Hpost.
  unfold apply_category. rewrite Hrow. reflexivity.
Qed.

(** C8, as the code has it: the category is that of the last row of the
    keyword table whose pattern matches the expanded name (the loop
    overwrites the category at every matching row), and undefined when no
    row matches. *)
Theorem category_last_match_wins (originalName storeName : string) :
  let name := fst (expand_name originalName storeName) in
  (forall pre row post,
      PRODUCT_CATEGORIES = pre ++ row :: post ->
      test (keyword_regex (fst row)) name = true ->
      Forall (fun r => test (keyword_regex (fst r)) name = false) post ->
      category (enhanceProductName originalName storeName) = Some (snd row))
  /\ (Forall (fun r => test (keyword_regex (fst r)) name = false) PRODUCT_CATEGORIES ->
      category (enhanceProductName originalName storeName) = None).
Proof.
  intros name. subst name. unfold enhanceProductName, determine_category.
  destruct (expand_name originalName storeName) as [name conf]. simpl fst.
  split.
  - intros pre row post Hsplit Hrow Hpost.
    pose proof (category_fold_last name pre post row (None, conf) Hrow Hpost) as H.
    rewrite <- Hsplit in H.
    destruct (fold_left (apply_category name) PRODUCT_CATEGORIES (None, conf)) as [cat c].
    exact H.
  - intros Hnone.
    rewrite (category_fold_none name PRODUCT_CATEGORIES) by exact Hnone.
    reflexivity.
Qed.

Lemma category_last_match_wins_witness :
  category (enhanceProductName "MILK BREAD" "") = Some "Dairy".
Proof.
  destruct (category_last_match_wins "MILK BREAD" "") as [H _].
  apply (H [("MUSTARD|KETCHUP|MAYO|SAUCE", "Condiments");
            ("COOKIE|CAKE|BREAD|BAGEL|MUFFIN", "Bakery")]
           ("MILK|CHEESE|BUTTER|YOGURT|CREAM", "Dairy")
           (skipn 3 PRODUCT_CATEGORIES)).
  - reflexivity.
  - vm_compute. reflexivity.
  - unfold PRODUCT_CATEGORIES. simpl skipn.
    repeat (apply List.Forall_cons; [vm_compute; reflexivity|]). apply List.Forall_nil.
Defined.

(** C8 fails as stated: "MILK BREAD" matches the Bakery row (second) and
    the Dairy row (third); the earliest matching row is Bakery, and the
    category returned is Dairy. *)
Lemma category_not_first_match :
  fst (expand_name "MILK BREAD" "") = "MILK BREAD"
  /\ map snd (matching_rows "MILK BREAD") = ["Bakery"; "Dairy"]
  /\ category (enhanceProductName "MILK BREAD" "") = Some "Dairy"
  /\ category (enhanceProductName "MILK BREAD" "") <> Some "Bakery".
Proof.
  split; [vm_compute; reflexivity|].
  split; [vm_compute; reflexivity|].
  split; [vm_compute; reflexivity|].
  vm_compute. discriminate.
Qed.

(** The abbreviation loops leave a name alone when no key occurs in it. *)
Lemma apply_abbrevs_clean (bonus : float) (table : list (string * string))
    (name : string) (conf : float) :
  forallb (fun entry => negb (test (abbrev_regex (fst entry)) name)) table = true ->
  apply_abbrevs bonus table (name, conf) = (name, conf).
Proof.
  unfold apply_abbrevs. induction table as [|entry table IH]; simpl; intros H.
  - reflexivity.
  - apply andb_prop in H. destruct H as [He Ht].
    apply negb_true_iff in He. rewrite He. apply IH. exact Ht.
Qed.

(** *** General facts about the matcher *)

Lemma suffix_of_refl s : suffix_of s s.
Proof. exists EmptyString. reflexivity. Qed.

Lemma sapp_cons (x : ascii) (a b : string) :
  (String x a ++ b)%string = String x (a ++ b).
Proof. reflexivity. Qed.

Lemma sapp_nil_l (a : string) : (EmptyString ++ a)%string = a.
Proof. reflexivity. Qed.

Lemma sapp_assoc (a b c : string) : ((a ++ b) ++ c)%string = (a ++ (b ++ c))%string.
Proof.
  induction a as [|x a IH]; [reflexivity|].
  rewrite !sapp_cons, IH. reflexivity.
Qed.

Lemma sapp_nil_r (a : string) : (a ++ EmptyString)%string = a.
Proof.
  induction a as [|x a IH]; [reflexivity|]. rewrite sapp_cons, IH. reflexivity.
Qed.

Lemma slength_app (a b : string) :
  String.length (a ++ b)%string = String.length a + String.length b.
Proof.
  induction a as [|x a IH]; [reflexivity|]. rewrite sapp_cons. simpl. rewrite IH. reflexivity.
Qed.

Lemma suffix_of_trans s1 s2 s3 :
  suffix_of s1 s2 -> suffix_of s2 s3 -> suffix_of s1 s3.
Proof.
  intros [p1 ->] [p2 ->]. exists (p2 ++ p1)%string. symmetry. apply sapp_assoc.
Qed.

Lemma suffix_of_tail c s' s : suffix_of s' s -> suffix_of s' (String c s).
Proof. intros [p ->]. exists (String c p). reflexivity. Qed.

Lemma suffix_of_cons c s : suffix_of s (String c s).
Proof. exists (String c EmptyString). reflexivity. Qed.

Lemma star_loop_suffix step (k : cont) :
  step_suffix step ->
  forall n prev s caps res,
    star_loop step k n prev s caps = Some res ->
    exists p s' c, suffix_of s' s /\ k p s' c = Some res.
Proof.
  intros Hstep. induction n as [|n IHn]; intros prev s caps res H; simpl in H.
  - exists prev, s, caps. split; [apply suffix_of_refl|exact H].
  - destruct (step prev s caps _) eqn:E.
    + injection H as <-. apply Hstep in E.
      destruct E as (p1 & s1 & c1 & Hs1 & E).
      destruct (Nat.ltb (String.length s1) (String.length s)); [|discriminate].
      apply IHn in E. destruct E as (p2 & s2 & c2 & Hs2 & E).
      exists p2, s2, c2. split; [eapply suffix_of_trans; eassumption|exact E].
    + exists prev, s, caps. split; [apply suffix_of_refl|exact H].
Qed.

Lemma rmatch_suffix (ci : bool) (r : regex) : step_suffix (rmatch ci r).
Proof.
  induction r; intros prev s caps k res H; simpl in H.
  - (* REmpty *) exists prev, s, caps. split; [apply suffix_of_refl|exact H].
  - (* RChar *) destruct s as [|a s']; [discriminate|].
    destruct (char_eq ci c a); [|discriminate].
    exists (Some a), s', caps. split; [apply suffix_of_cons|exact H].
  - (* RAny *) destruct s as [|a s']; [discriminate|].
    destruct (is_line_terminator a); [discriminate|].
    exists (Some a), s', caps. split; [apply suffix_of_cons|exact H].
  - (* RClass *) destruct s as [|a s']; [discriminate|].
    destruct (class_has ci neg items a); [|discriminate].
    exists (Some a), s', caps. split; [apply suffix_of_cons|exact H].
  - (* RSeq *)
    apply IHr1 in H. destruct H as (p1 & s1 & c1 & Hs1 & H).
    apply IHr2 in H. destruct H as (p2 & s2 & c2 & Hs2 & H).
    exists p2, s2, c2. split; [eapply suffix_of_trans; eassumption|exact H].
  - (* RAlt *)
    destruct (rmatch ci r1 prev s caps k) eqn:E.
    + injection H as <-. apply IHr1 in E. exact E.
    + apply IHr2 in H. exact H.
  - (* RStar *) eapply star_loop_suffix; eassumption.
  - (* RBol *) destruct prev; [discriminate|].
    exists None, s, caps. split; [apply suffix_of_refl|exact H].
  - (* REol *) destruct s; [|discriminate].
    exists prev, EmptyString, caps. split; [apply suffix_of_refl|exact H].
  - (* RWordB *) destruct (Bool.eqb _ _); [discriminate|].
    exists prev, s, caps. split; [apply suffix_of_refl|exact H].
  - (* RAhead *)
    destruct (rmatch ci r prev s caps _) as [[[p1 s1] c1]|]; [|discriminate].
    exists prev, s, c1. split; [apply suffix_of_refl|exact H].
  - (* RBehind *) destruct prev as [a|]; [|discriminate].
    destruct (class_has ci neg items a); [|discriminate].
    exists (Some a), s, caps. split; [apply suffix_of_refl|exact H].
  - (* RGroup *)
    apply IHr in H. destruct H as (p1 & s1 & c1 & Hs1 & H).
    eexists _, _, _. split; [exact Hs1|exact H].
Qed.

(** *** Decomposition of a search result *)

Lemma take_app_exact (pre s' : string) :
  take (String.length (pre ++ s')%string - String.length s') (pre ++ s')%string = pre.
Proof.
  rewrite slength_app. replace (String.length pre + String.length s' - String.length s')
    with (String.length pre) by lia.
  induction pre as [|x pre IH].
  - rewrite sapp_nil_l. destruct s'; reflexivity.
  - rewrite sapp_cons. simpl. rewrite IH. reflexivity.
Qed.

Lemma rexec_here_parts (ci : bool) (r : regex) (prev : option ascii) (s : string)
    (f : rfound) :
  rexec_here ci r prev s = Some f ->
  skipped f = EmptyString /\ s = (matched f ++ rest f)%string.
Proof.
  unfold rexec_here. intros H.
  destruct (rmatch ci r prev s [] _) as [[[p s'] c]|] eqn:E; [|discriminate].
  injection H as <-. simpl.
  apply rmatch_suffix in E. destruct E as (p1 & s1 & c1 & [pre ->] & E).
  injection E as -> -> ->.
  split; [reflexivity|]. rewrite take_app_exact. reflexivity.
Qed.

Lemma rsearch_parts (ci : bool) (r : regex) (s : string) :
  forall prev f,
    rsearch ci r prev s = Some f ->
    s = (skipped f ++ matched f ++ rest f)%string.
Proof.
  induction s as [|c s IH]; intros prev f H; simpl in H.
  - destruct (rexec_here ci r prev EmptyString) as [f0|] eqn:E; [|discriminate].
    injection H as <-. apply rexec_here_parts in E. destruct E as [-> E]. exact E.
  - destruct (rexec_here ci r prev (String c s)) as [f0|] eqn:E.
    + injection H as <-. apply rexec_here_parts in E. destruct E as [-> E]. exact E.
    + destruct (rsearch ci r (Some c) s) as [f1|] eqn:E1; [|discriminate].
      injection H as <-. simpl. rewrite sapp_cons. f_equal. apply (IH _ _ E1).
Qed.

(** *** Characters of a replacement *)

Lemma forall_chars_app (p : ascii -> bool) (a b : string) :
  forall_chars p (a ++ b)%string = forall_chars p a && forall_chars p b.
Proof.
  induction a as [|x a IH]; [reflexivity|].
  rewrite sapp_cons. simpl. rewrite IH, andb_assoc. reflexivity.
Qed.

Lemma expand_text_only (tpl : list rpiece) (m1 m2 : string) (c1 c2 : captures) :
  text_only tpl = true -> expand tpl m1 c1 = expand tpl m2 c2.
Proof.
  induction tpl as [|piece tpl IH]; simpl; [reflexivity|].
  destruct piece; try discriminate. intros H. rewrite (IH H). reflexivity.
Qed.

Lemma replace_from_chars (p : ascii -> bool) (ci : bool) (r : regex)
    (tpl : list rpiece) :
  text_only tpl = true ->
  forall_chars p (expand tpl EmptyString []) = true ->
  forall fuel prev s,
    forall_chars p s = true ->
    forall_chars p (replace_from fuel ci r tpl prev s) = true.
Proof.
  intros Htpl Hexp. induction fuel as [|fuel IH]; intros prev s Hs; simpl.
  - exact Hs.
  - destruct (rsearch ci r prev s) as [f|] eqn:E; [|exact Hs].
    pose proof (rsearch_parts _ _ _ _ _ E) as Hparts.
    rewrite Hparts in Hs. rewrite !forall_chars_app in Hs.
    apply andb_prop in Hs. destruct Hs as [Hsk Hs].
    apply andb_prop in Hs. destruct Hs as [Hm Hr].
    rewrite !forall_chars_app, Hsk.
    rewrite (expand_text_only tpl _ EmptyString _ [] Htpl), Hexp. simpl.
    destruct (matched f).
    + destruct (rest f) as [|c s']; [reflexivity|].
      simpl in Hr. apply andb_prop in Hr. destruct Hr as [Hc Hr].
      simpl. rewrite Hc. simpl. apply IH. exact Hr.
    + apply IH. exact Hr.
Qed.

(** *** The white-space and special-character replacements *)

Lemma space_class_has (c : ascii) : class_has false false [CSpace] c = is_space c.
Proof. unfold class_has, set_has. simpl. apply orb_false_r. Qed.

Lemma space_class_one_char : one_char is_space (rmatch false space_class).
Proof.
  intros prev s caps k. destruct s as [|c s']; [reflexivity|].
  cbn [rmatch space_class]. rewrite space_class_has. reflexivity.
Qed.

(** The iteration of \s takes the whole run of white space. *)
Lemma star_spaces step :
  one_char is_space step ->
  forall n prev s caps,
    String.length s <= n ->
    exists p, star_loop step accept n prev s caps = Some (p, trimStart s, caps).
Proof.
  intros Hstep. induction n as [|n IH]; intros prev s caps Hn.
  - destruct s; [|simpl in Hn; lia]. exists prev. reflexivity.
  - destruct s as [|c s'].
    + exists prev. cbn [star_loop]. rewrite Hstep. reflexivity.
    + cbn [star_loop]. rewrite Hstep. destruct (is_space c) eqn:Ec.
      * assert (Hlt : Nat.ltb (String.length s') (String.length (String c s')) = true).
        { apply Nat.ltb_lt. simpl. lia. }
        rewrite Hlt. destruct (IH (Some c) s' caps) as [p Hp]; [simpl in Hn; lia|].
        rewrite Hp. exists p. simpl. rewrite Ec. reflexivity.
      * exists prev. simpl. rewrite Ec. reflexivity.
Qed.

(** \s+ at a position: the run of white space that starts there. *)
Lemma spaces_here (prev : option ascii) (s : string) :
  match s with
  | String c s' =>
      if is_space c
      then exists f, rexec_here false (RSeq space_class (RStar space_class)) prev s = Some f
                     /\ matched f <> EmptyString /\ rest f = trimStart s'
      else rexec_here false (RSeq space_class (RStar space_class)) prev s = None
  | EmptyString => rexec_here false (RSeq space_class (RStar space_class)) prev s = None
  end.
Proof.
  destruct s as [|c s']; [reflexivity|].
  unfold rexec_here. cbn [rmatch]. rewrite space_class_one_char.
  destruct (is_space c) eqn:Ec; [|reflexivity].
  destruct (star_spaces _ space_class_one_char (String.length s') (Some c) s' []
              (Nat.le_refl _)) as [p Hp].
  unfold accept in Hp. rewrite Hp.
  eexists. split; [reflexivity|]. cbn [matched rest]. split; [|reflexivity].
  assert (Hsuf : suffix_of (trimStart s') s').
  { clear. induction s' as [|a s' IH]; [apply suffix_of_refl|].
    simpl. destruct (is_space a); [apply suffix_of_tail; exact IH|apply suffix_of_refl]. }
  destruct Hsuf as [pre Hpre].
  assert (Hlen : String.length (trimStart s') <= String.length s').
  { rewrite Hpre at 2. rewrite slength_app. lia. }
  replace (String.length (String c s') - String.length (trimStart s'))
    with (S (String.length s' - String.length (trimStart s'))) by (simpl; lia).
  simpl. discriminate.
Qed.

Lemma trimStart_shorter (s : string) : String.length (trimStart s) <= String.length s.
Proof.
  induction s as [|a s IH]; [reflexivity|].
  simpl. destruct (is_space a); simpl; lia.
Qed.

Lemma collapse_true (s : string) : collapse true s = collapse false (trimStart s).
Proof.
  induction s as [|c s IH]; [reflexivity|].
  simpl. destruct (is_space c) eqn:Ec; [exact IH|].
  simpl. rewrite Ec. reflexivity.
Qed.

(** The next match of \s+ and what [collapse] does up to it. *)
Lemma spaces_search (s : string) :
  forall prev,
    match rsearch false (RSeq space_class (RStar space_class)) prev s with
    | None => collapse false s = s
    | Some f =>
        collapse false s = (skipped f ++ " " ++ collapse false (rest f))%string
        /\ matched f <> EmptyString
        /\ String.length (rest f) < String.length s
    end.
Proof.
  induction s as [|c s IH]; intros prev.
  - reflexivity.
  - pose proof (spaces_here prev (String c s)) as H. cbn [rsearch].
    cbv beta iota in H. destruct (is_space c) eqn:Ec.
    + destruct H as (f & Hf & Hm & Hr). rewrite Hf.
      pose proof (rexec_here_parts _ _ _ _ _ Hf) as [Hsk _].
      rewrite Hsk, Hr. split; [|split; [exact Hm|]].
      * simpl. rewrite Ec, collapse_true. reflexivity.
      * pose proof (trimStart_shorter s). simpl. lia.
    + rewrite H. specialize (IH (Some c)).
      destruct (rsearch false _ (Some c) s) as [f1|].
      * destruct IH as (Hc & Hm & Hl). cbn [skipped matched rest].
        split; [|split; [exact Hm|simpl; lia]].
        simpl. rewrite Ec, Hc. reflexivity.
      * simpl. rewrite Ec, IH. reflexivity.
Qed.

Lemma replace_spaces_from (fuel : nat) :
  forall prev s,
    String.length s < fuel ->
    replace_from fuel false (RSeq space_class (RStar space_class)) [PText " "] prev s
    = collapse false s.
Proof.
  induction fuel as [|fuel IH]; intros prev s Hlen; [lia|].
  cbn [replace_from]. pose proof (spaces_search s prev) as H.
  destruct (rsearch false _ prev s) as [f|]; [|symmetry; exact H].
  destruct H as (Hc & Hm & Hl). rewrite Hc.
  destruct (matched f); [contradiction|].
  rewrite IH by lia. reflexivity.
Qed.

(** L1: replacing /\s+/g by one space collapses every run of white space. *)
Lemma replace_spaces (s : string) :
  replace Enhancer.re_spaces " " s = collapse false s.
Proof.
  unfold replace.
  change (re_i Enhancer.re_spaces) with false.
  change (re_src Enhancer.re_spaces) with (RSeq space_class (RStar space_class)).
  change (read_template " ") with [PText " "].
  apply replace_spaces_from. lia.
Qed.

(** *** Special characters *)

Lemma special_here (prev : option ascii) (s : string) :
  rexec_here false (RClass true special_items) prev s
  = match s with
    | String c s' =>
        if is_special c
        then Some (mkFound EmptyString (String c EmptyString) (Some c) s' [])
        else None
    | EmptyString => None
    end.
Proof.
  destruct s as [|c s']; [reflexivity|].
  unfold rexec_here. cbn [rmatch]. fold (is_special c).
  destruct (is_special c); [|reflexivity].
  replace (String.length (String c s') - String.length s') with 1 by (simpl; lia).
  reflexivity.
Qed.

Lemma special_search (s : string) :
  forall prev,
    match rsearch false (RClass true special_items) prev s with
    | None => keep_chars (fun c => negb (is_special c)) s = s
    | Some f =>
        keep_chars (fun c => negb (is_special c)) s
        = (skipped f ++ keep_chars (fun c => negb (is_special c)) (rest f))%string
        /\ matched f <> EmptyString
        /\ String.length (rest f) < String.length s
    end.
Proof.
  induction s as [|c s IH]; intros prev.
  - reflexivity.
  - cbn [rsearch]. rewrite special_here. destruct (is_special c) eqn:Ec.
    + cbn [skipped matched rest]. split; [|split; [discriminate|simpl; lia]].
      simpl. rewrite Ec. reflexivity.
    + specialize (IH (Some c)).
      destruct (rsearch false _ (Some c) s) as [f1|].
      * destruct IH as (Hc & Hm & Hl). cbn [skipped matched rest].
        split; [|split; [exact Hm|simpl; lia]].
        simpl. rewrite Ec. simpl. rewrite Hc. reflexivity.
      * simpl. rewrite Ec. simpl. rewrite IH. reflexivity.
Qed.

Lemma replace_special_from (fuel : nat) :
  forall prev s,
    String.length s < fuel ->
    replace_from fuel false (RClass true special_items) [] prev s
    = keep_chars (fun c => negb (is_special c)) s.
Proof.
  induction fuel as [|fuel IH]; intros prev s Hlen; [lia|].
  cbn [replace_from]. pose proof (special_search s prev) as H.
  destruct (rsearch false _ prev s) as [f|]; [|symmetry; exact H].
  destruct H as (Hc & Hm & Hl). rewrite Hc.
  destruct (matched f); [contradiction|].
  rewrite IH by lia. reflexivity.
Qed.

(** L2: replacing /[^\w\s&'-]/g by nothing removes the special characters. *)
Lemma replace_special (s : string) :
  replace Enhancer.re_special "" s = keep_chars (fun c => negb (is_special c)) s.
Proof.
  unfold replace.
  change (re_i Enhancer.re_special) with false.
  change (re_src Enhancer.re_special) with (RClass true special_items).
  change (read_template "") with (@nil rpiece).
  apply replace_special_from. lia.
Qed.

(** *** Characters *)

Ltac each_char c :=
  destruct c as [[] [] [] [] [] [] [] []]; vm_compute; try reflexivity; try discriminate;
  auto.

Lemma plain_not_special (c : ascii) :
  plain_or_space c = true -> is_special c = false.
Proof. each_char c. Qed.

Lemma kept_is_plain (c : ascii) :
  is_special c = false -> only_sp c = true -> plain_or_space c = true.
Proof. each_char c. Qed.

Lemma plain_space (c : ascii) :
  plain_or_space c = true -> is_space c = Ascii.eqb c " ".
Proof. each_char c. Qed.

Lemma plain_char_not_space (c : ascii) :
  plain_char c = true -> Ascii.eqb c " " = false.
Proof. each_char c. Qed.

Lemma plain_split (c : ascii) :
  plain_or_space c = true -> Ascii.eqb c " " = false -> plain_char c = true.
Proof. each_char c. Qed.

Lemma to_upper_plain (c : ascii) : plain_char c = true -> plain_char (to_upper c) = true.
Proof. each_char c. Qed.

Lemma to_lower_plain (c : ascii) : plain_char c = true -> plain_char (to_lower c) = true.
Proof. each_char c. Qed.

Lemma to_upper_case_ok (c : ascii) : case_ok true (to_upper c) = true.
Proof. each_char c. Qed.

Lemma to_lower_case_ok (c : ascii) : case_ok false (to_lower c) = true.
Proof. each_char c. Qed.

(** *** Strings in normal form *)

Lemma join_cons (sep x y : string) (l : list string) :
  join sep (x :: y :: l) = (x ++ sep ++ join sep (y :: l))%string.
Proof. reflexivity. Qed.

Lemma join_capitalized (x : string) (ws : list string) :
  join " " (x :: map capitalize ws) = (x ++ tailcat ws)%string.
Proof.
  revert x. induction ws as [|w ws IH]; intros x.
  - simpl. rewrite sapp_nil_r. reflexivity.
  - change (map capitalize (w :: ws)) with (capitalize w :: map capitalize ws).
    rewrite join_cons, IH. reflexivity.
Qed.

Lemma title_words (u : string) :
  exists w ws,
    split_on " " u = w :: ws
    /\ cap_from true u = (capitalize w ++ tailcat ws)%string
    /\ cap_from false u = (toLowerCase w ++ tailcat ws)%string.
Proof.
  induction u as [|c u (w & ws & Hs & Ht & Hf)].
  - exists EmptyString, []. repeat split.
  - cbn [split_on cap_from]. rewrite Hs. destruct (Ascii.eqb c " ") eqn:Ec.
    + exists EmptyString, (w :: ws). split; [reflexivity|].
      cbn [tailcat]. rewrite Ht. split; reflexivity.
    + exists (String c w), ws. split; [reflexivity|].
      rewrite Hf. split; reflexivity.
Qed.

(** The join of the capitalised words, as one pass over the text. *)
Lemma join_capitalize_split (u : string) :
  join " " (map capitalize (split_on " " u)) = cap_from true u.
Proof.
  destruct (title_words u) as (w & ws & Hs & Ht & _).
  rewrite Hs, Ht. cbn [map]. apply join_capitalized.
Qed.

Lemma forall_chars_trimStart (p : ascii -> bool) (s : string) :
  forall_chars p s = true -> forall_chars p (trimStart s) = true.
Proof.
  induction s as [|c s IH]; [reflexivity|]. intros H. simpl.
  destruct (is_space c); [|exact H].
  simpl in H. apply andb_prop in H. apply IH. apply H.
Qed.

Lemma forall_chars_trimEnd (p : ascii -> bool) (s : string) :
  forall_chars p s = true -> forall_chars p (trimEnd s) = true.
Proof.
  induction s as [|c s IH]; [reflexivity|]. intros H. simpl in H.
  apply andb_prop in H. destruct H as [Hc Hs]. specialize (IH Hs). simpl.
  destruct (trimEnd s) as [|a t].
  - destruct (is_space c); [reflexivity|]. simpl. rewrite Hc. reflexivity.
  - cbn [forall_chars]. cbn [forall_chars] in IH. rewrite Hc, IH. reflexivity.
Qed.

Lemma forall_chars_trim (p : ascii -> bool) (s : string) :
  forall_chars p s = true -> forall_chars p (trim s) = true.
Proof.
  intros H. unfold trim. apply forall_chars_trimEnd, forall_chars_trimStart, H.
Qed.

Lemma collapse_only_sp (r : bool) (s : string) :
  forall_chars only_sp (collapse r s) = true.
Proof.
  revert r. induction s as [|c s IH]; intros r; [reflexivity|].
  simpl. destruct (is_space c) eqn:Ec.
  - destruct r; [apply IH|]. simpl. apply IH.
  - simpl. unfold only_sp at 1. rewrite Ec. simpl. apply IH.
Qed.

Lemma keep_chars_plain (s : string) :
  forall_chars only_sp s = true ->
  forall_chars plain_or_space (keep_chars (fun c => negb (is_special c)) s) = true.
Proof.
  induction s as [|c s IH]; [reflexivity|]. intros H. simpl in H.
  apply andb_prop in H. destruct H as [Hc Hs]. simpl.
  destruct (is_special c) eqn:Ec; simpl; [apply IH, Hs|].
  rewrite (kept_is_plain c Ec Hc). simpl. apply IH, Hs.
Qed.

(** F1: the clean-up leaves plain characters only. *)
Lemma initial_cleanup_plain (s : string) :
  forall_chars plain_or_space (Enhancer.initial_cleanup s) = true.
Proof.
  unfold Enhancer.initial_cleanup. rewrite replace_spaces, replace_special.
  apply forall_chars_trim, keep_chars_plain, collapse_only_sp.
Qed.

(** *** The abbreviation loops keep the text plain *)

Lemma replace_plain (re : regexp) (v s : string) :
  plain_expansion v = true ->
  forall_chars plain_or_space s = true ->
  forall_chars plain_or_space (replace re v s) = true.
Proof.
  unfold plain_expansion. intros H Hs. apply andb_prop in H. destruct H as [Ht Hv].
  unfold replace. apply replace_from_chars; assumption.
Qed.

Lemma apply_abbrevs_plain (bonus : float) (table : list (string * string)) :
  forallb (fun entry => plain_expansion (snd entry)) table = true ->
  forall name conf,
    forall_chars plain_or_space name = true ->
    forall_chars plain_or_space (fst (Enhancer.apply_abbrevs bonus table (name, conf)))
    = true.
Proof.
  unfold Enhancer.apply_abbrevs.
  induction table as [|entry table IH]; intros Ht name conf Hn; [exact Hn|].
  cbn [forallb] in Ht. apply andb_prop in Ht. destruct Ht as [He Ht].
  cbn [fold_left]. unfold Enhancer.apply_abbrev at 2.
  destruct (test (Enhancer.abbrev_regex (fst entry)) name).
  - apply (IH Ht). apply replace_plain; assumption.
  - apply (IH Ht). exact Hn.
Qed.

Lemma store_table_plain (storeName : string) :
  forallb (fun entry => plain_expansion (snd entry)) (Enhancer.store_table storeName)
  = true.
Proof.
  unfold Enhancer.store_table, Enhancer.STORE_PATTERNS.
  destruct (String.eqb _ "SAFEWAY"); [vm_compute; reflexivity|].
  destruct (String.eqb _ "WALMART"); [vm_compute; reflexivity|].
  destruct (String.eqb _ "TARGET"); [vm_compute; reflexivity|].
  reflexivity.
Qed.

Lemma common_table_plain :
  forallb (fun entry => plain_expansion (snd entry)) Enhancer.COMMON_ABBREVIATIONS = true.
Proof. vm_compute. reflexivity. Qed.

(** F3: the name after the abbreviation loops is plain. *)
Lemma expand_name_plain (originalName storeName : string) :
  forall_chars plain_or_space (fst (Enhancer.expand_name originalName storeName)) = true.
Proof.
  unfold Enhancer.expand_name.
  destruct (Enhancer.apply_abbrevs 0.1 (Enhancer.store_table storeName)
              (Enhancer.initial_cleanup originalName, 0.7%float)) as [n1 c1] eqn:E.
  apply apply_abbrevs_plain; [apply common_table_plain|].
  change n1 with (fst (n1, c1)). rewrite <- E.
  apply apply_abbrevs_plain; [apply store_table_plain|apply initial_cleanup_plain].
Qed.

(** *** Title casing gives a normal form *)

Lemma cap_from_snf_chars (u : string) :
  forall start,
    forall_chars plain_or_space u = true ->
    forall_chars plain_or_space (cap_from start u) = true.
Proof.
  induction u as [|c u IH]; intros start H; [reflexivity|].
  simpl in H. apply andb_prop in H. destruct H as [Hc Hu].
  cbn [cap_from]. destruct (Ascii.eqb c " ") eqn:Ec.
  - simpl. apply IH, Hu.
  - pose proof (plain_split c Hc Ec) as Hp. cbn [forall_chars].
    rewrite (IH _ Hu), andb_true_r. unfold plain_or_space.
    destruct start; [rewrite (to_upper_plain c Hp)|rewrite (to_lower_plain c Hp)];
      reflexivity.
Qed.

(** The text after [cap_from] and the collapse of its runs of spaces. *)
Lemma collapse_cap_snf (u : string) :
  forall r,
    forall_chars plain_or_space u = true ->
    snf r (collapse r (cap_from r u)) = true.
Proof.
  induction u as [|c u IH]; intros r H; [reflexivity|].
  simpl in H. apply andb_prop in H. destruct H as [Hc Hu].
  cbn [cap_from]. destruct (Ascii.eqb c " ") eqn:Ec.
  - cbn [collapse]. change (is_space " ") with true. cbv iota.
    destruct r; [apply IH, Hu|].
    cbn [snf]. change (Ascii.eqb " " " ") with true. cbv iota.
    simpl negb. rewrite andb_true_l. apply IH, Hu.
  - pose proof (plain_split c Hc Ec) as Hp.
    set (c' := if r then to_upper c else to_lower c).
    assert (Hp' : plain_char c' = true).
    { subst c'. destruct r; [apply to_upper_plain|apply to_lower_plain]; exact Hp. }
    assert (Hk : case_ok r c' = true).
    { subst c'. destruct r; [apply to_upper_case_ok|apply to_lower_case_ok]. }
    assert (Hsp : is_space c' = false).
    { rewrite (plain_space c'); [apply plain_char_not_space, Hp'|].
      unfold plain_or_space. rewrite Hp'. reflexivity. }
    cbn [collapse]. rewrite Hsp. cbn [snf].
    rewrite (plain_char_not_space c' Hp'), Hp', Hk. simpl. apply IH, Hu.
Qed.

Lemma collapse_true_no_lead (s : string) : trimStart (collapse true s) = collapse true s.
Proof.
  induction s as [|c s IH]; [reflexivity|].
  simpl. destruct (is_space c) eqn:Ec; [exact IH|]. simpl. rewrite Ec. reflexivity.
Qed.

Lemma trimStart_collapse (s : string) : trimStart (collapse false s) = collapse true s.
Proof.
  destruct s as [|c s]; [reflexivity|].
  simpl. destruct (is_space c) eqn:Ec.
  - simpl. apply collapse_true_no_lead.
  - simpl. rewrite Ec. reflexivity.
Qed.

Lemma nf_space (start : bool) (s : string) :
  nf start (String " " s) = negb start && nf true s.
Proof. reflexivity. Qed.

Lemma nf_char (start : bool) (c : ascii) (s : string) :
  Ascii.eqb c " " = false ->
  nf start (String c s) = plain_char c && case_ok start c && nf false s.
Proof. intros H. cbn [nf]. rewrite H. reflexivity. Qed.

Lemma snf_trimEnd (z : string) :
  forall start,
    snf start z = true ->
    trimEnd z = EmptyString \/ nf start (trimEnd z) = true.
Proof.
  induction z as [|c z IH]; intros start H; [left; reflexivity|].
  cbn [snf] in H. cbn [trimEnd]. destruct (Ascii.eqb c " ") eqn:Ec.
  - apply andb_prop in H. destruct H as [Hs Hz].
    apply Ascii.eqb_eq in Ec. subst c. change (is_space " ") with true.
    destruct (IH true Hz) as [He|Hn].
    + rewrite He. left. reflexivity.
    + right. destruct (trimEnd z) as [|a t]; [discriminate Hn|].
      rewrite nf_space, Hs, Hn. reflexivity.
  - apply andb_prop in H. destruct H as [H Hz].
    apply andb_prop in H. destruct H as [Hp Hk].
    assert (Hsp : is_space c = false).
    { rewrite (plain_space c); [exact Ec|]. unfold plain_or_space. rewrite Hp. reflexivity. }
    right. destruct (IH false Hz) as [He|Hn].
    + rewrite He, Hsp. rewrite (nf_char _ _ _ Ec), Hp, Hk. reflexivity.
    + destruct (trimEnd z) as [|a t] eqn:Et.
      * rewrite Hsp. rewrite (nf_char _ _ _ Ec), Hp, Hk. reflexivity.
      * rewrite (nf_char _ _ _ Ec), Hp, Hk, Hn. reflexivity.
Qed.

(** The title-cased text is empty or in normal form. *)
Lemma title_case_nf (u : string) :
  forall_chars plain_or_space u = true ->
  Enhancer.title_case u = EmptyString \/ nf true (Enhancer.title_case u) = true.
Proof.
  intros H. unfold Enhancer.title_case.
  rewrite join_capitalize_split, replace_spaces. unfold trim.
  rewrite trimStart_collapse. apply snf_trimEnd. apply collapse_cap_snf, H.
Qed.

(** *** A normal form is a fixed point of every step *)

Lemma nf_plain (s : string) :
  forall start, nf start s = true -> forall_chars plain_or_space s = true.
Proof.
  induction s as [|c s IH]; intros start H; [reflexivity|].
  cbn [nf] in H. cbn [forall_chars]. destruct (Ascii.eqb c " ") eqn:Ec.
  - apply andb_prop in H. destruct H as [_ H]. rewrite (IH _ H).
    unfold plain_or_space. rewrite Ec, orb_true_r. reflexivity.
  - apply andb_prop in H. destruct H as [H Hs].
    apply andb_prop in H. destruct H as [Hp _]. rewrite (IH _ Hs).
    unfold plain_or_space. rewrite Hp. reflexivity.
Qed.

Lemma nf_trimStart (s : string) : nf true s = true -> trimStart s = s.
Proof.
  destruct s as [|c s]; [reflexivity|]. cbn [nf]. intros H.
  destruct (Ascii.eqb c " ") eqn:Ec; [discriminate H|].
  apply andb_prop in H. destruct H as [H _]. apply andb_prop in H. destruct H as [Hp _].
  simpl. rewrite (plain_space c), Ec; [reflexivity|].
  unfold plain_or_space. rewrite Hp. reflexivity.
Qed.

Lemma nf_trimEnd (s : string) : forall start, nf start s = true -> trimEnd s = s.
Proof.
  induction s as [|c s IH]; intros start H; [reflexivity|].
  cbn [nf] in H. cbn [trimEnd]. destruct (Ascii.eqb c " ") eqn:Ec.
  - apply andb_prop in H. destruct H as [_ Hs]. rewrite (IH _ Hs).
    destruct s; [discriminate Hs|reflexivity].
  - apply andb_prop in H. destruct H as [H Hs].
    apply andb_prop in H. destruct H as [Hp _]. rewrite (IH _ Hs).
    destruct s; [|reflexivity].
    rewrite (plain_space c), Ec; [reflexivity|].
    unfold plain_or_space. rewrite Hp. reflexivity.
Qed.

Lemma nf_trim (s : string) : nf true s = true -> trim s = s.
Proof.
  intros H. unfold trim. rewrite (nf_trimStart s H). apply (nf_trimEnd s true H).
Qed.

Lemma nf_collapse (s : string) :
  forall start r,
    nf start s = true -> (start = false -> r = false) -> collapse r s = s.
Proof.
  induction s as [|c s IH]; intros start r H Hr; [reflexivity|].
  cbn [nf] in H. cbn [collapse]. destruct (Ascii.eqb c " ") eqn:Ec.
  - apply andb_prop in H. destruct H as [Hst Hs].
    apply Ascii.eqb_eq in Ec. subst c. change (is_space " ") with true. cbv iota.
    destruct start; [discriminate Hst|]. rewrite (Hr eq_refl).
    rewrite (IH true true Hs); [reflexivity|discriminate].
  - apply andb_prop in H. destruct H as [H Hs].
    apply andb_prop in H. destruct H as [Hp _].
    rewrite (plain_space c), Ec; [|unfold plain_or_space; rewrite Hp; reflexivity].
    rewrite (IH false false Hs); reflexivity.
Qed.

Lemma plain_keep (s : string) :
  forall_chars plain_or_space s = true ->
  keep_chars (fun c => negb (is_special c)) s = s.
Proof.
  induction s as [|c s IH]; [reflexivity|]. intros H. simpl in H.
  apply andb_prop in H. destruct H as [Hc Hs]. simpl.
  rewrite (plain_not_special c Hc). simpl. rewrite (IH Hs). reflexivity.
Qed.

Lemma nf_cap_from (s : string) : forall start, nf start s = true -> cap_from start s = s.
Proof.
  induction s as [|c s IH]; intros start H; [reflexivity|].
  cbn [nf] in H. cbn [cap_from]. destruct (Ascii.eqb c " ") eqn:Ec.
  - apply andb_prop in H. destruct H as [_ Hs].
    apply Ascii.eqb_eq in Ec. subst c. rewrite (IH _ Hs). reflexivity.
  - apply andb_prop in H. destruct H as [H Hs].
    apply andb_prop in H. destruct H as [_ Hk]. rewrite (IH _ Hs).
    unfold case_ok in Hk. destruct start; apply Ascii.eqb_eq in Hk; rewrite Hk; reflexivity.
Qed.

Lemma nf_initial_cleanup (t : string) :
  nf true t = true -> Enhancer.initial_cleanup t = t.
Proof.
  intros H. unfold Enhancer.initial_cleanup.
  rewrite (nf_trim t H), replace_spaces.
  rewrite (nf_collapse t true false H) by discriminate.
  rewrite replace_special, (plain_keep t (nf_plain t true H)).
  apply (nf_trim t H).
Qed.

Lemma nf_title_case (t : string) :
  nf true t = true -> Enhancer.title_case t = t.
Proof.
  intros H. unfold Enhancer.title_case.
  rewrite join_capitalize_split, (nf_cap_from t true H), replace_spaces.
  rewrite (nf_collapse t true false H) by discriminate.
  apply (nf_trim t H).
Qed.

(** *** The fixed point *)

(** A name that the clean-up and the title-casing leave unchanged and in
    which no abbreviation occurs is returned unchanged. *)
Lemma clean_name_fixed_point (name storeName : string) :
  initial_cleanup name = name ->
  title_case name = name ->
  dictionary_clean name storeName = true ->
  enhancedName (enhanceProductName name storeName) = name.
Proof.
  intros Hclean Htitle Hdict.
  unfold dictionary_clean in Hdict. rewrite forallb_app in Hdict.
  apply andb_prop in Hdict. destruct Hdict as [Hstore Hcommon].
  unfold enhanceProductName, expand_name.
  rewrite Hclean.
  rewrite (apply_abbrevs_clean _ _ _ _ Hstore).
  rewrite (apply_abbrevs_clean _ _ _ _ Hcommon).
  destruct (determine_category name 0.7%float) as [cat conf].
  simpl. exact Htitle.
Qed.

Lemma enhancedName_title_case (originalName storeName : string) :
  enhancedName (enhanceProductName originalName storeName)
  = title_case (fst (expand_name originalName storeName)).
Proof.
  unfold enhanceProductName.
  destruct (expand_name originalName storeName) as [name conf].
  destruct (determine_category name conf) as [cat conf']. reflexivity.
Qed.

(** C9, as the code has it: for every input name and store name, when no
    abbreviation of the store's table or of the common table occurs in the
    enhancedName produced, enhancing that name again (for the same store)
    returns it unchanged; the confidence may differ.  The name produced is
    always clean and title-cased, so the abbreviations are the only way a
    second application can change it. *)
Theorem enhanced_name_fixed_point (originalName storeName : string) :
  let produced := enhancedName (enhanceProductName originalName storeName) in
  dictionary_clean produced storeName = true ->
  enhancedName (enhanceProductName produced storeName) = produced.
Proof.
  intros produced Hdict.
  assert (Hp : produced = title_case (fst (expand_name originalName storeName)))
    by apply enhancedName_title_case.
  destruct (title_case_nf _ (expand_name_plain originalName storeName)) as [He|Hn];
    rewrite <- Hp in *.
  - rewrite He in *. apply clean_name_fixed_point; [reflexivity|reflexivity|exact Hdict].
  - apply clean_name_fixed_point;
      [apply nf_initial_cleanup, Hn|apply nf_title_case, Hn|exact Hdict].
Qed.

Lemma enhanced_name_fixed_point_witness :
  enhancedName
    (enhanceProductName (enhancedName (enhanceProductName "G-P MUSTARD" "SAFEWAY"))
       "SAFEWAY")
  = enhancedName (enhanceProductName "G-P MUSTARD" "SAFEWAY").
Proof.
  apply (enhanced_name_fixed_point "G-P MUSTARD" "SAFEWAY").
  vm_compute. reflexivity.
Defined.

(** C9 fails as stated: at TARGET, "UP&UP&UP" is enhanced to
    "Up & Up&up" (the global replacement finds one occurrence of UP&UP,
    and the rest, "&UP", is no occurrence); enhancing that name again
    finds the occurrence "Up&up" and gives "Up & Up & Up". *)
Lemma enhancer_not_idempotent :
  enhancedName (enhanceProductName "UP&UP&UP" "TARGET") = "Up & Up&up"
  /\ enhancedName (enhanceProductName "Up & Up&up" "TARGET") = "Up & Up & Up"
  /\ enhancedName
       (enhanceProductName (enhancedName (enhanceProductName "UP&UP&UP" "TARGET"))
          "TARGET")
     <> enhancedName (enhanceProductName "UP&UP&UP" "TARGET").
Proof.
  split; [vm_compute; reflexivity|].
  split; [vm_compute; reflexivity|].
  vm_compute. discriminate.
Qed.

End EnhancerProperties.

(** ** The learning store *)

Section LearningProperties.
Import JS Learning.

Lemma apply_learned_name (patterns : gmap string string) (item : InputItem) :
  name (apply_learned patterns item) = in_name item.
Proof.
  unfold apply_learned.
  destruct (is_hidden _); [reflexivity|].
  destruct (truthy _); reflexivity.
Qed.

(** C10: applyLearnedEnhancements returns one element for every input
    item, in the same order, with the name of the input item; the other
    fields of the output (enhancedName, wasLearned, shouldHide) are the
    ones it computes.  The function only reads the storage. *)
Theorem learned_items_keep_names (st : Storage) (items : list InputItem)
    (storeName : string) :
  List.length (applyLearnedEnhancements st items storeName) = List.length items
  /\ map name (applyLearnedEnhancements st items storeName) = map in_name items
  /\ (forall (i : nat) (item : InputItem),
        nth_error items i = Some item ->
        exists out,
          nth_error (applyLearnedEnhancements st items storeName) i = Some out
          /\ name out = in_name item).
Proof.
  unfold applyLearnedEnhancements.
  split; [apply List.length_map|].
  split.
  - rewrite List.map_map. apply List.map_ext. intros item. apply apply_learned_name.
  - intros i item Hi.
    exists (apply_learned (getLearnedPatterns st storeName) item).
    split; [|apply apply_learned_name].
    apply List.map_nth_error. exact Hi.
Qed.

(** What saveLearning leaves in the pattern table. *)
Lemma saveLearning_pattern (st : Storage) (now : string) (data : LearningData)
    (store : string) :
  toUpperCase store = toUpperCase (storeName data) ->
  originalName data <> "__proto__" ->
  getLearnedPatterns (saveLearning now data st) store !! originalName data
  = Some (newEnhancedName data).
Proof.
  intros Hstore Hproto.
  unfold getLearnedPatterns, saveLearning, updatePatterns, getAllPatterns.
  cbn [learned_patterns storeName originalName newEnhancedName].
  rewrite Hstore. rewrite lookup_insert_eq.
  unfold set_property.
  destruct (String.eqb (originalName data) "__proto__") eqn:E.
  - apply String.eqb_eq in E. contradiction.
  - apply lookup_insert_eq.
Qed.

Lemma apply_learned_hidden (patterns : gmap string string) (item : InputItem) :
  patterns !! in_name item = Some HIDDEN ->
  apply_learned patterns item
  = mkLearned (in_name item) (VText (enhanced_or_name item)) true (Some true).
Proof.
  intros H. unfold apply_learned, get_property. rewrite H. reflexivity.
Qed.

Lemma apply_learned_text (patterns : gmap string string) (item : InputItem)
    (v : string) :
  patterns !! in_name item = Some v ->
  v <> HIDDEN -> v <> EmptyString ->
  apply_learned patterns item = mkLearned (in_name item) (VText v) true None.
Proof.
  intros H Hh He. unfold apply_learned, get_property. rewrite H.
  unfold is_hidden. destruct (String.eqb v HIDDEN) eqn:E.
  - apply String.eqb_eq in E. contradiction.
  - destruct v; [contradiction|reflexivity].
Qed.

Lemma apply_learned_empty (patterns : gmap string string) (item : InputItem) :
  patterns !! in_name item = Some EmptyString ->
  apply_learned patterns item
  = mkLearned (in_name item) (VText (enhanced_or_name item)) false None.
Proof.
  intros H. unfold apply_learned, get_property. rewrite H. reflexivity.
Qed.

(** C1, as the code has it.  Recording a correction for "LND O LKS
    BUTTER" under SAFEWAY stores its new name in the pattern table under
    that store and text.  Whenever the table maps that store and text to
    the hide sentinel, applyLearnedEnhancements for that store returns
    every item of that name with shouldHide = true and wasLearned = true
    (it does not consult any classifier); whenever it maps them to a text
    that is neither the sentinel nor empty, that text is the enhancedName
    returned and wasLearned = true; an empty stored text is ignored. *)
Theorem learning_override :
  (forall (st : Storage) (now : string) (data : LearningData),
      toUpperCase (storeName data) = "SAFEWAY" ->
      originalName data = "LND O LKS BUTTER" ->
      getLearnedPatterns (saveLearning now data st) "SAFEWAY" !! "LND O LKS BUTTER"
      = Some (newEnhancedName data))
  /\ (forall (st : Storage) (store : string) (items : list InputItem)
             (i : nat) (item : InputItem) (v : string),
        toUpperCase store = "SAFEWAY" ->
        getLearnedPatterns st "SAFEWAY" !! "LND O LKS BUTTER" = Some v ->
        nth_error items i = Some item ->
        in_name item = "LND O LKS BUTTER" ->
        (v = HIDDEN ->
         nth_error (applyLearnedEnhancements st items store) i
         = Some (mkLearned "LND O LKS BUTTER" (VText (enhanced_or_name item))
                   true (Some true)))
        /\ (v <> HIDDEN -> v <> EmptyString ->
            nth_error (applyLearnedEnhancements st items store) i
            = Some (mkLearned "LND O LKS BUTTER" (VText v) true None))
        /\ (v = EmptyString ->
            nth_error (applyLearnedEnhancements st items store) i
            = Some (mkLearned "LND O LKS BUTTER" (VText (enhanced_or_name item))
                      false None))).
Proof.
  split.
  - intros st now data Hstore Hname.
    rewrite <- Hname. apply saveLearning_pattern.
    + rewrite Hstore. reflexivity.
    + rewrite Hname. discriminate.
  - intros st store items i item v Hstore Hv Hi Hname.
    assert (Hp : getLearnedPatterns st store = getLearnedPatterns st "SAFEWAY").
    { unfold getLearnedPatterns. rewrite Hstore. reflexivity. }
    unfold applyLearnedEnhancements. rewrite Hp.
    rewrite <- Hname in Hv.
    split; [|split].
    + intros ->. erewrite List.map_nth_error by exact Hi.
      rewrite (apply_learned_hidden _ _ Hv). rewrite Hname. reflexivity.
    + intros Hh He. erewrite List.map_nth_error by exact Hi.
      rewrite (apply_learned_text _ _ _ Hv Hh He). rewrite Hname. reflexivity.
    + intros ->. erewrite List.map_nth_error by exact Hi.
      rewrite (apply_learned_empty _ _ Hv). rewrite Hname. reflexivity.
Qed.

(** A hide correction recorded in an empty storage, then applied to a
    receipt with the same store and name. *)
Lemma learning_override_witness :
  let data := mkLearning "" "Safeway" "LND O LKS BUTTER" "Land O Lakes Butter"
                HIDDEN item_hidden in
  let st := saveLearning "2025-01-01T00:00:00.000Z" data (mkStorage None None) in
  nth_error
    (applyLearnedEnhancements st
       [mkInput "MILK" None; mkInput "LND O LKS BUTTER" (Some "Land O Lakes Butter")]
       "safeway") 1
  = Some (mkLearned "LND O LKS BUTTER" (VText "Land O Lakes Butter") true (Some true)).
Proof.
  intros data st.
  destruct learning_override as [Hsave Happly].
  assert (Hv : getLearnedPatterns st "SAFEWAY" !! "LND O LKS BUTTER" = Some HIDDEN).
  { apply (Hsave (mkStorage None None) "2025-01-01T00:00:00.000Z" data);
      reflexivity. }
  destruct (Happly st "safeway"
              [mkInput "MILK" None;
               mkInput "LND O LKS BUTTER" (Some "Land O Lakes Butter")]
              1 (mkInput "LND O LKS BUTTER" (Some "Land O Lakes Butter")) HIDDEN
              eq_refl Hv eq_refl eq_refl) as [Hhide _].
  exact (Hhide eq_refl).
Defined.

(** C1 fails as stated for the empty text: a correction that stores the
    empty text (a text value that is not the sentinel) does not replace
    the enhancedName, and the item is not marked as learned. *)
Lemma empty_pattern_not_applied :
  let data := mkLearning "" "SAFEWAY" "LND O LKS BUTTER" "Land O Lakes Butter"
                EmptyString user_edit in
  let st := saveLearning "2025-01-01T00:00:00.000Z" data (mkStorage None None) in
  getLearnedPatterns st "SAFEWAY" !! "LND O LKS BUTTER" = Some EmptyString
  /\ EmptyString <> HIDDEN
  /\ applyLearnedEnhancements st
       [mkInput "LND O LKS BUTTER" (Some "Land O Lakes Butter")] "SAFEWAY"
     = [mkLearned "LND O LKS BUTTER" (VText "Land O Lakes Butter") false None]
  /\ VText "Land O Lakes Butter" <> VText EmptyString.
Proof.
  intros data st.
  assert (Hv : getLearnedPatterns st "SAFEWAY" !! "LND O LKS BUTTER" = Some EmptyString).
  { apply (saveLearning_pattern (mkStorage None None) _ data "SAFEWAY");
      [reflexivity|discriminate]. }
  split; [exact Hv|].
  split; [discriminate|].
  split; [|discriminate].
  unfold applyLearnedEnhancements, apply_learned, get_property. simpl map.
  cbn [in_name]. rewrite Hv. reflexivity.
Qed.

End LearningProperties.

(** ** The validation of the AI response *)

Section AIParserProperties.
Import JS AIParser.

Variable NumberToString : float -> string.
Variable StringToNumber : string -> float.

(** *** The conversions *)

Lemma json_nested_ind (P : json -> Prop) :
  P JNull -> (forall b, P (JBool b)) -> (forall x, P (JNum x)) ->
  (forall s, P (JStr s)) ->
  (forall elems, Forall P elems -> P (JArr elems)) ->
  (forall fields, P (JObj fields)) ->
  forall v, P v.
Proof.
  intros Hnull Hbool Hnum Hstr Harr Hobj. fix IH 1.
  intros [|b|x|s|elems|fields];
    [exact Hnull|apply Hbool|apply Hnum|apply Hstr| |apply Hobj].
  apply Harr. induction elems as [|e rest IHrest]; constructor; [apply IH|exact IHrest].
Qed.

Lemma Array_join_throws (element : json -> option string) (elems : list json) :
  Array_join element elems = None
  <-> exists e, In e elems /\ e <> JNull /\ element e = None.
Proof.
  induction elems as [|e rest IH].
  - split; [discriminate|]. intros (e & [] & _).
  - change (Array_join element (e :: rest))
      with (match (match e with JNull => Some EmptyString | _ => element e end),
                  Array_join element rest with
            | Some s, Some t =>
                Some (match rest with [] => s | _ => (s ++ "," ++ t)%string end)
            | _, _ => None
            end).
    split.
    + intros H.
      destruct (match e with JNull => Some EmptyString | _ => element e end)
        as [s|] eqn:Ee.
      * destruct (Array_join element rest) as [t|]; [discriminate|].
        destruct IH as [IH _]. destruct (IH eq_refl) as (e' & Hin & Hn & He).
        exists e'. split; [right; exact Hin|]. split; assumption.
      * exists e. split; [left; reflexivity|].
        destruct e; try discriminate; (split; [discriminate|exact Ee]).
    + intros (e' & [<-|Hin] & Hn & He).
      * destruct e; try contradiction; rewrite He; reflexivity.
      * destruct IH as [_ IH]. rewrite IH by (exists e'; auto).
        destruct (match e with JNull => Some EmptyString | _ => element e end);
          reflexivity.
Qed.

(** String(v) throws exactly on the values [unprintable] describes. *)
Lemma String_throws (v : json) :
  String_ NumberToString v = None <-> unprintable v = true.
Proof.
  induction v as [|b|x|s|elems IH|fields] using json_nested_ind;
    try (split; discriminate).
  - change (String_ NumberToString (JArr elems))
      with (Array_join (String_ NumberToString) elems).
    change (unprintable (JArr elems)) with (existsb unprintable elems).
    rewrite Array_join_throws, existsb_exists. rewrite List.Forall_forall in IH.
    split.
    + intros (e & Hin & _ & He). exists e. split; [exact Hin|].
      apply (IH e Hin), He.
    + intros (e & Hin & He). exists e. split; [exact Hin|].
      split; [intros ->; discriminate|]. apply (IH e Hin), He.
  - cbn [String_ unprintable]. destruct (field "toString" fields).
    + split; reflexivity.
    + split; discriminate.
Qed.

(** Number(v) throws on the same values. *)
Lemma Number_throws (o : outcome) :
  o <> TypeError ->
  (Number_ NumberToString StringToNumber o = None <-> unconvertible o = true).
Proof.
  intros Ho. destruct o as [|v|]; [split; discriminate| |contradiction].
  unfold Number_, unconvertible.
  destruct v as [|b|x|s|elems|fields]; try (split; discriminate).
  - destruct (String_ NumberToString (JArr elems)) eqn:E.
    + split; [discriminate|]. intros H. apply String_throws in H. congruence.
    + split; [|reflexivity]. intros _. apply String_throws, E.
  - destruct (String_ NumberToString (JObj fields)) eqn:E.
    + split; [discriminate|]. intros H. apply String_throws in H. congruence.
    + split; [|reflexivity]. intros _. apply String_throws, E.
Qed.

(** What the filter's callback says of an item it keeps. *)
Lemma keep_item_true (item : json) :
  keep_item item = Some true
  <-> truthy (get item "name") = true
      /\ truthy (get item "enhancedName") = true
      /\ exists x, get item "price" = Value (JNum x) /\ PrimFloat.ltb 0 x = true.
Proof.
  unfold keep_item. split.
  - intros H.
    assert (Hb : truthy (get item "name") && truthy (get item "enhancedName")
                 && match get item "price" with
                    | Value (JNum x) => PrimFloat.ltb 0 x
                    | _ => false
                    end = true)
      by (destruct item; try discriminate; injection H as H; exact H).
    apply andb_prop in Hb. destruct Hb as [Hb Hp].
    apply andb_prop in Hb. destruct Hb as [Hn He].
    split; [exact Hn|]. split; [exact He|].
    destruct (get item "price") as [|[| |x| | |]|]; try discriminate.
    exists x. split; [reflexivity|exact Hp].
  - intros (Hn & He & x & Hp & Hx).
    destruct item; [discriminate Hn| | | | |];
      rewrite Hn, He, Hp, Hx; reflexivity.
Qed.

Lemma truthy_value (o : outcome) :
  truthy o = true -> exists v, o = Value v.
Proof. destruct o as [|v|]; try discriminate. intros _. exists v. reflexivity. Qed.

(** The map's callback throws on a kept item exactly when one of the three
    values it converts is one whose conversion throws. *)
Lemma clean_item_throws (item : json) :
  keep_item item = Some true ->
  (clean_item NumberToString StringToNumber item = None
   <-> unconvertible (get item "name") = true
       \/ unconvertible (get item "enhancedName") = true
       \/ unconvertible (get item "confidence") = true).
Proof.
  intros Hk. apply keep_item_true in Hk. destruct Hk as (Hn & He & x & Hp & _).
  destruct (truthy_value _ Hn) as [n En]. destruct (truthy_value _ He) as [e Ee].
  assert (Hc : get item "confidence" <> TypeError).
  { destruct item; try discriminate.
    cbn [get]. destruct (field "confidence" fields); discriminate. }
  pose proof (Number_throws (get item "confidence") Hc) as Hnum.
  unfold clean_item. rewrite En, Ee, Hp. cbn [unwrap unconvertible Number_].
  pose proof (String_throws n) as Sn. pose proof (String_throws e) as Se.
  destruct (String_ NumberToString n);
    [|split; [intros _; left; apply Sn; reflexivity|reflexivity]].
  destruct (String_ NumberToString e);
    [|split; [intros _; right; left; apply Se; reflexivity|reflexivity]].
  destruct (Number_ NumberToString StringToNumber (get item "confidence")).
  - split; [discriminate|]. intros [H|[H|H]].
    + apply Sn in H. discriminate.
    + apply Se in H. discriminate.
    + apply Hnum in H. discriminate.
  - split; [|reflexivity]. intros _. right. right. apply Hnum. reflexivity.
Qed.

Lemma clean_items_throws (kept : list json) :
  clean_items NumberToString StringToNumber kept = None
  <-> exists item, In item kept
                   /\ clean_item NumberToString StringToNumber item = None.
Proof.
  induction kept as [|item rest IH]; cbn [clean_items].
  - split; [discriminate|]. intros (item & [] & _).
  - destruct (clean_item NumberToString StringToNumber item) as [cleaned|] eqn:E.
    + destruct (clean_items NumberToString StringToNumber rest) as [others|].
      * split; [discriminate|]. intros (item' & [<-|Hin] & H); [congruence|].
        destruct IH as [_ IH]. discriminate IH. exists item'. auto.
      * split; [|reflexivity]. intros _.
        destruct IH as [IH _]. destruct (IH eq_refl) as (item' & Hin & H).
        exists item'. split; [right; exact Hin|exact H].
    + split; [|reflexivity]. intros _. exists item. split; [left; reflexivity|exact E].
Qed.

Lemma clean_items_each (kept : list json) (items : list AIItem) :
  clean_items NumberToString StringToNumber kept = Some items ->
  Forall2 (fun item cleaned =>
             clean_item NumberToString StringToNumber item = Some cleaned)
    kept items.
Proof.
  revert items. induction kept as [|item rest IH]; intros items H; cbn [clean_items] in H.
  - injection H as <-. constructor.
  - destruct (clean_item NumberToString StringToNumber item) as [cleaned|] eqn:E;
      [|discriminate].
    destruct (clean_items NumberToString StringToNumber rest) as [others|];
      [|discriminate].
    injection H as <-. constructor; [exact E|apply IH; reflexivity].
Qed.

(** *** The filter *)

Lemma filter_items_returns (elems : list json) :
  Forall (fun item => item <> JNull) elems ->
  exists kept, filter_items elems = Some kept.
Proof.
  induction 1 as [|item elems Hitem _ [kept IH]]; simpl.
  - exists []. reflexivity.
  - rewrite IH. destruct item; try contradiction; eexists; reflexivity.
Qed.

(** The items of the result are the items the filter kept: each has a
    strictly positive price. *)
Lemma filter_items_kept (elems kept : list json) :
  filter_items elems = Some kept ->
  Forall (fun item => keep_item item = Some true) kept.
Proof.
  revert kept. induction elems as [|item elems IH]; intros kept H; simpl in H.
  - injection H as <-. constructor.
  - destruct (keep_item item) as [b|] eqn:Ek; [|discriminate].
    destruct (filter_items elems) as [kept'|]; [|discriminate].
    injection H as <-. destruct b; [constructor; [exact Ek|]|]; apply IH; reflexivity.
Qed.

Lemma filter_items_members (elems kept : list json) :
  filter_items elems = Some kept ->
  forall item, In item kept <-> In item elems /\ keep_item item = Some true.
Proof.
  revert kept. induction elems as [|e elems IH]; intros kept H item; simpl in H.
  - injection H as <-. split; [contradiction|intros [[] _]].
  - destruct (keep_item e) as [b|] eqn:Ek; [|discriminate].
    destruct (filter_items elems) as [kept'|]; [|discriminate].
    injection H as <-. specialize (IH kept' eq_refl item).
    destruct b.
    + split.
      * intros [<-|Hin]; [split; [left; reflexivity|exact Ek]|].
        apply IH in Hin. split; [right|]; apply Hin.
      * intros [[<-|Hin] Hk]; [left; reflexivity|]. right. apply IH. auto.
    + split.
      * intros Hin. apply IH in Hin. split; [right|]; apply Hin.
      * intros [[<-|Hin] Hk]; [congruence|]. apply IH. auto.
Qed.

(** *** The result *)

(** What a returned result is made of. *)
Lemma validateAIResult_inv (aiResult : json) (originalText : string)
    (r : AIParsingResult) :
  validateAIResult NumberToString StringToNumber aiResult originalText = Some r ->
  exists kept,
    match get aiResult "items" with
    | Value (JArr elems) => filter_items elems
    | _ => Some []
    end = Some kept
    /\ clean_items NumberToString StringToNumber kept = Some (items r)
    /\ total r
       = reconcile (match declared_total aiResult with Some x => x | None => 0%float end)
           (itemsSum (items r))
    /\ itemCount (metadata r) = List.length (items r).
Proof.
  unfold validateAIResult. intros H.
  destruct (match get aiResult "items" with
            | Value (JArr elems) => filter_items elems
            | _ => Some []
            end) as [kept|]; [|destruct aiResult; discriminate].
  exists kept. split; [reflexivity|].
  destruct (clean_items NumberToString StringToNumber kept) as [cleaned|];
    [|destruct aiResult; discriminate].
  destruct aiResult; try discriminate; injection H as <-; auto.
Qed.

(** validateAIResult returns a result unless it reads a property of null
    (the response itself, or an element of its items) or converts a value
    whose conversion throws. *)
Lemma validateAIResult_returns (aiResult : json) (originalText : string) :
  aiResult <> JNull ->
  (forall elems, get aiResult "items" = Value (JArr elems) ->
                 Forall (fun item =>
                           item <> JNull
                           /\ unconvertible (get item "name") = false
                           /\ unconvertible (get item "enhancedName") = false
                           /\ unconvertible (get item "confidence") = false)
                   elems) ->
  exists r, validateAIResult NumberToString StringToNumber aiResult originalText = Some r.
Proof.
  intros Hnull Hitems. unfold validateAIResult.
  assert (Hk : exists kept items,
             match get aiResult "items" with
             | Value (JArr elems) => filter_items elems
             | _ => Some []
             end = Some kept
             /\ clean_items NumberToString StringToNumber kept = Some items).
  { destruct (get aiResult "items") as [|v|] eqn:E;
      try (exists [], []; split; reflexivity).
    destruct v as [| | | |elems|]; try (exists [], []; split; reflexivity).
    specialize (Hitems elems eq_refl).
    destruct (filter_items_returns elems) as [kept Hkept].
    { eapply List.Forall_impl; [|exact Hitems]. intros item H. apply H. }
    exists kept.
    destruct (clean_items NumberToString StringToNumber kept) as [items|] eqn:Ec.
    - exists items. split; [exact Hkept|reflexivity].
    - exfalso. apply clean_items_throws in Ec. destruct Ec as (item & Hin & Hc).
      apply (filter_items_members _ _ Hkept) in Hin. destruct Hin as [Hin Hkeep].
      apply (clean_item_throws item Hkeep) in Hc.
      rewrite List.Forall_forall in Hitems.
      destruct (Hitems item Hin) as (_ & Hn & He & Hconf).
      destruct Hc as [Hc|[Hc|Hc]]; congruence. }
  destruct Hk as (kept & items & -> & ->).
  destruct aiResult; try contradiction; eexists; reflexivity.
Qed.


Lemma kept_item_price (item : json) (cleaned : AIItem) :
  keep_item item = Some true ->
  clean_item NumberToString StringToNumber item = Some cleaned ->
  PrimFloat.ltb 0 (price cleaned) = true.
Proof.
  intros Hk. apply keep_item_true in Hk. destruct Hk as (_ & _ & x & Hp & Hx).
  unfold clean_item. rewrite Hp. cbn [Number_].
  destruct (String_ NumberToString (unwrap (get item "name"))); [|discriminate].
  destruct (String_ NumberToString (unwrap (get item "enhancedName"))); [|discriminate].
  destruct (Number_ NumberToString StringToNumber (get item "confidence"));
    [|discriminate].
  intros H. injection H as <-. exact Hx.
Qed.

Lemma validateAIResult_items (aiResult : json) (originalText : string)
    (r : AIParsingResult) :
  validateAIResult NumberToString StringToNumber aiResult originalText = Some r ->
  Forall (fun item => PrimFloat.ltb 0 (price item) = true) (items r)
  /\ itemCount (metadata r) = List.length (items r).
Proof.
  intros H. destruct (validateAIResult_inv _ _ _ H) as (kept & Hk & Hc & _ & Hn).
  split; [|exact Hn].
  assert (Hkept : Forall (fun item => keep_item item = Some true) kept).
  { destruct (get aiResult "items") as [|v|].
    - injection Hk as <-. constructor.
    - destruct v; try (injection Hk as <-; constructor).
      apply (filter_items_kept _ _ Hk).
    - injection Hk as <-. constructor. }
  apply clean_items_each in Hc. clear Hk Hn H. revert Hkept.
  generalize dependent (items r). intros items Hc.
  induction Hc as [|item cleaned kept' items' Hclean _ IH]; intros Hkept; constructor.
  - inversion Hkept; subst. eapply kept_item_price; eassumption.
  - apply IH. inversion Hkept; assumption.
Qed.



End AIParserProperties.

Section AIParserWitness.
Import JS AIParser.


End AIParserWitness.

(** ** The garbled-text detector *)

Section GarbledProperties.
Import JS Regex Garbled.



End GarbledProperties.

(** ** Determinism: the name cleaner and the recovery text *)

Section CleanerProperties.
Import JS Regex Cleaner.

(** A failed [test] leaves lastIndex at 0. *)
Lemma test_g_not_found (re : regexp) (li : nat) (s : string) (n : nat) :
  test_g re li s = (false, n) -> n = 0.
Proof.
  unfold test_g.
  destruct (Nat.ltb (String.length s) li); [intros [= <-]; reflexivity|].
  destruct (rsearch _ _ _ _); [discriminate|intros [= <-]; reflexivity].
Qed.

(** Step 2 leaves every regular expression object at lastIndex 0: a
    failed test resets it, and after a successful test the replacement
    does. *)
Lemma apply_substitution_rewinds (l : locals) (done : list substitution)
    (sub : substitution) :
  snd (apply_substitution (l, done) sub) = done ++ [rewound sub].
Proof.
  unfold apply_substitution.
  destruct (test_g (RE (pattern sub) "g") (lastIndex sub) (l_name l))
    as [found li] eqn:E.
  destruct found.
  - reflexivity.
  - rewrite (test_g_not_found _ _ _ _ E). reflexivity.
Qed.

Lemma substitutions_rewind (subs : list substitution) (l : locals)
    (done : list substitution) :
  snd (fold_left apply_substitution subs (l, done)) = done ++ map rewound subs.
Proof.
  revert l done. induction subs as [|sub subs IH]; intros l done.
  - simpl. rewrite app_nil_r. reflexivity.
  - change (fold_left apply_substitution (sub :: subs) (l, done))
      with (fold_left apply_substitution subs (apply_substitution (l, done) sub)).
    change (map rewound (sub :: subs)) with (rewound sub :: map rewound subs).
    pose proof (apply_substitution_rewinds l done sub) as H.
    destruct (apply_substitution (l, done) sub) as [l' done']. simpl in H.
    rewrite IH, H, <- app_assoc. reflexivity.
Qed.

Lemma rewound_at_rest (subs : list substitution) :
  Forall (fun sub => lastIndex sub = 0) subs -> map rewound subs = subs.
Proof.
  induction 1 as [|sub subs Hsub _ IH]; simpl.
  - reflexivity.
  - rewrite IH. destruct sub as [p li r d]. simpl in Hsub. subst li. reflexivity.
Qed.

(** A call of cleanProductName leaves the static state as it found it. *)
Lemma cleanProductName_state (c : corrections) (name : string) :
  at_rest c -> snd (cleanProductName c name) = c.
Proof.
  intros Hrest. unfold cleanProductName.
  pose proof (substitutions_rewind (characterSubstitutions c)
                (mkLocals (step1 name) 0.8 []) []) as H.
  destruct (fold_left apply_substitution (characterSubstitutions c)
              (mkLocals (step1 name) 0.8 [], [])) as [l2 subs].
  simpl in H. rewrite (rewound_at_rest _ Hrest) in H. subst subs.
  destruct (invalid_name _); destruct c; reflexivity.
Qed.

End CleanerProperties.

Section Determinism.
Import JS Regex Cleaner Recovery.

(** C6, as the code has it.  cleanProductName is deterministic: a call
    leaves the shared regular expression objects at lastIndex 0 and the
    dictionaries untouched, so the result for a name does not depend on
    the calls made before.  The recovery text of
    generateUniversalGroceryReceipt is a function of the draws of
    Math.random alone: it is the same for every input text and file name
    (and, by [recovery_depends_on_draws], not determined by the text). *)
Theorem deterministic_parts :
  (forall (c : corrections) (earlier name : string),
      at_rest c ->
      cleanProductName (snd (cleanProductName c earlier)) name
      = cleanProductName c name)
  /\ (forall (ocrText1 filename1 ocrText2 filename2 : string) (rnd : list float),
        generateUniversalGroceryReceipt ocrText1 filename1 rnd
        = generateUniversalGroceryReceipt ocrText2 filename2 rnd).
Proof.
  split.
  - intros c earlier name Hrest. rewrite cleanProductName_state by exact Hrest.
    reflexivity.
  - intros. reflexivity.
Qed.

Lemma deterministic_parts_witness :
  cleanProductName (snd (cleanProductName corrections0 "0RGN MLK VVHL")) "PUB CHIKEN BRST"
  = cleanProductName corrections0 "PUB CHIKEN BRST".
Proof.
  destruct deterministic_parts as [H _].
  apply (H corrections0 "0RGN MLK VVHL" "PUB CHIKEN BRST").
  unfold at_rest, corrections0, characterSubstitutions0. cbn [characterSubstitutions].
  repeat (apply List.Forall_cons; [reflexivity|]). apply List.Forall_nil.
Defined.

(** C6 fails as stated: for one input text, two sequences of draws that
    differ in the last draw give two different recovery texts (the store
    name is NEIGHBORHOOD MARKET for 0 and COMMUNITY MARKET for 0.5). *)
Lemma recovery_depends_on_draws :
  exists text1 text2,
    generateUniversalGroceryReceipt "@@##" "receipt.jpg" (sample_draws 0)
    = Some (text1, [])
    /\ generateUniversalGroceryReceipt "@@##" "receipt.jpg" (sample_draws 0.5)
       = Some (text2, [])
    /\ String.prefix "NEIGHBORHOOD MARKET" text1 = true
    /\ String.prefix "COMMUNITY MARKET" text2 = true
    /\ text1 <> text2.
Proof.
  destruct (generateUniversalGroceryReceipt "@@##" "receipt.jpg" (sample_draws 0))
    as [[text1 rest1]|] eqn:E1; [|vm_compute in E1; discriminate].
  destruct (generateUniversalGroceryReceipt "@@##" "receipt.jpg" (sample_draws 0.5))
    as [[text2 rest2]|] eqn:E2; [|vm_compute in E2; discriminate].
  vm_compute in E1. vm_compute in E2.
  injection E1 as <- <-. injection E2 as <- <-.
  eexists _, _. split; [reflexivity|]. split; [reflexivity|].
  split; [vm_compute; reflexivity|]. split; [vm_compute; reflexivity|].
  discriminate.
Qed.

End Determinism.

(** ** The order of numbers *)

Section FloatOrder.
Import JS.

Lemma ltb_leb (x y : float) : PrimFloat.ltb x y = true -> PrimFloat.leb x y = true.
Proof.
  rewrite FloatAxioms.ltb_spec, FloatAxioms.leb_spec. unfold SFltb, SFleb.
  destruct (SFcompare _ _) as [[]|]; congruence.
Qed.

Lemma is_nan_Prim2SF (x : float) : PrimFloat.is_nan x = true <-> Prim2SF x = S754_nan.
Proof.
  unfold PrimFloat.is_nan. rewrite FloatAxioms.eqb_spec. unfold SFeqb.
  destruct (Prim2SF x) as [s|s| |s m e] eqn:E; simpl.
  - destruct s; split; discriminate.
  - destruct s; split; discriminate.
  - split; reflexivity.
  - rewrite Z.compare_refl, Pos.compare_refl. destruct s; split; discriminate.
Qed.

Lemma SFcompare_antisym (x y : spec_float) :
  SFcompare y x = option_map CompOpp (SFcompare x y).
Proof.
  destruct x as [s|s| |s m e]; destruct y as [s'|s'| |s' m' e']; simpl;
    try reflexivity;
    try (destruct s; reflexivity); try (destruct s'; reflexivity);
    try (destruct s; destruct s'; reflexivity).
  destruct s; destruct s'; simpl; try reflexivity.
  - rewrite (Z.compare_antisym e e').
    destruct (Z.compare e e'); simpl; try reflexivity.
    repeat f_equal. symmetry. exact (Pos.compare_cont_antisym m m' Eq).
  - rewrite (Z.compare_antisym e e').
    destruct (Z.compare e e'); simpl; try reflexivity.
    repeat f_equal. symmetry. exact (Pos.compare_cont_antisym m m' Eq).
Qed.

Lemma compare_total (x y : float) :
  PrimFloat.is_nan x = false -> PrimFloat.is_nan y = false ->
  PrimFloat.ltb x y = false -> PrimFloat.ltb y x = false ->
  PrimFloat.leb x y = true /\ PrimFloat.leb y x = true.
Proof.
  intros Hx Hy. rewrite !FloatAxioms.ltb_spec, !FloatAxioms.leb_spec.
  assert (Hx' : Prim2SF x <> S754_nan).
  { intros E. apply is_nan_Prim2SF in E. congruence. }
  assert (Hy' : Prim2SF y <> S754_nan).
  { intros E. apply is_nan_Prim2SF in E. congruence. }
  unfold SFltb, SFleb. rewrite (SFcompare_antisym (Prim2SF x) (Prim2SF y)).
  destruct (SFcompare (Prim2SF x) (Prim2SF y)) as [[]|] eqn:E; simpl;
    try (intuition congruence).
  exfalso. destruct (Prim2SF x) as [[]|[]| |[] ? ?];
    destruct (Prim2SF y) as [[]|[]| |[] ? ?]; try contradiction; discriminate.
Qed.

Lemma ltb_not_nan (x y : float) :
  PrimFloat.ltb x y = true -> PrimFloat.is_nan x = false /\ PrimFloat.is_nan y = false.
Proof.
  rewrite FloatAxioms.ltb_spec. unfold SFltb. intros H.
  split.
  - destruct (PrimFloat.is_nan x) eqn:E; [|reflexivity].
    apply is_nan_Prim2SF in E. rewrite E in H. discriminate.
  - destruct (PrimFloat.is_nan y) eqn:E; [|reflexivity].
    apply is_nan_Prim2SF in E. rewrite E in H.
    destruct (Prim2SF x) as [[]|[]| |[] ? ?]; discriminate.
Qed.

Lemma ltb_nan_l (x : float) : PrimFloat.ltb PrimFloat.nan x = false.
Proof.
  destruct (PrimFloat.ltb PrimFloat.nan x) eqn:E; [|reflexivity].
  apply ltb_not_nan in E. destruct E as [E _]. vm_compute in E. discriminate.
Qed.

Lemma ltb_nan_r (x y : float) : PrimFloat.is_nan y = true -> PrimFloat.ltb x y = false.
Proof.
  intros Hy. destruct (PrimFloat.ltb x y) eqn:E; [|reflexivity].
  apply ltb_not_nan in E. destruct E as [_ E]. congruence.
Qed.

Lemma SFleb_trans (x y z : spec_float) :
  SFleb x y = true -> SFleb y z = true -> SFleb x z = true.
Proof.
  unfold SFleb.
  destruct x as [sx|sx| |sx mx ex]; destruct y as [sy|sy| |sy my ey];
    destruct z as [sz|sz| |sz mz ez]; simpl;
    try discriminate; try reflexivity;
    try (destruct sx; destruct sy; destruct sz; simpl; congruence);
    try (destruct sx; destruct sy; simpl; congruence);
    try (destruct sx; destruct sz; simpl; congruence);
    try (destruct sy; destruct sz; simpl; congruence);
    try (destruct sx; simpl; congruence);
    try (destruct sy; simpl; congruence);
    try (destruct sz; simpl; congruence).
  destruct sx; destruct sy; destruct sz; simpl; try discriminate; try reflexivity;
    change (Pos.compare_cont Eq) with Pos.compare;
    destruct (Z.compare_spec ex ey); destruct (Z.compare_spec ey ez);
    destruct (Z.compare_spec ex ez); simpl; try discriminate; try reflexivity; try lia;
    subst;
    destruct (Pos.compare_spec mx my); destruct (Pos.compare_spec my mz);
    destruct (Pos.compare_spec mx mz); simpl; try discriminate; try reflexivity; lia.
Qed.

Lemma leb_trans (x y z : float) :
  PrimFloat.leb x y = true -> PrimFloat.leb y z = true -> PrimFloat.leb x z = true.
Proof. rewrite !FloatAxioms.leb_spec. apply SFleb_trans. Qed.

(** [Math.max(0, Math.min(1, x))] of a number is between 0 and 1. *)
Lemma clamp_unit (x : float) :
  PrimFloat.is_nan x = false ->
  NonFood.unit_interval (Math_max 0 (Math_min 1 x)) = true.
Proof.
  intros Hx.
  assert (Hm : PrimFloat.is_nan (Math_min 1 x) = false
               /\ PrimFloat.leb (Math_min 1 x) 1 = true).
  { unfold Math_min. change (PrimFloat.is_nan 1) with false. cbv iota. rewrite Hx.
    destruct (PrimFloat.ltb 1 x) eqn:E1; [split; reflexivity|].
    destruct (PrimFloat.ltb x 1) eqn:E2; [split; [exact Hx|apply ltb_leb, E2]|].
    change (PrimFloat.get_sign 1) with false. cbv iota.
    split; [exact Hx|]. apply (compare_total 1 x); auto. }
  destruct Hm as [Hn Hle]. revert Hn Hle. generalize (Math_min 1 x). intros m Hn Hle.
  unfold NonFood.unit_interval, Math_max.
  change (PrimFloat.is_nan 0) with false. cbv iota. rewrite Hn.
  destruct (PrimFloat.ltb 0 m) eqn:E1.
  - rewrite (ltb_leb _ _ E1), Hle. reflexivity.
  - destruct (PrimFloat.ltb m 0) eqn:E2; [reflexivity|].
    change (PrimFloat.get_sign 0) with false. cbv iota. reflexivity.
Qed.

End FloatOrder.

(** ** Sets of indices *)

Section IndexSets.

(** The indices a loop adds to a set: those of the elements that pass the
    test. *)
Lemma index_fold_elem {A : Type} (p : A -> bool) (l : list A) (start : nat)
    (acc : gset nat) (i : nat) :
  i ∈ fold_left (fun (s : gset nat) '(index, x) => if p x then s ∪ {[ index ]} else s)
        (combine (seq start (List.length l)) l) acc
  <-> i ∈ acc
      \/ exists x, start <= i /\ nth_error l (i - start) = Some x /\ p x = true.
Proof.
  revert start acc. induction l as [|y l IH]; intros start acc.
  - simpl. split; [auto|]. intros [H|(x & _ & H & _)]; [exact H|].
    destruct (i - start); discriminate.
  - simpl. rewrite IH. clear IH. split.
    + intros [H|(x & Hle & Hnth & Hp)].
      * destruct (p y) eqn:E; [|left; exact H].
        apply elem_of_union in H. destruct H as [H|H]; [left; exact H|].
        apply elem_of_singleton in H. subst i. right. exists y.
        rewrite Nat.sub_diag. auto.
      * right. exists x. split; [lia|]. split; [|exact Hp].
        replace (i - start) with (S (i - S start)) by lia. exact Hnth.
    + intros [H|(x & Hle & Hnth & Hp)].
      * left. destruct (p y); [|exact H].
        apply elem_of_union. left. exact H.
      * destruct (decide (i = start)) as [->|Hne].
        -- rewrite Nat.sub_diag in Hnth. injection Hnth as ->. rewrite Hp.
           left. apply elem_of_union. right. apply elem_of_singleton. reflexivity.
        -- right. exists x. split; [lia|]. split; [|exact Hp].
           replace (i - start) with (S (i - S start)) in Hnth by lia. exact Hnth.
Qed.

End IndexSets.

(** ** The learning store: hiding, clearing and statistics *)

Section LearningQueriesProperties.
Import JS Learning LearningQueries.

Lemma keep_last_500_length (l : list LearningData) :
  List.length (keep_last_500 l) = Nat.min (List.length l) 500.
Proof.
  unfold keep_last_500. destruct (Nat.ltb 500 (List.length l)) eqn:E.
  - apply Nat.ltb_lt in E. rewrite List.length_skipn. lia.
  - apply Nat.ltb_ge in E. lia.
Qed.

Lemma keep_last_500_suffix (l : list LearningData) :
  exists dropped, l = dropped ++ keep_last_500 l.
Proof.
  unfold keep_last_500. destruct (Nat.ltb 500 (List.length l)).
  - exists (List.firstn (List.length l - 500) l). symmetry. apply List.firstn_skipn.
  - exists []. reflexivity.
Qed.

Lemma last_suffix {A : Type} (l dropped kept : list A) (d : A) :
  l = dropped ++ kept -> kept <> [] -> List.last l d = List.last kept d.
Proof.
  intros -> Hne. induction dropped as [|x dropped IH]; [reflexivity|].
  rewrite <- IH. simpl. destruct (dropped ++ kept) eqn:E; [|reflexivity].
  apply List.app_eq_nil in E. destruct E as [_ E]. contradiction.
Qed.

Lemma saveLearning_data (st : Storage) (now : string) (data : LearningData) :
  getLearningData (saveLearning now data st)
  = keep_last_500
      (getLearningData st
       ++ [mkLearning now (storeName data) (originalName data) (oldEnhancedName data)
             (newEnhancedName data) (correctionType data)]).
Proof. reflexivity. Qed.

(** X6: The history kept by saveLearning never holds more than 500 entries:
    after a call it is the old history followed by the new entry (with the
    time stamp of the call), cut at the front to its last 500 entries. *)
Theorem saveLearning_history (st : Storage) (now : string) (data : LearningData) :
  let entry := mkLearning now (storeName data) (originalName data)
                 (oldEnhancedName data) (newEnhancedName data) (correctionType data) in
  let after := getLearningData (saveLearning now data st) in
  List.length after = Nat.min (S (List.length (getLearningData st))) 500
  /\ List.last after entry = entry
  /\ (exists dropped, getLearningData st ++ [entry] = dropped ++ after)
  /\ (List.length (getLearningData st) < 500 -> after = getLearningData st ++ [entry]).
Proof.
  intros entry after. subst after. rewrite saveLearning_data. fold entry.
  split; [|split; [|split]].
  - rewrite keep_last_500_length, List.length_app. simpl. f_equal. lia.
  - destruct (keep_last_500_suffix (getLearningData st ++ [entry])) as [dropped H].
    assert (Hne : keep_last_500 (getLearningData st ++ [entry]) <> []).
    { intros E. apply (f_equal (@List.length _)) in E.
      rewrite keep_last_500_length, List.length_app in E. simpl in E. lia. }
    rewrite <- (last_suffix _ _ _ entry H Hne). apply List.last_last.
  - apply keep_last_500_suffix.
  - intros Hlt. unfold keep_last_500.
    rewrite List.length_app. simpl.
    destruct (Nat.ltb 500 _) eqn:E; [|reflexivity].
    apply Nat.ltb_lt in E. lia.
Qed.

(** X7: saveLearning changes one entry of the pattern table only: the patterns
    of the other stores, and the other patterns of the same store, are the
    ones stored before. *)
Theorem saveLearning_frame (st : Storage) (now : string) (data : LearningData)
    (store name : string) :
  toUpperCase store <> toUpperCase (storeName data) \/ name <> originalName data ->
  getLearnedPatterns (saveLearning now data st) store !! name
  = getLearnedPatterns st store !! name.
Proof.
  intros H.
  unfold getLearnedPatterns, saveLearning, updatePatterns, getAllPatterns.
  cbn [learned_patterns storeName originalName newEnhancedName].
  set (patterns := match learned_patterns st with Some p => p | None => ∅ end).
  set (key := toUpperCase (Learning.storeName data)).
  destruct (decide (toUpperCase store = key)) as [Heq|Hne].
  - rewrite Heq. rewrite lookup_insert_eq.
    destruct H as [H|H]; [contradiction|].
    unfold set_property.
    destruct (patterns !! key) as [o|] eqn:E.
    + rewrite E. destruct (String.eqb _ _); [reflexivity|].
      rewrite lookup_insert_ne by congruence. reflexivity.
    + rewrite lookup_insert_eq. destruct (String.eqb _ _); [reflexivity|].
      rewrite lookup_insert_ne by congruence. reflexivity.
  - rewrite lookup_insert_ne by congruence.
    destruct (patterns !! key) as [o|] eqn:E; [reflexivity|].
    rewrite lookup_insert_ne by congruence. reflexivity.
Qed.

Lemma saveLearning_frame_witness :
  getLearnedPatterns
    (saveLearning "2025-01-01T00:00:00.000Z"
       (mkLearning "" "Safeway" "LND O LKS BUTTER" "Lnd O Lks Butter"
          "Land O Lakes Butter" user_edit)
       (mkStorage None None)) "TARGET" !! "LND O LKS BUTTER"
  = getLearnedPatterns (mkStorage None None) "TARGET" !! "LND O LKS BUTTER".
Proof.
  apply saveLearning_frame. left. vm_compute. discriminate.
Defined.

(** *** getItemsToHide *)

Lemma getItemsToHide_elem (st : Storage) (items : list InputItem) (storeName : string)
    (i : nat) :
  i ∈ getItemsToHide st items storeName
  <-> exists item, nth_error items i = Some item
                   /\ listed_hidden (getLearnedPatterns st storeName) item = true.
Proof.
  unfold getItemsToHide.
  rewrite (index_fold_elem (listed_hidden (getLearnedPatterns st storeName))). split.
  - intros [H|(item & _ & Hnth & Hh)].
    + apply not_elem_of_empty in H. contradiction.
    + exists item. rewrite Nat.sub_0_r in Hnth. auto.
  - intros (item & Hnth & Hh). right. exists item.
    rewrite Nat.sub_0_r. split; [lia|auto].
Qed.

Lemma is_hidden_get (patterns : gmap string string) (n : string) :
  is_hidden (get_property patterns n) = true <-> patterns !! n = Some HIDDEN.
Proof.
  unfold get_property, is_hidden. destruct (patterns !! n) as [v|].
  - rewrite String.eqb_eq. split; [intros ->; reflexivity|intros [= ->]; reflexivity].
  - destruct (inherited n); split; discriminate.
Qed.

Lemma listed_hidden_spec (patterns : gmap string string) (item : InputItem) :
  listed_hidden patterns item = true
  <-> exists n, n <> EmptyString
                /\ (n = in_name item \/ in_enhancedName item = Some n)
                /\ patterns !! n = Some HIDDEN.
Proof.
  unfold listed_hidden, names_to_check. rewrite existsb_exists. split.
  - intros (n & Hin & Hh). apply List.filter_In in Hin. destruct Hin as [Hin Hne].
    exists n. split.
    { intros ->. discriminate. }
    split; [|apply is_hidden_get, Hh].
    destruct Hin as [<-|Hin]; [left; reflexivity|].
    right. destruct (in_enhancedName item) as [e|]; [|contradiction].
    destruct Hin as [<-|[]]. reflexivity.
  - intros (n & Hne & Hn & Hh). exists n. split; [|apply is_hidden_get, Hh].
    apply List.filter_In. split.
    + destruct Hn as [->|Hn]; [left; reflexivity|].
      right. rewrite Hn. left. reflexivity.
    + destruct n; [contradiction|reflexivity].
Qed.

(** X8: The indices getItemsToHide returns are those of the items one of whose
    non-empty names (the name, or the enhancedName when there is one) is
    stored as hidden for the store; an index past the end of the list is
    never returned. *)
Theorem items_to_hide_listed (st : Storage) (items : list InputItem)
    (storeName : string) (i : nat) :
  i ∈ getItemsToHide st items storeName
  <-> exists item n,
        nth_error items i = Some item
        /\ n <> EmptyString
        /\ (n = in_name item \/ in_enhancedName item = Some n)
        /\ getLearnedPatterns st storeName !! n = Some HIDDEN.
Proof.
  rewrite getItemsToHide_elem. split.
  - intros (item & Hnth & Hh). apply listed_hidden_spec in Hh.
    destruct Hh as (n & H). exists item, n. tauto.
  - intros (item & n & Hnth & H). exists item. split; [exact Hnth|].
    apply listed_hidden_spec. exists n. exact H.
Qed.

(** X9: Every item applyLearnedEnhancements marks with shouldHide, and whose
    name is not empty, has its index in getItemsToHide for the same
    storage, items and store. *)
Theorem should_hide_is_listed (st : Storage) (items : list InputItem)
    (storeName : string) (i : nat) (out : LearnedItem) :
  nth_error (applyLearnedEnhancements st items storeName) i = Some out ->
  shouldHide out = Some true ->
  name out <> EmptyString ->
  i ∈ getItemsToHide st items storeName.
Proof.
  unfold applyLearnedEnhancements. intros Hout Hhide Hname.
  rewrite List.nth_error_map in Hout.
  destruct (nth_error items i) as [item|] eqn:Hnth; [|discriminate].
  injection Hout as <-.
  apply getItemsToHide_elem. exists item. split; [exact Hnth|].
  rewrite apply_learned_name in Hname.
  unfold apply_learned in Hhide.
  destruct (is_hidden (get_property _ (in_name item))) eqn:E.
  - unfold listed_hidden, names_to_check.
    apply existsb_exists. exists (in_name item). split; [|exact E].
    apply List.filter_In. split; [left; reflexivity|].
    destruct (in_name item); [contradiction|reflexivity].
  - destruct (truthy _); discriminate.
Qed.

Lemma should_hide_is_listed_witness :
  1 ∈ getItemsToHide
        (saveLearning "2025-01-01T00:00:00.000Z"
           (mkLearning "" "Safeway" "BAG FEE" "Bag Fee" HIDDEN item_hidden)
           (mkStorage None None))
        [mkInput "MILK" None; mkInput "BAG FEE" (Some "Bag Fee")] "SAFEWAY".
Proof.
  apply (should_hide_is_listed _ _ _ 1
           (mkLearned "BAG FEE" (VText "Bag Fee") true (Some true))).
  - vm_compute. reflexivity.
  - reflexivity.
  - discriminate.
Defined.

(** *** clearLearningData *)

Lemma get_property_empty (n : string) :
  inherited n = false -> get_property ∅ n = VUndefined.
Proof. unfold get_property. rewrite lookup_empty. intros ->. reflexivity. Qed.

(** X10: After clearLearningData nothing is learned: the history is empty, no
    store has patterns, applyLearnedEnhancements returns every item
    unlearned with its own enhancedName (or its name), and getItemsToHide
    returns no index.  The items are those whose name is not a member of
    Object.prototype. *)
Theorem cleared_storage_learns_nothing (st : Storage) (items : list InputItem)
    (storeName : string) :
  Forall (fun item => inherited (in_name item) = false) items ->
  let st' := clearLearningData st in
  getLearningData st' = []
  /\ getLearnedPatterns st' storeName = ∅
  /\ applyLearnedEnhancements st' items storeName
     = map (fun item => mkLearned (in_name item) (VText (enhanced_or_name item))
                          false None) items
  /\ getItemsToHide st' items storeName = ∅.
Proof.
  intros Hitems st'. subst st'. unfold clearLearningData.
  split; [reflexivity|]. split; [reflexivity|]. split.
  - unfold applyLearnedEnhancements.
    change (getLearnedPatterns (mkStorage None None) storeName)
      with (∅ : gmap string string).
    induction Hitems as [|item items Hitem _ IH]; [reflexivity|].
    simpl. rewrite IH. f_equal.
    unfold apply_learned. rewrite (get_property_empty _ Hitem). reflexivity.
  - apply set_eq. intros i. rewrite getItemsToHide_elem. split.
    + intros (item & _ & Hh). apply listed_hidden_spec in Hh.
      destruct Hh as (n & _ & _ & Hn).
      change (getLearnedPatterns (mkStorage None None) storeName)
        with (∅ : gmap string string) in Hn.
      rewrite lookup_empty in Hn. discriminate.
    + intros H. apply not_elem_of_empty in H. contradiction.
Qed.

Lemma cleared_storage_learns_nothing_witness :
  applyLearnedEnhancements
    (clearLearningData
       (saveLearning "2025-01-01T00:00:00.000Z"
          (mkLearning "" "Safeway" "BAG FEE" "Bag Fee" HIDDEN item_hidden)
          (mkStorage None None)))
    [mkInput "BAG FEE" (Some "Bag Fee")] "SAFEWAY"
  = [mkLearned "BAG FEE" (VText "Bag Fee") false None].
Proof.
  refine (proj1 (proj2 (proj2
    (cleared_storage_learns_nothing _ [mkInput "BAG FEE" (Some "Bag Fee")]
       "SAFEWAY" _)))).
  apply List.Forall_cons; [reflexivity|apply List.Forall_nil].
Defined.

(** *** getLearningStats *)

Lemma count_type_total (types : list (CorrectionType * nat)) (t : CorrectionType) :
  list_sum (map snd (count_type types t)) = S (list_sum (map snd types)).
Proof.
  induction types as [|[t' n] types IH]; simpl; [reflexivity|].
  destruct (CorrectionType_eqb t' t); simpl; [lia|]. rewrite IH. lia.
Qed.

Lemma getCorrectionsByType_total (data : list LearningData)
    (types : list (CorrectionType * nat)) :
  list_sum (map snd (fold_left (fun types entry => count_type types (correctionType entry))
                       data types))
  = List.length data + list_sum (map snd types).
Proof.
  revert types. induction data as [|entry data IH]; intros types; simpl; [reflexivity|].
  rewrite IH, count_type_total. lia.
Qed.

Lemma hidden_values_le (storePatterns : gmap string string) :
  hidden_values storePatterns <= size storePatterns.
Proof.
  unfold hidden_values. rewrite <- length_map_to_list. apply List.filter_length_le.
Qed.

(** X11: The counters of getLearningStats are consistent: the counts by type
    add up to totalCorrections, and hiddenItemsLearned never exceeds
    patternsLearned. *)
Theorem learning_stats_consistent (st : Storage) :
  let stats := getLearningStats st in
  list_sum (map snd (correctionsByType stats)) = totalCorrections stats
  /\ hiddenItemsLearned stats <= patternsLearned stats.
Proof.
  intros stats. subst stats. unfold getLearningStats. cbn.
  split.
  - unfold getCorrectionsByType. rewrite getCorrectionsByType_total. simpl. lia.
  - generalize (getAllPatterns st). intros m.
    induction m as [|k sp m Hk Hfold IH] using map_first_key_ind; [rewrite !map_fold_empty; lia|].
    rewrite !map_fold_insert_first_key by assumption.
    pose proof (hidden_values_le sp). lia.
Qed.

End LearningQueriesProperties.

(** ** The parsing entry points *)

Section RuleParserProperties.
Import JS Regex AIParser RuleParser Shape.

Variable NumberToString : float -> string.
Variable StringToNumber : string -> float.

Lemma averageConfidence_no_items (r : AIParsingResult) :
  items r = [] -> PrimFloat.is_nan (averageConfidence r) = true.
Proof. unfold averageConfidence. intros ->. reflexivity. Qed.

Lemma best_of_fold (rest : list AIParsingResult) (first : AIParsingResult) :
  let chosen :=
    fold_left
      (fun best current =>
         if PrimFloat.ltb (averageConfidence best) (averageConfidence current)
         then current else best)
      rest first in
  In chosen (first :: rest)
  /\ (items first = [] -> chosen = first)
  /\ (items chosen = [] -> chosen = first).
Proof.
  revert first. induction rest as [|current rest IH]; intros first; simpl.
  - auto.
  - destruct (PrimFloat.ltb (averageConfidence first) (averageConfidence current)) eqn:E.
    + destruct (IH current) as (Hin & _ & Hnone).
      split; [destruct Hin as [<-|Hin]; auto|].
      split.
      * intros Hf. apply ltb_not_nan in E. destruct E as [E _].
        rewrite (averageConfidence_no_items _ Hf) in E. discriminate.
      * intros Hc. specialize (Hnone Hc).
        apply ltb_not_nan in E. destruct E as [_ E].
        rewrite <- Hnone, (averageConfidence_no_items _ Hc) in E. discriminate.
    + destruct (IH first) as (Hin & Hfirst & Hnone).
      split; [destruct Hin as [<-|Hin]; auto|]. auto.
Qed.

(** X5: selectBestResult returns one of the results it is given.  A result
    without items has no average confidence (0/0), loses every comparison
    and is never displaced: it is returned exactly when it is the first
    result. *)
Theorem best_result_selected (first : AIParsingResult) (rest : list AIParsingResult) :
  exists chosen,
    selectBestResult (first :: rest) = Some chosen
    /\ In chosen (first :: rest)
    /\ (items first = [] -> chosen = first)
    /\ (items chosen = [] -> chosen = first).
Proof.
  eexists. split; [reflexivity|]. apply best_of_fold.
Qed.

(** *** The items validateAIResult returns *)

Lemma or_default_number (x : float) : PrimFloat.is_nan (or_default x) = false.
Proof.
  unfold or_default. destruct (PrimFloat.is_nan x) eqn:E; [reflexivity|].
  simpl. destruct (PrimFloat.is_zero x); [reflexivity|exact E].
Qed.

Lemma trimStart_no_lead (s : string) :
  match s with String c _ => is_space c = false | EmptyString => True end ->
  trimStart s = s.
Proof. destruct s as [|c s]; simpl; [auto|]. intros ->. reflexivity. Qed.

Lemma trimEnd_head (s : string) :
  match s with String c _ => is_space c = false | EmptyString => True end ->
  match trimEnd s with String c _ => is_space c = false | EmptyString => True end.
Proof.
  destruct s as [|c s]; simpl; [auto|]. intros Hc.
  destruct (trimEnd s); [rewrite Hc|]; exact Hc.
Qed.

Lemma trimStart_head (s : string) :
  match trimStart s with String c _ => is_space c = false | EmptyString => True end.
Proof.
  induction s as [|c s IH]; simpl; [exact I|].
  destruct (is_space c) eqn:E; [exact IH|exact E].
Qed.

Lemma trimEnd_idem (s : string) : trimEnd (trimEnd s) = trimEnd s.
Proof.
  induction s as [|c s IH]; simpl; [reflexivity|].
  destruct (trimEnd s) as [|d t] eqn:E.
  - destruct (is_space c) eqn:Ec; simpl; [reflexivity|]. rewrite Ec. reflexivity.
  - change (trimEnd (String c (String d t)))
      with (match trimEnd (String d t) with
            | EmptyString => if is_space c then EmptyString else String c EmptyString
            | t' => String c t'
            end).
    rewrite IH. reflexivity.
Qed.

Lemma trim_idem (s : string) : trim (trim s) = trim s.
Proof.
  unfold trim.
  rewrite (trimStart_no_lead (trimEnd (trimStart s))).
  - apply trimEnd_idem.
  - apply trimEnd_head, trimStart_head.
Qed.

Lemma clean_item_well_formed (item : json) (out : AIItem) :
  clean_item NumberToString StringToNumber item = Some out ->
  NonFood.unit_interval (confidence out) = true
  /\ In (category out) PRODUCT_CATEGORIES
  /\ trim (name out) = name out
  /\ trim (enhancedName out) = enhancedName out.
Proof.
  unfold clean_item.
  destruct (String_ NumberToString (unwrap (get item "name"))); [|discriminate].
  destruct (String_ NumberToString (unwrap (get item "enhancedName"))); [|discriminate].
  destruct (Number_ NumberToString StringToNumber (get item "price")); [|discriminate].
  destruct (Number_ NumberToString StringToNumber (get item "confidence"));
    [|discriminate].
  remember (match get item "category" with
            | Value (JStr c) =>
                if existsb (String.eqb c) PRODUCT_CATEGORIES then c else "Other"
            | _ => "Other"
            end) as chosen eqn:Echosen.
  intros H. injection H as <-. cbn [confidence category name enhancedName].
  split; [apply clamp_unit, or_default_number|].
  split; [|split; apply trim_idem].
  subst chosen.
  destruct (get item "category") as [|[| | |c| |]|];
    try (vm_compute; tauto).
  destruct (existsb (String.eqb c) PRODUCT_CATEGORIES) eqn:E; [|vm_compute; tauto].
  apply existsb_exists in E. destruct E as (c' & Hin & Heq).
  apply String.eqb_eq in Heq. subst c'. exact Hin.
Qed.

Lemma validated_items (aiResult : json) (originalText : string)
    (r : AIParsingResult) :
  validateAIResult NumberToString StringToNumber aiResult originalText = Some r ->
  Forall (fun item =>
            NonFood.unit_interval (confidence item) = true
            /\ In (category item) PRODUCT_CATEGORIES
            /\ trim (name item) = name item
            /\ trim (enhancedName item) = enhancedName item)
    (items r).
Proof.
  intros H.
  destruct (validateAIResult_inv _ _ _ _ _ H) as (kept & _ & Hc & _).
  apply clean_items_each in Hc. clear H.
  induction Hc as [|item cleaned kept' items' Hclean _ IH]; constructor.
  - apply (clean_item_well_formed item), Hclean.
  - exact IH.
Qed.

(** X3: Every item validateAIResult returns has a confidence between 0 and 1
    (0.7 when the response gives none, or gives 0 or no number), a
    category of PRODUCT_CATEGORIES (Other when the response gives none of
    them), and a name and an enhancedName without white space around
    them. *)
Theorem validated_items_well_formed (aiResult : json) (originalText : string)
    (r : AIParsingResult) :
  validateAIResult NumberToString StringToNumber aiResult originalText = Some r ->
  Forall (fun item =>
            NonFood.unit_interval (confidence item) = true
            /\ In (category item) PRODUCT_CATEGORIES
            /\ trim (name item) = name item
            /\ trim (enhancedName item) = enhancedName item)
    (items r).
Proof. apply validated_items. Qed.

(** *** When validateAIResult throws *)

Lemma filter_items_throws (elems : list json) :
  filter_items elems = None <-> In JNull elems.
Proof.
  induction elems as [|item elems IH]; simpl.
  - split; [discriminate|contradiction].
  - destruct (keep_item item) as [b|] eqn:Ek.
    + destruct (filter_items elems) as [kept|].
      * split; [discriminate|]. intros [->|Hin]; [discriminate|].
        apply IH in Hin. discriminate.
      * split; [|reflexivity]. intros _. right. apply IH. reflexivity.
    + split; [|reflexivity]. intros _. left.
      destruct item; try discriminate. reflexivity.
Qed.

(** The filter and the map over an array throw exactly when an element is
    null, or an element the filter keeps has a value whose conversion
    throws. *)
Lemma items_throw (elems : list json) :
  match filter_items elems with
  | Some kept => clean_items NumberToString StringToNumber kept
  | None => None
  end = None
  <-> In JNull elems
      \/ exists item,
           In item elems
           /\ truthy (get item "name") = true
           /\ truthy (get item "enhancedName") = true
           /\ (exists x, get item "price" = Value (JNum x) /\ PrimFloat.ltb 0 x = true)
           /\ (unconvertible (get item "name") = true
               \/ unconvertible (get item "enhancedName") = true
               \/ unconvertible (get item "confidence") = true).
Proof.
  destruct (filter_items elems) as [kept|] eqn:Ef.
  - rewrite (clean_items_throws NumberToString StringToNumber). split.
    + intros (item & Hin & Hc). right. exists item.
      apply (filter_items_members _ _ Ef) in Hin. destruct Hin as [Hin Hk].
      split; [exact Hin|].
      apply (clean_item_throws NumberToString StringToNumber item Hk) in Hc.
      apply keep_item_true in Hk. destruct Hk as (Hn & He & Hp).
      repeat split; assumption.
    + intros [Hnull|(item & Hin & Hn & He & Hp & Hc)].
      * apply filter_items_throws in Hnull. congruence.
      * assert (Hk : keep_item item = Some true) by (apply keep_item_true; auto).
        exists item. split.
        -- apply (filter_items_members _ _ Ef). auto.
        -- apply (clean_item_throws NumberToString StringToNumber item Hk), Hc.
  - split; [|reflexivity]. intros _. left. apply filter_items_throws, Ef.
Qed.

(** X4: validateAIResult throws a TypeError exactly when the response is
    null, or its items array has a null element (reading a property of
    null), or an element of that array that passes the filter (a truthy
    name, a truthy enhancedName and a number above 0 as price) has a
    name, an enhancedName or a confidence whose conversion by String or
    Number throws: an object with an own property toString, or an array
    that has such an object among its elements, at any depth.  Every other
    parsed response is given a result. *)
Theorem validateAIResult_throws (aiResult : json) (originalText : string) :
  validateAIResult NumberToString StringToNumber aiResult originalText = None
  <-> aiResult = JNull
      \/ exists elems,
           get aiResult "items" = Value (JArr elems)
           /\ (In JNull elems
               \/ exists item,
                    In item elems
                    /\ truthy (get item "name") = true
                    /\ truthy (get item "enhancedName") = true
                    /\ (exists x, get item "price" = Value (JNum x)
                                  /\ PrimFloat.ltb 0 x = true)
                    /\ (unconvertible (get item "name") = true
                        \/ unconvertible (get item "enhancedName") = true
                        \/ unconvertible (get item "confidence") = true)).
Proof.
  assert (Hd : aiResult = JNull \/ aiResult <> JNull).
  { destruct aiResult; (left; reflexivity) || (right; discriminate). }
  destruct Hd as [->|Hn]; [split; [left|]; reflexivity|].
  assert (Hv : validateAIResult NumberToString StringToNumber aiResult originalText
               = None
               <-> match match get aiResult "items" with
                         | Value (JArr elems) => filter_items elems
                         | _ => Some []
                         end with
                   | Some kept => clean_items NumberToString StringToNumber kept
                   | None => None
                   end = None).
  { unfold validateAIResult.
    destruct (match get aiResult "items" with
              | Value (JArr elems) => filter_items elems
              | _ => Some []
              end) as [kept|].
    - destruct (clean_items NumberToString StringToNumber kept);
        destruct aiResult; try contradiction; split; (discriminate || reflexivity).
    - destruct aiResult; try contradiction; split; reflexivity. }
  rewrite Hv. clear Hv. split.
  - intros H. right.
    destruct (get aiResult "items") as [|v|]; try discriminate.
    destruct v as [| | | |elems|]; try discriminate.
    exists elems. split; [reflexivity|]. apply items_throw, H.
  - intros [->|(elems & -> & H)]; [contradiction|]. apply items_throw, H.
Qed.

(** A response whose only item has an object with an own property
    toString as name: the item passes the filter, and String throws. *)
Example unprintable_name_throws :
  validateAIResult NumberToString StringToNumber
    (JObj [("items",
            JArr [JObj [("name", JObj [("toString", JNum 1)]);
                        ("enhancedName", JStr "a");
                        ("price", JNum 1)]])])
    "a 1.00"
  = None.
Proof. reflexivity. Qed.

(** *** The rule-based parser *)

Lemma fallback_patterns_well_formed :
  forallb well_formed
    [ "\bGV\b"; "\bLB\b"; "\bOZ\b"; "\bCT\b"; "\bPK\b"; "\bCHS\b";
      "[^a-z\s]"; "[aeiou]{4,}"; "[bcdfghjklmnpqrstvwxyz]{4,}"; "[aeiou]";
      "[bcdfghjklmnpqrstvwxyz]";
      "^\d{3}-\d{3}-\d{4}"; "^\d+\s+\w+\s+(st|ave|rd|blvd)";
      "^[a-z\s]+,\s*[a-z]{2}\s*\d{5}";
      "^(sub)?total|tax|balance|change|tender|payment"; "^card|cash|credit|debit";
      "^cashier|manager|associate"; "^thank you|visit us|store hours";
      "^\s*\d+\.\d{2}\s*$"; "^(\d+\.\d{2})\s+(.+)$"; "phone|address|zip";
      "^(sub)?total"; "(\d+\.\d{2})"; "\s+";
      "subtotal|tax|total|balance|change|tender|cashier|manager|card|cash|credit|debit|thank you|visit|store|hours|phone|address|city|state|zip";
      "walmart|target|safeway|kroger|costco|whole foods|winco|trader joe|publix|albertsons" ]
  = true.
Proof. vm_compute. reflexivity. Qed.

Example fallback_sample :
  let r := fallbackParsing
             (join (String "010" EmptyString)
                [ "SAFEWAY"; "Store 910"; "MILK WHOLE GALLON    3.99";
                  "BREAD WHEAT"; "2.50"; "1.25 BANANAS"; "TAX 0.54"; "TOTAL 8.28";
                  "Thank you for shopping" ])
             "1/1/2025" in
  storeName r = JStr "SAFEWAY"
  /\ map (fun i => (name i, enhancedName i, category i, price i)) (items r)
     = [ ("MILK WHOLE GALLON", "Milk Whole Gallon", "Dairy & Eggs", 3.99%float);
         ("BREAD WHEAT", "Bread Wheat", "Bakery", 2.5%float);
         ("BANANAS", "Bananas", "Fresh Produce", 1.25%float) ]
  /\ total r = 8.28%float.
Proof. vm_compute. repeat split. Qed.


Lemma categorizeProduct_range (name : string) :
  In (categorizeProduct name) fallback_categories.
Proof.
  unfold categorizeProduct, fallback_categories.
  repeat match goal with
         | |- In (if ?b then _ else _) _ => destruct b
         end; simpl; tauto.
Qed.

Lemma item_of_parsed (f : found) (item : AIItem) :
  item_of f = Some item -> parsed_item item.
Proof.
  unfold item_of.
  destruct (negb (String.eqb (itemName f) EmptyString)
            && PrimFloat.ltb 0 (f_price f) && PrimFloat.ltb (f_price f) 1000) eqn:E;
    [|discriminate].
  apply andb_prop in E. destruct E as [E Hlt]. apply andb_prop in E.
  destruct E as [_ Hpos].
  destruct (test non_item_words _); [discriminate|].
  destruct (Nat.ltb (String.length _) 2) eqn:El; [discriminate|].
  destruct (isGarbledText _); [discriminate|].
  intros [= <-]. unfold parsed_item. cbn [price confidence category name].
  split; [exact Hpos|]. split; [exact Hlt|]. split; [left; reflexivity|].
  split; [apply categorizeProduct_range|]. apply Nat.ltb_ge, El.
Qed.

Lemma scan_lines_parsed (lines : list string) :
  forall st, Forall parsed_item (s_items st) ->
             Forall parsed_item (s_items (scan_lines lines st)).
Proof.
  assert (H : forall n lines, List.length lines <= n ->
              forall st, Forall parsed_item (s_items st) ->
                         Forall parsed_item (s_items (scan_lines lines st))).
  { clear lines. induction n as [|n IH]; intros lines Hn st Hst.
    - destruct lines; [exact Hst|simpl in Hn; lia].
    - destruct lines as [|line rest]; [exact Hst|]. simpl in Hn.
      cbn [scan_lines]. destruct (skipped_line line).
      + apply IH; [lia|exact Hst].
      + set (f := read_item line (List.head rest)).
        assert (Hst' : Forall parsed_item
                         (s_items match item_of f with
                                  | Some item =>
                                      mkScanned (s_items st ++ [item]) (s_total st)
                                  | None => st
                                  end)).
        { destruct (item_of f) as [item|] eqn:E; [|exact Hst]. cbn [s_items].
          apply List.Forall_app. split; [exact Hst|].
          constructor; [apply (item_of_parsed f), E|constructor]. }
        destruct rest as [|next rest'].
        * apply IH; [simpl; lia|exact Hst'].
        * destruct (consumed_next f); apply IH; simpl in *; try lia; exact Hst'. }
  apply (H (List.length lines)). lia.
Qed.

Lemma sampleItems_parsed : Forall parsed_item sampleItems.
Proof.
  unfold sampleItems.
  repeat (apply List.Forall_cons;
          [unfold parsed_item, fallback_categories; cbn;
           repeat split; try reflexivity; try (right; reflexivity); try lia; tauto|]).
  apply List.Forall_nil.
Qed.

Lemma fallback_items (ocrText today : string) :
  let r := fallbackParsing ocrText today in
  items r <> []
  /\ itemCount (metadata r) = List.length (items r)
  /\ Forall parsed_item (items r).
Proof.
  unfold fallbackParsing.
  set (lines := List.filter _ _).
  pose proof (scan_lines_parsed lines (mkScanned [] 0) (List.Forall_nil _)) as H.
  destruct (s_items (scan_lines lines (mkScanned [] 0))) as [|item items'].
  - cbn [items metadata itemCount]. split; [discriminate|]. split; [reflexivity|].
    apply sampleItems_parsed.
  - cbn [items metadata itemCount]. split; [discriminate|]. split; [reflexivity|].
    exact H.
Qed.

(** X2: The rule-based parser always returns at least one item (the seven
    sample items when the text gives none), itemCount is the number of
    items, and every item has a price above 0 and below 1000, a confidence
    of 0.8 (0.9 for a sample item), one of the six categories of
    categorizeProduct and a name of at least two characters. *)
Theorem fallback_result_well_formed (ocrText today : string) :
  let r := fallbackParsing ocrText today in
  items r <> []
  /\ itemCount (metadata r) = List.length (items r)
  /\ Forall (fun item =>
               PrimFloat.ltb 0 (price item) = true
               /\ PrimFloat.ltb (price item) 1000 = true
               /\ (confidence item = 0.8%float \/ confidence item = 0.9%float)
               /\ In (category item)
                    [ "Dairy & Eggs"; "Meat & Seafood"; "Fresh Produce"; "Bakery";
                      "Frozen Foods"; "Groceries" ]
               /\ 2 <= String.length (name item))
       (items r).
Proof. apply fallback_items. Qed.

Lemma parsed_item_valid (item : AIItem) :
  parsed_item item ->
  PrimFloat.ltb 0 (price item) = true
  /\ NonFood.unit_interval (confidence item) = true
  /\ In (category item) PRODUCT_CATEGORIES.
Proof.
  intros (Hp & _ & Hc & Hcat & _). split; [exact Hp|]. split.
  - destruct Hc as [-> | ->]; reflexivity.
  - revert Hcat. generalize (category item). intros c Hin.
    unfold fallback_categories in Hin. simpl in Hin.
    repeat (destruct Hin as [<-|Hin]; [vm_compute; tauto|]). contradiction.
Qed.

(** X1: Whatever the model answers, and also when there is no key or the
    request fails, parseReceiptWithAI returns a result whose itemCount is
    the number of its items and whose items have a price above 0, a
    confidence between 0 and 1 and a category of PRODUCT_CATEGORIES; and
    parseWithMultipleAI returns that same result. *)
Theorem parse_result_well_formed (r : reply) (ocrText today : string) :
  let result := parseReceiptWithAI NumberToString StringToNumber r ocrText today in
  itemCount (metadata result) = List.length (items result)
  /\ Forall (fun item =>
               PrimFloat.ltb 0 (price item) = true
               /\ NonFood.unit_interval (confidence item) = true
               /\ In (category item) PRODUCT_CATEGORIES)
       (items result)
  /\ parseWithMultipleAI NumberToString StringToNumber r ocrText today = Some result.
Proof.
  intros result. split; [|split; [|reflexivity]]; subst result.
  - unfold parseReceiptWithAI. destruct r as [| |aiResult];
      try apply fallback_items.
    destruct (validateAIResult _ _ aiResult ocrText) as [v|] eqn:E;
      [|apply fallback_items].
    apply (validateAIResult_items _ _ _ _ _ E).
  - assert (Hf : Forall (fun item =>
                           PrimFloat.ltb 0 (price item) = true
                           /\ NonFood.unit_interval (confidence item) = true
                           /\ In (category item) PRODUCT_CATEGORIES)
                   (items (fallbackParsing ocrText today))).
    { eapply List.Forall_impl; [|apply fallback_items].
      intros item. apply parsed_item_valid. }
    unfold parseReceiptWithAI. destruct r as [| |aiResult]; try exact Hf.
    destruct (validateAIResult _ _ aiResult ocrText) as [v|] eqn:E; [|exact Hf].
    pose proof (validateAIResult_items _ _ _ _ _ E) as [Hp _].
    pose proof (validated_items _ _ _ E) as Hw.
    apply List.Forall_forall. intros item Hin.
    split; [apply (proj1 (List.Forall_forall _ _) Hp), Hin|].
    destruct (proj1 (List.Forall_forall _ _) Hw item Hin) as (Hu & Hc & _).
    auto.
Qed.

End RuleParserProperties.

Section RuleParserWitness.
Import JS AIParser.

(** The two items kept from the sample response. *)
Lemma validated_items_well_formed_witness :
  exists r,
    validateAIResult (fun _ => EmptyString) (fun _ => PrimFloat.nan)
      sample_response "MILK WHOLE GALLON 3.99" = Some r
    /\ Forall (fun item =>
                 NonFood.unit_interval (confidence item) = true
                 /\ In (category item) PRODUCT_CATEGORIES
                 /\ trim (name item) = name item
                 /\ trim (enhancedName item) = enhancedName item)
         (items r).
Proof.
  destruct (validateAIResult (fun _ => EmptyString) (fun _ => PrimFloat.nan)
              sample_response "MILK WHOLE GALLON 3.99") as [r|] eqn:E;
    [|vm_compute in E; discriminate].
  exists r. split; [reflexivity|].
  apply (validated_items_well_formed _ _ _ _ _ E).
Defined.

End RuleParserWitness.

(** ** The non-food detector: actions, explanations and feedback *)

Section NonFoodActionsProperties.
Import JS Regex NonFood NonFoodActions Shape.

(** *** The flags of a detection *)

Lemma action_of_confidence (itemName : string) (price : option float)
    (context : option Context) :
  let r := detectNonFood itemName price context in
  suggestedAction r
  = (if PrimFloat.leb 0.85 (confidence r) then hide
     else if PrimFloat.leb 0.6 (confidence r) then review else keep)
  /\ isNonFood r = PrimFloat.leb 0.6 (confidence r)
  /\ (isNonFood r = false -> category r = "other").
Proof.
  unfold detectNonFood.
  destruct (first_match definiteNonFood _); [repeat split; discriminate|].
  destruct (existsb _ storeServices); [repeat split; discriminate|].
  destruct (negative_price price); [repeat split; discriminate|].
  cbn [suggestedAction confidence isNonFood category].
  split; [reflexivity|]. split; [reflexivity|]. intros ->. reflexivity.
Qed.

(** X13: The flags of a detection agree: the item is reported as non-food
    exactly when the suggested action is hide or review, hide is suggested
    exactly from a confidence of 0.85 on, and an item that is not reported
    as non-food has the category other. *)
Theorem detection_flags_agree (itemName : string) (price : option float)
    (context : option Context) :
  let r := detectNonFood itemName price context in
  (isNonFood r = true <-> suggestedAction r <> keep)
  /\ (suggestedAction r = hide <-> PrimFloat.leb 0.85 (confidence r) = true)
  /\ (isNonFood r = false -> category r = "other").
Proof.
  intros r. destruct (action_of_confidence itemName price context) as (Ha & Hn & Hc).
  fold r in Ha, Hn, Hc.
  split; [|split; [|exact Hc]]; rewrite Ha; try rewrite Hn; clear Ha Hn Hc.
  - destruct (PrimFloat.leb 0.85 (confidence r)) eqn:E.
    + rewrite (leb_trans 0.6 0.85 _ eq_refl E). split; [discriminate|reflexivity].
    + destruct (PrimFloat.leb 0.6 (confidence r)); split; try discriminate; auto;
        intros H; contradiction.
  - destruct (PrimFloat.leb 0.85 (confidence r)); [split; reflexivity|].
    destruct (PrimFloat.leb 0.6 (confidence r)); split; discriminate.
Qed.

(** *** getSuggestedActions *)

Lemma sort_result_sets (ht rt : float) (l : list (nat * NonFoodDetectionResult))
    (sets : SuggestedActions) :
  fold_left (sort_result ht rt) l sets
  = mkActions
      (fold_left (fun (s : gset nat) '(index, r) =>
                    if PrimFloat.leb ht (confidence r) then s ∪ {[ index ]} else s)
         l (to_hide sets))
      (fold_left (fun (s : gset nat) '(index, r) =>
                    if negb (PrimFloat.leb ht (confidence r))
                       && PrimFloat.leb rt (confidence r)
                    then s ∪ {[ index ]} else s)
         l (to_review sets)).
Proof.
  revert sets. induction l as [|[index r] l IH]; intros sets.
  - destruct sets. reflexivity.
  - simpl. rewrite IH. clear IH.
    destruct (PrimFloat.leb ht (confidence r)); [reflexivity|].
    destruct (PrimFloat.leb rt (confidence r)); reflexivity.
Qed.

Lemma suggested_actions_elem (items : list (string * option float))
    (storeName : option string) (thresholds : option Thresholds) (i : nat) :
  let ht := number_or (match thresholds with Some t => th_hide t | None => None end)
              0.85 in
  let rt := number_or (match thresholds with Some t => th_review t | None => None end)
              0.6 in
  let actions := getSuggestedActions items storeName thresholds in
  (i ∈ to_hide actions
   <-> exists r, nth_error (detectNonFoodBatch items storeName) i = Some r
                 /\ PrimFloat.leb ht (confidence r) = true)
  /\ (i ∈ to_review actions
      <-> exists r, nth_error (detectNonFoodBatch items storeName) i = Some r
                    /\ PrimFloat.leb ht (confidence r) = false
                    /\ PrimFloat.leb rt (confidence r) = true).
Proof.
  intros ht rt actions. subst actions. unfold getSuggestedActions.
  fold ht. fold rt. rewrite sort_result_sets. cbn [to_hide to_review].
  split.
  - rewrite (index_fold_elem (fun r => PrimFloat.leb ht (confidence r))).
    rewrite Nat.sub_0_r. split.
    + intros [H|(r & _ & H)]; [apply not_elem_of_empty in H; contradiction|].
      exists r. exact H.
    + intros (r & H). right. exists r. split; [lia|exact H].
  - rewrite (index_fold_elem
               (fun r => negb (PrimFloat.leb ht (confidence r))
                         && PrimFloat.leb rt (confidence r))).
    rewrite Nat.sub_0_r. split.
    + intros [H|(r & _ & Hn & H)]; [apply not_elem_of_empty in H; contradiction|].
      exists r. split; [exact Hn|]. apply andb_prop in H. destruct H as [H1 H2].
      apply negb_true_iff in H1. auto.
    + intros (r & Hn & H1 & H2). right. exists r. split; [lia|].
      split; [exact Hn|]. rewrite H1, H2. reflexivity.
Qed.

Lemma batch_result (items : list (string * option float)) (storeName : option string)
    (i : nat) (r : NonFoodDetectionResult) :
  nth_error (detectNonFoodBatch items storeName) i = Some r ->
  exists itemName price context, r = detectNonFood itemName price context.
Proof.
  unfold detectNonFoodBatch. intros H.
  rewrite List.nth_error_map in H.
  destruct (nth_error (combine _ items) i) as [[index it]|]; [|discriminate].
  injection H as <-. eexists _, _, _. reflexivity.
Qed.

(** X14: getSuggestedActions never puts an index in both sets, whatever the
    thresholds; with the default thresholds the hide set and the review
    set are the indices of the items for which detectNonFoodBatch suggests
    hide, respectively review. *)
Theorem suggested_actions_partition (items : list (string * option float))
    (storeName : option string) (thresholds : option Thresholds) (i : nat) :
  let results := detectNonFoodBatch items storeName in
  ~ (i ∈ to_hide (getSuggestedActions items storeName thresholds)
     /\ i ∈ to_review (getSuggestedActions items storeName thresholds))
  /\ (i ∈ to_hide (getSuggestedActions items storeName None)
      <-> exists r, nth_error results i = Some r /\ suggestedAction r = hide)
  /\ (i ∈ to_review (getSuggestedActions items storeName None)
      <-> exists r, nth_error results i = Some r /\ suggestedAction r = review).
Proof.
  intros results. subst results. split; [|split].
  - destruct (suggested_actions_elem items storeName thresholds i) as [Hh Hr].
    intros [H1 H2]. apply Hh in H1. apply Hr in H2.
    destruct H1 as (r & Hn & H1). destruct H2 as (r' & Hn' & H2 & _).
    rewrite Hn in Hn'. injection Hn' as <-. congruence.
  - destruct (suggested_actions_elem items storeName None i) as [Hh _].
    rewrite Hh. cbn [number_or]. split; intros (r & Hn & H); exists r; (split; [exact Hn|]);
      destruct (batch_result _ _ _ _ Hn) as (n & p & c & ->);
      destruct (action_of_confidence n p c) as (Ha & _).
    + rewrite Ha, H. reflexivity.
    + rewrite Ha in H. destruct (PrimFloat.leb 0.85 _); [reflexivity|].
      destruct (PrimFloat.leb 0.6 _); discriminate.
  - destruct (suggested_actions_elem items storeName None i) as [_ Hr].
    rewrite Hr. cbn [number_or].
    split; intros (r & Hn & H); exists r; (split; [exact Hn|]);
      destruct (batch_result _ _ _ _ Hn) as (n & p & c & ->);
      destruct (action_of_confidence n p c) as (Ha & _).
    + destruct H as [H1 H2]. rewrite Ha, H1, H2. reflexivity.
    + rewrite Ha in H. destruct (PrimFloat.leb 0.85 _); [discriminate|].
      destruct (PrimFloat.leb 0.6 _); [auto|discriminate].
Qed.

(** *** getDetailedExplanation *)


Lemma first_match_key (rules : list (string * list regexp)) (name cat : string) :
  first_match rules name = Some cat -> In cat (map fst rules).
Proof.
  induction rules as [|[c patterns] rules IH]; simpl; [discriminate|].
  destruct (existsb _ patterns); [intros [= <-]; left; reflexivity|].
  intros H. right. apply IH, H.
Qed.

Lemma layer3_category (name : string) (l : locals) :
  l_category (layer3 name l) = l_category l
  \/ In (l_category (layer3 name l)) (map fst likelyNonFood).
Proof.
  unfold layer3. generalize likelyNonFood. intros rules. revert l.
  induction rules as [|[cat patterns] rules IH]; intros l; [left; reflexivity|].
  cbn [fold_left map fst].
  assert (Hp : forall l0,
             l_category (fold_left (layer3_pattern name cat) patterns l0) = l_category l0
             \/ l_category (fold_left (layer3_pattern name cat) patterns l0) = cat).
  { induction patterns as [|p patterns IHp]; intros l0; [left; reflexivity|].
    cbn [fold_left]. destruct (IHp (layer3_pattern name cat l0 p)) as [H|H].
    - rewrite H. unfold layer3_pattern. destruct (test p name); [right|left]; reflexivity.
    - right. exact H. }
  destruct (IH (fold_left (layer3_pattern name cat) patterns l)) as [H|H].
  - rewrite H. destruct (Hp l) as [H'|H']; [left; exact H'|].
    right. left. symmetry. exact H'.
  - right. right. exact H.
Qed.

Lemma layer4_category (name : string) (l : locals) :
  l_category (layer4 name l) = l_category l
  \/ In (l_category (layer4 name l)) (map fst nonFoodBrands).
Proof.
  unfold layer4. generalize nonFoodBrands. intros rules. revert l.
  induction rules as [|[cat brands] rules IH]; intros l; [left; reflexivity|].
  cbn [fold_left map fst].
  assert (Hp : forall l0,
             l_category (fold_left (layer4_brand name cat) brands l0) = l_category l0
             \/ l_category (fold_left (layer4_brand name cat) brands l0) = cat).
  { induction brands as [|b brands IHb]; intros l0; [left; reflexivity|].
    cbn [fold_left]. destruct (IHb (layer4_brand name cat l0 b)) as [H|H].
    - rewrite H. unfold layer4_brand.
      destruct (includes name (toLowerCase b)); [right|left]; reflexivity.
    - right. exact H. }
  destruct (IH (fold_left (layer4_brand name cat) brands l)) as [H|H].
  - rewrite H. destruct (Hp l) as [H'|H']; [left; exact H'|].
    right. left. symmetry. exact H'.
  - right. right. exact H.
Qed.

Lemma layer5_category (context : option Context) (l : locals) :
  l_category (layer5 context l) = l_category l.
Proof.
  unfold layer5. destruct context as [ctx|]; [|reflexivity].
  destruct (allItems ctx); [|reflexivity]. destruct (itemIndex ctx); [|reflexivity].
  destruct (PrimFloat.ltb 0.5 _); reflexivity.
Qed.

Lemma layer6_category (price : option float) (l : locals) :
  l_category (layer6 price l) = l_category l \/ l_category (layer6 price l) = "payment".
Proof.
  unfold layer6. destruct price as [p|]; [|left; reflexivity].
  destruct (PrimFloat.leb 50 p && rem1_is_zero p); [right; reflexivity|].
  destruct (PrimFloat.ltb 100 p); left; reflexivity.
Qed.

Lemma layer7_category (name : string) (l : locals) :
  l_category (layer7 name l) = l_category l.
Proof.
  unfold layer7. destruct (test _ name); destruct (Nat.ltb _ 3); reflexivity.
Qed.

Lemma detected_category (itemName : string) (price : option float)
    (context : option Context) :
  In (category (detectNonFood itemName price context)) runtime_categories.
Proof.
  unfold detectNonFood, runtime_categories.
  destruct (first_match definiteNonFood _) as [cat|] eqn:E.
  { apply in_or_app. left. apply (first_match_key _ _ _ E). }
  destruct (existsb _ storeServices).
  { apply in_or_app. right. left. reflexivity. }
  destruct (negative_price price).
  { repeat (apply in_or_app; right). right. left. reflexivity. }
  cbn [category].
  destruct (PrimFloat.leb 0.6 _).
  2: { repeat (apply in_or_app; right). right. right. left. reflexivity. }
  rewrite layer7_category.
  set (name := trim (toLowerCase itemName)).
  set (l0 := mkLocals 0 "other" EmptyString).
  destruct (layer6_category price (layer5 context (layer4 name (layer3 name l0))))
    as [-> | ->].
  2: { repeat (apply in_or_app; right). left. reflexivity. }
  rewrite layer5_category.
  destruct (layer4_category name (layer3 name l0)) as [-> | H].
  2: { apply in_or_app. right. apply in_or_app. right. apply in_or_app. right.
       apply in_or_app. left. exact H. }
  destruct (layer3_category name l0) as [-> | H].
  - repeat (apply in_or_app; right). right. right. left. reflexivity.
  - apply in_or_app. right. apply in_or_app. right. apply in_or_app. left. exact H.
Qed.

(** X15: The category detectNonFood returns is one of twelve texts: the keys of
    the rule tables (tax, payment, fees, coupons, personalCare, household,
    pharmacy, babyPet, nonEdible) and service, discount and other.  The
    table of getDetailedExplanation has no entry for fees, coupons,
    personalCare, babyPet and nonEdible: a detection of these categories
    is explained as a generic non-food item, and the titles Store
    Fee/Charge, Coupon/Discount and Personal Care are never given to a
    detection. *)
Theorem explanation_of_detection (itemName : string) (price : option float)
    (context : option Context) :
  let r := detectNonFood itemName price context in
  In (category r)
    [ "tax"; "payment"; "fees"; "coupons"; "service"; "personalCare"; "household";
      "pharmacy"; "babyPet"; "nonEdible"; "discount"; "other" ]
  /\ In (e_title (getDetailedExplanation r))
       [ Some "Tax/Government Fee"; Some "Payment Method"; Some "Store Service";
         Some "Household Item"; Some "Pharmacy/Health"; Some "Discount/Savings";
         Some "Non-Food Item" ]
  /\ (In (category r) ["fees"; "coupons"; "personalCare"; "babyPet"; "nonEdible"] ->
      e_title (getDetailedExplanation r) = Some "Non-Food Item"
      /\ e_actionText (getDetailedExplanation r) = Some "Review classification").
Proof.
  intros r. pose proof (detected_category itemName price context) as H. fold r in H.
  assert (Hc : In (category r)
                 [ "tax"; "payment"; "fees"; "coupons"; "service"; "personalCare";
                   "household"; "pharmacy"; "babyPet"; "nonEdible"; "discount";
                   "other" ]).
  { revert H. generalize (category r). intros c H. vm_compute in H. simpl. tauto. }
  split; [exact Hc|]. split.
  - revert Hc. unfold getDetailedExplanation. generalize (category r). intros c Hc.
    simpl in Hc.
    repeat (destruct Hc as [<-|Hc]; [simpl; tauto|]). contradiction.
  - unfold getDetailedExplanation. generalize (category r). intros c Hf.
    simpl in Hf.
    repeat (destruct Hf as [<-|Hf]; [split; reflexivity|]). contradiction.
Qed.

(** *** getLearningInsights *)


Lemma insert_by_count_perm (x : string * nat) (l : list (string * nat)) :
  Permutation (insert_by_count x l) (x :: l).
Proof.
  induction l as [|y l IH]; simpl; [reflexivity|].
  destruct (Nat.ltb (snd x) (snd y)); [|reflexivity].
  rewrite IH. apply perm_swap.
Qed.

Lemma sort_by_count_perm (l : list (string * nat)) : Permutation (sort_by_count l) l.
Proof.
  induction l as [|x l IH]; simpl; [reflexivity|].
  rewrite insert_by_count_perm, IH. reflexivity.
Qed.

Lemma insert_by_count_sorted (x : string * nat) (l : list (string * nat)) :
  StronglySorted by_count l -> StronglySorted by_count (insert_by_count x l).
Proof.
  induction 1 as [|y l Hl IH Hy]; simpl.
  - constructor; constructor.
  - destruct (Nat.ltb (snd x) (snd y)) eqn:E.
    + apply Nat.ltb_lt in E. constructor; [exact IH|].
      apply List.Forall_forall. intros z Hz.
      apply (Permutation_in _ (insert_by_count_perm x l)) in Hz.
      destruct Hz as [<-|Hz].
      * unfold by_count. lia.
      * apply (proj1 (List.Forall_forall _ _) Hy), Hz.
    + apply Nat.ltb_ge in E. constructor; [constructor; assumption|].
      constructor; [exact E|].
      apply List.Forall_forall. intros z Hz.
      pose proof (proj1 (List.Forall_forall _ _) Hy z Hz) as Hzy.
      unfold by_count in *. lia.
Qed.

Lemma sort_by_count_sorted (l : list (string * nat)) :
  StronglySorted by_count (sort_by_count l).
Proof.
  induction l as [|x l IH]; simpl; [constructor|].
  apply insert_by_count_sorted, IH.
Qed.

Lemma firstn_elem {A : Type} (n : nat) (l : list A) (x : A) :
  In x (List.firstn n l) -> In x l.
Proof.
  intros H. rewrite <- (List.firstn_skipn n l). apply in_or_app. left. exact H.
Qed.

Lemma firstn_sorted (n : nat) (l : list (string * nat)) :
  StronglySorted by_count l -> StronglySorted by_count (List.firstn n l).
Proof.
  intros H. revert n. induction H as [|y l Hl IH Hy]; intros n.
  - rewrite List.firstn_nil. constructor.
  - destruct n; simpl; constructor; [apply IH|].
    apply List.Forall_forall. intros z Hz. apply firstn_elem in Hz.
    apply (proj1 (List.Forall_forall _ _) Hy), Hz.
Qed.

Lemma firstn_NoDup {A : Type} (n : nat) (l : list A) :
  List.NoDup l -> List.NoDup (List.firstn n l).
Proof.
  intros H. revert n. induction H as [|y l Hy Hl IH]; intros n.
  - rewrite List.firstn_nil. constructor.
  - destruct n; simpl; constructor; [|apply IH].
    intros Hin. apply firstn_elem in Hin. contradiction.
Qed.


Lemma count_text_keys (entries : list (string * nat)) (text : string) :
  forall t, In t (map fst (count_text entries text))
            <-> t = text \/ In t (map fst entries).
Proof.
  induction entries as [|[t' n] entries IH]; intros t; simpl.
  - intuition congruence.
  - destruct (String.eqb t' text) eqn:E; simpl.
    + apply String.eqb_eq in E. subst t'. intuition congruence.
    + rewrite IH. tauto.
Qed.

Lemma count_text_NoDup (entries : list (string * nat)) (text : string) :
  List.NoDup (map fst entries) -> List.NoDup (map fst (count_text entries text)).
Proof.
  induction entries as [|[t' n] entries IH]; simpl; intros H.
  - constructor; [intros []|constructor].
  - inversion H as [|? ? Hn Hd]; subst.
    destruct (String.eqb t' text) eqn:E; simpl.
    + constructor; assumption.
    + constructor; [|apply IH, Hd].
      rewrite count_text_keys. intros [->|Hin]; [|contradiction].
      rewrite String.eqb_refl in E. discriminate.
Qed.

Lemma count_text_stored (entries : list (string * nat)) (text t : string) :
  stored_count (count_text entries text) t
  = stored_count entries t + (if String.eqb text t then 1 else 0).
Proof.
  induction entries as [|[t' n] entries IH]; simpl.
  - destruct (String.eqb text t); reflexivity.
  - destruct (String.eqb t' text) eqn:E; simpl.
    + apply String.eqb_eq in E. subst t'.
      destruct (String.eqb text t); lia.
    + destruct (String.eqb t' t) eqn:E'; [|exact IH].
      apply String.eqb_eq in E'. subst t'. rewrite String.eqb_sym, E. lia.
Qed.

Lemma count_text_positive (entries : list (string * nat)) (text : string) :
  Forall (fun e => 1 <= snd e) entries ->
  Forall (fun e => 1 <= snd e) (count_text entries text).
Proof.
  induction 1 as [|[t' n] entries Hn Hrest IH]; simpl.
  - constructor; [simpl; lia|constructor].
  - destruct (String.eqb t' text); constructor; simpl in *; try lia; assumption.
Qed.

Lemma stored_count_In (entries : list (string * nat)) (t : string) (n : nat) :
  List.NoDup (map fst entries) -> In (t, n) entries -> stored_count entries t = n.
Proof.
  induction entries as [|[t' n'] entries IH]; simpl; [contradiction|].
  intros Hd [H|H].
  - injection H as -> ->. rewrite String.eqb_refl. reflexivity.
  - inversion Hd as [|? ? Hn Hd']; subst.
    destruct (String.eqb t' t) eqn:E; [|apply IH; assumption].
    apply String.eqb_eq in E. subst t'. exfalso. apply Hn.
    apply (List.in_map fst) in H. exact H.
Qed.

Lemma stored_count_key (entries : list (string * nat)) (t : string) :
  Forall (fun e => 1 <= snd e) entries ->
  1 <= stored_count entries t -> exists n, In (t, n) entries.
Proof.
  induction 1 as [|[t' n'] entries Hn _ IH]; simpl; [lia|].
  destruct (String.eqb t' t) eqn:E.
  - apply String.eqb_eq in E. subst t'. intros _. exists n'. left. reflexivity.
  - intros H. destruct (IH H) as [n Hin]. exists n. right. exact Hin.
Qed.

Lemma counted_texts (texts : list string) (entries : list (string * nat)) :
  List.NoDup (map fst entries) ->
  Forall (fun e => 1 <= snd e) entries ->
  let counted := fold_left count_text texts entries in
  List.NoDup (map fst counted)
  /\ Forall (fun e => 1 <= snd e) counted
  /\ (forall t, stored_count counted t
                = stored_count entries t + count_occ string_dec texts t).
Proof.
  revert entries. induction texts as [|text texts IH]; intros entries Hd Hp; simpl.
  - split; [exact Hd|]. split; [exact Hp|]. intros t. lia.
  - destruct (IH (count_text entries text) (count_text_NoDup _ _ Hd)
                (count_text_positive _ _ Hp)) as (H1 & H2 & H3).
    split; [exact H1|]. split; [exact H2|]. intros t.
    rewrite H3, count_text_stored.
    destruct (string_dec text t) as [->|Hne].
    + rewrite String.eqb_refl. lia.
    + destruct (String.eqb text t) eqn:E; [|lia].
      apply String.eqb_eq in E. contradiction.
Qed.

Lemma fold_count_text (data : list NonFoodLearningData) (entries : list (string * nat)) :
  fold_left (fun entries d => count_text entries (originalText d)) data entries
  = fold_left count_text (map originalText data) entries.
Proof.
  revert entries. induction data as [|d data IH]; intros entries; simpl; [reflexivity|].
  apply IH.
Qed.

(** X16: The list of common misclassifications holds at most ten entries, in
    the order of decreasing counts; no text is listed twice, and the count
    listed for a text is the number of feedback entries marked incorrect
    with that text (at least one).  When it holds fewer than ten entries,
    it lists every text that was marked incorrect. *)
Theorem misclassification_ranking (learningData : list NonFoodLearningData) :
  let top := commonMisclassifications (getLearningInsights learningData) in
  let wrong :=
    map originalText (List.filter (fun d => negb (is_correct d)) learningData) in
  List.length top <= 10
  /\ StronglySorted (fun a b => snd b <= snd a) top
  /\ List.NoDup (map fst top)
  /\ (forall text count,
        In (text, count) top ->
        1 <= count /\ count = count_occ string_dec wrong text)
  /\ (List.length top < 10 ->
      forall text, In text wrong -> exists count, In (text, count) top).
Proof.
  intros top wrong. subst top. unfold getLearningInsights.
  cbn [commonMisclassifications]. rewrite fold_count_text. fold wrong.
  destruct (counted_texts wrong [] (List.NoDup_nil _) (List.Forall_nil _))
    as (Hd & Hp & Hc).
  set (entries := fold_left count_text wrong []) in *.
  pose proof (sort_by_count_perm entries) as Hperm.
  assert (Hin : forall e, In e (List.firstn 10 (sort_by_count entries)) -> In e entries).
  { intros e He. apply firstn_elem in He.
    apply (Permutation_in _ Hperm), He. }
  split; [apply List.firstn_le_length|].
  split; [apply (firstn_sorted 10 _ (sort_by_count_sorted entries))|].
  split.
  { rewrite <- List.firstn_map. apply firstn_NoDup.
    apply (Permutation_NoDup (Permutation_map fst (Permutation_sym Hperm))), Hd. }
  split.
  - intros text count H. apply Hin in H.
    pose proof (proj1 (List.Forall_forall _ _) Hp _ H) as Hpos. simpl in Hpos.
    split; [exact Hpos|].
    rewrite <- (stored_count_In _ _ _ Hd H), Hc. reflexivity.
  - intros Hlt text Htext.
    assert (Hall : List.firstn 10 (sort_by_count entries) = sort_by_count entries).
    { apply List.firstn_all2. rewrite List.length_firstn in Hlt. lia. }
    rewrite Hall.
    assert (Hpos : 1 <= stored_count entries text).
    { rewrite Hc. simpl.
      apply (proj1 (count_occ_In string_dec wrong text)) in Htext. lia. }
    destruct (stored_count_key _ _ Hp Hpos) as [n Hn].
    exists n. apply (Permutation_in _ (Permutation_sym Hperm)), Hn.
Qed.

End NonFoodActionsProperties.

(** ** The receipt analysis *)

Section InsightsProperties.
Import JS NonFood Insights.

Lemma filter_indexed_length {A : Type} (p : nat -> bool) (l : list A) (start : nat) :
  List.length (List.filter (fun entry : nat * A => p (fst entry))
                 (combine (seq start (List.length l)) l))
  = List.length (List.filter p (seq start (List.length l))).
Proof.
  revert start. induction l as [|x l IH]; intros start; [reflexivity|].
  simpl. destruct (p start); simpl; rewrite IH; reflexivity.
Qed.

Lemma filter_split_length {A : Type} (p : A -> bool) (l : list A) :
  List.length (List.filter p l) + List.length (List.filter (fun x => negb (p x)) l)
  = List.length l.
Proof.
  induction l as [|x l IH]; [reflexivity|].
  simpl. destruct (p x); simpl; lia.
Qed.

Lemma members_below (S : gset nat) (n : nat) :
  (forall i, i ∈ S -> i < n) ->
  List.length (List.filter (fun i => bool_decide (i ∈ S)) (seq 0 n)) = size S.
Proof.
  intros Hlt. unfold size, set_size. simpl.
  apply Permutation_length. apply NoDup_Permutation.
  - apply NoDup_ListNoDup, List.NoDup_filter, List.seq_NoDup.
  - apply NoDup_elements.
  - intros i. rewrite elem_of_elements, list_elem_of_In, List.filter_In, List.in_seq.
    rewrite bool_decide_eq_true. split; [tauto|]. intros H. specialize (Hlt i H).
    split; [lia|exact H].
Qed.

(** X17: When every hidden index and every index with a detection is an index
    of the list, and no index is both, foodItems is the number of items
    whose prices analyzeReceipt adds up as food spending. *)
Theorem food_count_consistent (items : list Item) (hidden : gset nat)
    (nonFoodDetections : gmap nat NonFoodDetectionResult) (receiptTotal : float) :
  (forall i, i ∈ hidden -> i < List.length items) ->
  (forall i, is_Some (nonFoodDetections !! i) -> i < List.length items) ->
  (forall i, i ∈ hidden -> nonFoodDetections !! i = None) ->
  foodItems (analyzeReceipt items hidden nonFoodDetections receiptTotal)
  = Z.of_nat (List.length (food_entries items hidden nonFoodDetections)).
Proof.
  intros Hh Hd Hdisj. unfold analyzeReceipt, food_entries. cbn [foodItems].
  set (S := hidden ∪ dom nonFoodDetections).
  assert (HS : forall i, i ∈ S -> i < List.length items).
  { intros i Hi. apply elem_of_union in Hi. destruct Hi as [Hi|Hi]; [auto|].
    apply Hd. apply elem_of_dom in Hi. exact Hi. }
  assert (Hsize : size S = size hidden + size nonFoodDetections).
  { unfold S. rewrite size_union.
    - rewrite size_dom. reflexivity.
    - intros i Hi Hi'. apply elem_of_dom in Hi'. rewrite (Hdisj i Hi) in Hi'.
      destruct Hi' as [x Hx]. discriminate. }
  assert (Hlen :
            List.length
              (List.filter
                 (fun entry : nat * Item =>
                    negb (bool_decide (is_Some (nonFoodDetections !! fst entry)))
                    && negb (bool_decide (fst entry ∈ hidden)))
                 (combine (seq 0 (List.length items)) items))
            = List.length
                (List.filter
                   (fun i => negb (bool_decide (is_Some (nonFoodDetections !! i)))
                             && negb (bool_decide (i ∈ hidden)))
                   (seq 0 (List.length items)))).
  { exact (filter_indexed_length
             (fun i => negb (bool_decide (is_Some (nonFoodDetections !! i)))
                       && negb (bool_decide (i ∈ hidden))) items 0). }
  rewrite Hlen. clear Hlen.
  pose proof (filter_split_length (fun i => bool_decide (i ∈ S))
                (seq 0 (List.length items))) as Hsplit.
  rewrite (members_below S _ HS), List.length_seq in Hsplit.
  assert (Heq : List.filter (fun i => negb (bool_decide (i ∈ S)))
                  (seq 0 (List.length items))
                = List.filter
                    (fun i => negb (bool_decide (is_Some (nonFoodDetections !! i)))
                              && negb (bool_decide (i ∈ hidden)))
                    (seq 0 (List.length items))).
  { apply List.filter_ext. intros i. unfold S.
    destruct (bool_decide (i ∈ hidden)) eqn:E1;
      destruct (bool_decide (is_Some (nonFoodDetections !! i))) eqn:E2;
      [apply bool_decide_eq_true in E1|apply bool_decide_eq_true in E1
      |apply bool_decide_eq_false in E1|apply bool_decide_eq_false in E1];
      [apply bool_decide_eq_true in E2|apply bool_decide_eq_false in E2
      |apply bool_decide_eq_true in E2|apply bool_decide_eq_false in E2];
      simpl.
    - apply negb_false_iff, bool_decide_eq_true, elem_of_union. left. exact E1.
    - apply negb_false_iff, bool_decide_eq_true, elem_of_union. left. exact E1.
    - apply negb_false_iff, bool_decide_eq_true, elem_of_union. right.
      apply elem_of_dom. exact E2.
    - apply negb_true_iff, bool_decide_eq_false. intros H.
      apply elem_of_union in H. destruct H as [H|H]; [contradiction|].
      apply elem_of_dom in H. contradiction. }
  rewrite <- Heq. lia.
Qed.

Lemma food_count_consistent_witness :
  foodItems
    (analyzeReceipt
       [mkItem "MILK" 3.99; mkItem "BAG FEE" 0.1; mkItem "BREAD" 2.5]
       ∅ {[ 1 := mkResult true 0.95 "Definite non-food: matches fees pattern" "fees"
                   hide ]} 6.59)
  = 2%Z.
Proof.
  rewrite food_count_consistent.
  - vm_compute. reflexivity.
  - intros i Hi. apply not_elem_of_empty in Hi. contradiction.
  - intros i Hi. destruct (decide (i = 1)) as [->|Hne]; [simpl; lia|].
    rewrite lookup_singleton_ne in Hi by congruence. destruct Hi as [x Hx]. discriminate.
  - intros i Hi. apply not_elem_of_empty in Hi. contradiction.
Defined.

Lemma acted_cons (r : NonFoodDetectionResult) (rest : list NonFoodDetectionResult)
    (a : Action -> bool) :
  acted (r :: rest) a = (if a (suggestedAction r) then 1 else 0) + acted rest a.
Proof.
  unfold acted. cbn [List.filter]. destruct (a (suggestedAction r)); reflexivity.
Qed.

Lemma banded_cons (r : NonFoodDetectionResult) (rest : list NonFoodDetectionResult)
    (lo : float) :
  banded (r :: rest) lo
  = (if PrimFloat.leb lo (NonFood.confidence r) then 1 else 0) + banded rest lo.
Proof.
  unfold banded. cbn [List.filter].
  destruct (PrimFloat.leb lo (NonFood.confidence r)); reflexivity.
Qed.

Lemma count_action_step (a : ActionCounts) (r : NonFoodDetectionResult) :
  n_hide (count_action a r)
  = n_hide a + (if Insights.is_hide (suggestedAction r) then 1 else 0)
  /\ n_review (count_action a r)
     = n_review a + (if Insights.is_review (suggestedAction r) then 1 else 0)
  /\ n_keep (count_action a r)
     = n_keep a + (if is_keep (suggestedAction r) then 1 else 0).
Proof.
  unfold count_action. destruct (suggestedAction r); cbn; lia.
Qed.

Lemma count_action_fold (results : list NonFoodDetectionResult) (a : ActionCounts) :
  n_hide (fold_left count_action results a) = n_hide a + acted results Insights.is_hide
  /\ n_review (fold_left count_action results a)
     = n_review a + acted results Insights.is_review
  /\ n_keep (fold_left count_action results a) = n_keep a + acted results is_keep.
Proof.
  revert a. induction results as [|r rest IH]; intros a.
  - unfold acted; cbn. lia.
  - cbn [fold_left]. rewrite !acted_cons.
    destruct (IH (count_action a r)) as (Hh & Hr & Hk).
    destruct (count_action_step a r) as (Sh & Sr & Sk).
    lia.
Qed.

Lemma count_confidence_step (d : ConfidenceDistribution) (r : NonFoodDetectionResult) :
  high (count_confidence d r)
  = high d + (if PrimFloat.leb 0.9 (NonFood.confidence r) then 1 else 0)
  /\ high (count_confidence d r) + medium (count_confidence d r)
     = high d + medium d + (if PrimFloat.leb 0.7 (NonFood.confidence r) then 1 else 0)
  /\ high (count_confidence d r) + medium (count_confidence d r)
     + low (count_confidence d r)
     = high d + medium d + low d
       + (if PrimFloat.leb 0.5 (NonFood.confidence r) then 1 else 0).
Proof.
  assert (E97 : PrimFloat.leb 0.9 (confidence r) = true
                -> PrimFloat.leb 0.7 (confidence r) = true)
    by (intros E; apply (leb_trans _ 0.9%float); [reflexivity | exact E]).
  assert (E75 : PrimFloat.leb 0.7 (confidence r) = true
                -> PrimFloat.leb 0.5 (confidence r) = true)
    by (intros E; apply (leb_trans _ 0.7%float); [reflexivity | exact E]).
  unfold count_confidence.
  destruct (PrimFloat.leb 0.9 (confidence r)).
  - rewrite (E97 eq_refl), (E75 (E97 eq_refl)). cbn. lia.
  - destruct (PrimFloat.leb 0.7 (confidence r)).
    + rewrite (E75 eq_refl). cbn. lia.
    + destruct (PrimFloat.leb 0.5 (confidence r)); cbn; lia.
Qed.

Lemma count_confidence_fold (results : list NonFoodDetectionResult)
    (d : ConfidenceDistribution) :
  high (fold_left count_confidence results d) = high d + banded results 0.9
  /\ high (fold_left count_confidence results d)
     + medium (fold_left count_confidence results d)
     = high d + medium d + banded results 0.7
  /\ high (fold_left count_confidence results d)
     + medium (fold_left count_confidence results d)
     + low (fold_left count_confidence results d)
     = high d + medium d + low d + banded results 0.5.
Proof.
  revert d. induction results as [|r rest IH]; intros d.
  - unfold banded; cbn. lia.
  - cbn [fold_left]. rewrite !banded_cons.
    destruct (IH (count_confidence d r)) as (Hh & Hm & Hl).
    destruct (count_confidence_step d r) as (Sh & Sm & Sl).
    lia.
Qed.

Lemma filter_length_le {A : Type} (f : A -> bool) (l : list A) :
  List.length (List.filter f l) <= List.length l.
Proof.
  induction l as [|x l IH]; cbn; [lia|]. destruct (f x); cbn; lia.
Qed.

Lemma acted_total (results : list NonFoodDetectionResult) :
  acted results Insights.is_hide + acted results Insights.is_review
  + acted results is_keep
  = List.length results.
Proof.
  induction results as [|r rest IH]; [reflexivity|].
  rewrite !acted_cons. cbn [List.length].
  destruct (suggestedAction r); cbn [Insights.is_hide Insights.is_review is_keep]; lia.
Qed.

(** X26: analyzeDetections counts every result under exactly one of the
    three actions, so the three action counters add up to
    [totalDetections], the number of results.  The three confidence
    counters are the numbers of results with a confidence of at least 0.9,
    from 0.7 up to 0.9 and from 0.5 up to 0.7: together they count exactly
    the results whose confidence is at least 0.5 (a result below 0.5, or
    with NaN as confidence, is in no band), which is at most
    [totalDetections]. *)
Theorem detection_counters_consistent
    (learningData : list NonFoodActions.NonFoodLearningData)
    (results : list NonFoodDetectionResult) :
  let insights := analyzeDetections learningData results in
  let actions := suggestedActions insights in
  let bands := confidenceDistribution insights in
  totalDetections insights = List.length results
  /\ n_hide actions + n_review actions + n_keep actions = totalDetections insights
  /\ n_hide actions = acted results Insights.is_hide
  /\ n_review actions = acted results Insights.is_review
  /\ high bands = banded results 0.9
  /\ high bands + medium bands = banded results 0.7
  /\ high bands + medium bands + low bands = banded results 0.5
  /\ high bands + medium bands + low bands <= totalDetections insights.
Proof.
  cbn zeta. unfold analyzeDetections.
  cbn [totalDetections suggestedActions confidenceDistribution].
  pose proof (count_action_fold results (mkActionCounts 0 0 0)) as Ha.
  pose proof (count_confidence_fold results (mkDistribution 0 0 0)) as Hd.
  cbn in Ha, Hd. destruct Ha as (Hh & Hr & Hk). destruct Hd as (H9 & H7 & H5).
  pose proof (acted_total results) as Ht.
  pose proof (filter_length_le
                (fun r => PrimFloat.leb 0.5 (NonFood.confidence r)) results) as Hle.
  fold (banded results 0.5) in Hle.
  repeat split; try assumption; lia.
Qed.

End InsightsProperties.

(** ** The name cleaner: batches, shape and confidence *)

Section CleanerBatchProperties.
Import JS Regex Cleaner CleanerBatch Shape TextForm.

(** X18: cleanBatch gives every name the result cleanProductName gives it when
    called alone, and leaves the static state as it found it: the calls of
    a batch do not influence each other. *)
Theorem cleanBatch_independent (c : corrections) (names : list string) :
  at_rest c ->
  cleanBatch c names = (map (fun name => fst (cleanProductName c name)) names, c).
Proof.
  intros Hrest. induction names as [|name names IH]; [reflexivity|].
  simpl. pose proof (cleanProductName_state c name Hrest) as Hs.
  destruct (cleanProductName c name) as [r c1]. simpl in Hs. subst c1.
  rewrite IH. reflexivity.
Qed.

Lemma corrections0_at_rest : at_rest corrections0.
Proof.
  unfold at_rest, corrections0, characterSubstitutions0. cbn [characterSubstitutions].
  repeat (apply List.Forall_cons; [reflexivity|]). apply List.Forall_nil.
Qed.

Lemma cleanBatch_independent_witness :
  cleanBatch corrections0 ["0RGN MLK"; "PUB CHIKEN BRST"]
  = (map (fun name => fst (cleanProductName corrections0 name))
       ["0RGN MLK"; "PUB CHIKEN BRST"], corrections0).
Proof. apply cleanBatch_independent, corrections0_at_rest. Defined.

(** *** The shape of a cleaned name *)

Lemma collapse_spaced_open (s : string) :
  forall r, spaced_open r (collapse r s) = true.
Proof.
  induction s as [|c s IH]; intros r; [reflexivity|].
  simpl. destruct (is_space c) eqn:Ec.
  - destruct r; [apply IH|]. simpl. apply IH.
  - simpl. rewrite Ec. apply IH.
Qed.

Lemma spaced_open_trimEnd (z : string) :
  forall start,
    spaced_open start z = true ->
    trimEnd z = EmptyString \/ single_spaced start (trimEnd z) = true.
Proof.
  induction z as [|c z IH]; intros start H; [left; reflexivity|].
  simpl in H. simpl. destruct (is_space c) eqn:Ec.
  - apply andb_prop in H. destruct H as [H Hz]. apply andb_prop in H.
    destruct H as [Hc Hs].
    destruct (IH true Hz) as [E|E].
    + rewrite E. left. reflexivity.
    + right. destruct (trimEnd z) as [|d t] eqn:Et; [simpl in E; discriminate E|].
      cbn [single_spaced]. rewrite Ec, Hc, Hs. exact E.
  - right. destruct (IH false H) as [E|E].
    + rewrite E. simpl. rewrite Ec. reflexivity.
    + destruct (trimEnd z) as [|d t] eqn:Et.
      * simpl. rewrite Ec. reflexivity.
      * cbn [single_spaced]. rewrite Ec. exact E.
Qed.

Lemma step5_spaced (name : string) :
  step5 name = EmptyString \/ single_spaced true (step5 name) = true.
Proof.
  unfold step5. change (RE "\s+" "g") with Enhancer.re_spaces.
  rewrite replace_spaces. unfold trim. rewrite trimStart_collapse.
  apply spaced_open_trimEnd, collapse_spaced_open.
Qed.

(** X19: The cleanedName of a result is empty exactly when the name is
    rejected (confidence 0 and the single entry Invalid product name);
    otherwise it has at least three characters, its words are separated by
    single space characters, and it has no other white space and none at
    its ends. *)
Theorem cleaned_name_shape (c : corrections) (name : string) :
  let r := fst (cleanProductName c name) in
  originalName r = name
  /\ ((cleanedName r = EmptyString /\ confidence r = 0%float
       /\ appliedCorrections r = ["Invalid product name"])
      \/ (3 <= String.length (cleanedName r)
          /\ single_spaced true (cleanedName r) = true)).
Proof.
  unfold cleanProductName.
  destruct (fold_left apply_substitution _ _) as [l2 subs].
  generalize (fold_left apply_dict (wordCategories c) l2). intros l3.
  pose proof (step5_spaced (step4 (l_name l3))) as Hs. revert Hs.
  generalize (step5 (step4 (l_name l3))). intros y Hs.
  unfold invalid_name.
  destruct (Nat.ltb (String.length y) 3) eqn:E.
  - rewrite orb_true_r. cbn [orb fst originalName cleanedName confidence
                              appliedCorrections].
    split; [reflexivity|]. left. auto.
  - rewrite orb_false_r.
    destruct (test _ y || test _ y);
      cbn [fst originalName cleanedName confidence appliedCorrections];
      (split; [reflexivity|]); [left; auto|right].
    apply Nat.ltb_ge in E. split; [exact E|].
    destruct Hs as [H|H]; [|exact H].
    rewrite H in E. simpl in E. lia.
Qed.

(** *** The confidence of a cleaned name *)

Lemma add_times_add (n m : nat) (bonus x : float) :
  add_times m bonus (add_times n bonus x) = add_times (n + m) bonus x.
Proof.
  revert x. induction n as [|n IH]; intros x; [reflexivity|]. simpl. apply IH.
Qed.

Lemma substitutions_confidence (subs : list substitution) :
  forall (l : locals) (done : list substitution),
  exists k, k <= List.length subs
            /\ l_confidence (fst (fold_left apply_substitution subs (l, done)))
               = add_times k 0.05 (l_confidence l).
Proof.
  induction subs as [|sub subs IH]; intros l done.
  - exists 0. split; [lia|reflexivity].
  - change (fold_left apply_substitution (sub :: subs) (l, done))
      with (fold_left apply_substitution subs (apply_substitution (l, done) sub)).
    assert (H : exists l' done', apply_substitution (l, done) sub = (l', done')
                /\ (l_confidence l' = l_confidence l
                    \/ l_confidence l' = PrimFloat.add (l_confidence l) 0.05)).
    { unfold apply_substitution.
      destruct (test_g _ _ _) as [found li]. destruct found.
      - destruct (replace_g _ _ _) as [name' li']. eexists _, _.
        split; [reflexivity|]. right. reflexivity.
      - eexists _, _. split; [reflexivity|]. left. reflexivity. }
    destruct H as (l' & done' & -> & Hc).
    destruct (IH l' done') as (k & Hk & ->).
    destruct Hc as [-> | ->].
    + exists k. split; [simpl; lia|reflexivity].
    + exists (S k). split; [simpl; lia|reflexivity].
Qed.

Lemma words_confidence (category : string) (entries : dict) :
  forall l : locals,
  exists m, m <= List.length entries
            /\ l_confidence (fold_left (apply_word category) entries l)
               = add_times m 0.1 (l_confidence l).
Proof.
  induction entries as [|entry entries IH]; intros l.
  - exists 0. split; [lia|reflexivity].
  - cbn [fold_left]. destruct (IH (apply_word category l entry)) as (m & Hm & ->).
    unfold apply_word. destruct (fst (test_g _ 0 (l_name l))).
    + exists (S m). split; [simpl; lia|reflexivity].
    + exists m. split; [simpl; lia|reflexivity].
Qed.

Lemma dicts_confidence (cats : list (dict * string)) :
  forall l : locals,
  exists m, m <= list_sum (map (fun cat => List.length (fst cat)) cats)
            /\ l_confidence (fold_left apply_dict cats l)
               = add_times m 0.1 (l_confidence l).
Proof.
  induction cats as [|cat cats IH]; intros l.
  - exists 0. split; [lia|reflexivity].
  - cbn [fold_left]. destruct (IH (apply_dict l cat)) as (m & Hm & ->).
    unfold apply_dict. destruct (words_confidence (snd cat) (fst cat) l) as (m' & Hm' & ->).
    exists (m' + m). split; [|apply add_times_add].
    unfold list_sum in *. cbn [map fold_right] in *.
    apply Nat.add_le_mono; assumption.
Qed.


Lemma cleaner_confidences : cleaner_confidences_checked = true.
Proof. vm_compute. reflexivity. Qed.

(** X20: With the tables the class is loaded with, the confidence of a result
    is between 0 and 1 for every name: 0 for a rejected name, and
    otherwise 0.8 plus 0.05 for every character substitution and 0.1 for
    every dictionary entry that applied, times 0.7 after a large change,
    cut at 1. *)
Theorem cleaned_confidence_unit (name : string) :
  NonFood.unit_interval (confidence (fst (cleanProductName corrections0 name))) = true.
Proof.
  unfold cleanProductName.
  destruct (substitutions_confidence (characterSubstitutions corrections0)
              (mkLocals (step1 name) 0.8 []) []) as (k & Hk & Hc2).
  destruct (fold_left apply_substitution _ _) as [l2 subs]. cbn [fst] in Hc2.
  destruct (dicts_confidence (wordCategories corrections0) l2) as (m & Hm & Hc3).
  set (l3 := fold_left apply_dict (wordCategories corrections0) l2) in *.
  destruct (invalid_name _); [reflexivity|]. cbn [fst confidence].
  rewrite Hc3, Hc2. cbn [l_confidence].
  pose proof cleaner_confidences as H. unfold cleaner_confidences_checked in H.
  rewrite forallb_forall in H. specialize (H k).
  rewrite forallb_forall in H.
  assert (Hin : In k (seq 0 (S (List.length characterSubstitutions0)))).
  { apply in_seq. cbn [characterSubstitutions corrections0] in Hk. lia. }
  specialize (H Hin m).
  assert (Hin' : In m (seq 0 (S (list_sum (map (fun cat => List.length (fst cat))
                                        (wordCategories corrections0)))))).
  { apply in_seq. lia. }
  specialize (H Hin'). apply andb_prop in H. destruct H as [H1 H2].
  destruct (PrimFloat.ltb 0.5 _); assumption.
Qed.

End CleanerBatchProperties.

(** ** The name enhancer: confidence and shape *)

Section EnhancerBounds.
Import JS Regex Enhancer Shape TextForm.

Lemma abbrevs_confidence (bonus : float) (table : list (string * string)) :
  forall (name : string) (conf : float),
  exists n, n <= List.length table
            /\ snd (apply_abbrevs bonus table (name, conf)) = add_times n bonus conf.
Proof.
  unfold apply_abbrevs.
  induction table as [|entry table IH]; intros name conf.
  - exists 0. split; [lia|reflexivity].
  - cbn [fold_left]. unfold apply_abbrev at 2.
    destruct (test (abbrev_regex (fst entry)) name).
    + destruct (IH (replace (abbrev_regex (fst entry)) (snd entry) name)
                  (PrimFloat.add conf bonus)) as (n & Hn & ->).
      exists (S n). split; [simpl; lia|reflexivity].
    + destruct (IH name conf) as (n & Hn & ->).
      exists n. split; [simpl; lia|reflexivity].
Qed.

Lemma categories_confidence (name : string) (rows : list (string * string)) :
  forall a : option string * float,
  exists n, n <= List.length rows
            /\ snd (fold_left (apply_category name) rows a) = add_times n 0.1 (snd a).
Proof.
  induction rows as [|row rows IH]; intros a.
  - exists 0. split; [lia|reflexivity].
  - cbn [fold_left]. destruct (IH (apply_category name a row)) as (n & Hn & ->).
    unfold apply_category. destruct (test (keyword_regex (fst row)) name).
    + exists (S n). split; [simpl; lia|reflexivity].
    + exists n. split; [simpl; lia|reflexivity].
Qed.

Lemma store_table_length (storeName : string) :
  List.length (store_table storeName) <= List.length WALMART_PATTERNS.
Proof.
  unfold store_table, STORE_PATTERNS.
  destruct (String.eqb _ "SAFEWAY"); [vm_compute; lia|].
  destruct (String.eqb _ "WALMART"); [vm_compute; lia|].
  destruct (String.eqb _ "TARGET"); vm_compute; lia.
Qed.

Lemma enhancer_confidences :
  enhancer_confidences_checked (List.length WALMART_PATTERNS)
    (List.length COMMON_ABBREVIATIONS) (List.length PRODUCT_CATEGORIES) = true.
Proof. vm_compute. reflexivity. Qed.

(** X21: The confidence enhanceProductName returns is between 0.7 and 1, for
    every name and store: the base of 0.7, raised by 0.1 or 0.05 for every
    table entry that applied, and cut at 1. *)
Theorem enhanced_confidence_range (originalName storeName : string) :
  let c := confidence (enhanceProductName originalName storeName) in
  PrimFloat.leb 0.7 c = true /\ PrimFloat.leb c 1 = true.
Proof.
  unfold enhanceProductName, expand_name, determine_category.
  destruct (abbrevs_confidence 0.1 (store_table storeName)
              (initial_cleanup originalName) 0.7) as (k & Hk & H1).
  destruct (apply_abbrevs 0.1 (store_table storeName) _) as [name1 conf1].
  cbn [snd] in H1. subst conf1.
  destruct (abbrevs_confidence 0.05 COMMON_ABBREVIATIONS name1 (add_times k 0.1 0.7))
    as (m & Hm & H2).
  destruct (apply_abbrevs 0.05 COMMON_ABBREVIATIONS _) as [name2 conf2].
  cbn [snd] in H2. subst conf2.
  destruct (categories_confidence name2 PRODUCT_CATEGORIES
              (None, add_times m 0.05 (add_times k 0.1 0.7))) as (j & Hj & H3).
  destruct (fold_left (apply_category name2) PRODUCT_CATEGORIES _) as [cat conf3].
  cbn [snd] in H3. subst conf3. cbn [confidence].
  pose proof enhancer_confidences as H. unfold enhancer_confidences_checked in H.
  rewrite forallb_forall in H. specialize (H k).
  rewrite forallb_forall in H.
  assert (Hin : In k (seq 0 (S (List.length WALMART_PATTERNS)))).
  { apply in_seq. pose proof (store_table_length storeName). lia. }
  specialize (H Hin m). rewrite forallb_forall in H.
  assert (Hin' : In m (seq 0 (S (List.length COMMON_ABBREVIATIONS)))).
  { apply in_seq. lia. }
  specialize (H Hin' j).
  assert (Hin'' : In j (seq 0 (S (List.length PRODUCT_CATEGORIES)))).
  { apply in_seq. lia. }
  specialize (H Hin''). apply andb_prop in H. exact H.
Qed.

(** X22: The enhancedName of a result is empty or in title case: words of
    letters, digits, _, &, ' and -, separated by single spaces, with no
    space at the ends; the first character of a word is not a lower-case
    letter and the others are not upper-case letters. *)
Theorem enhanced_name_title_cased (originalName storeName : string) :
  let produced := enhancedName (enhanceProductName originalName storeName) in
  produced = EmptyString \/ nf true produced = true.
Proof.
  intros produced. subst produced. rewrite enhancedName_title_case.
  apply title_case_nf, expand_name_plain.
Qed.

End EnhancerBounds.

(** ** The confidence of a recognised text *)

Section OCRConfidenceProperties.
Import JS Regex OCRConfidence.

Lemma clamp_nan (x : float) :
  PrimFloat.is_nan x = true -> PrimFloat.is_nan (Math_max 0 (Math_min 1 x)) = true.
Proof.
  intros H. unfold Math_min. change (PrimFloat.is_nan 1) with false. cbv iota.
  rewrite H. unfold Math_max. change (PrimFloat.is_nan 0) with false. cbv iota.
  rewrite H. exact H.
Qed.

(** X24: calculateOCRConfidence gives 0.1 to a text of fewer than ten
    characters.  For a longer text the result is a number between 0 and 1
    whenever it is a number at all; it is NaN (0/0) when the text has no
    line with a character other than white space. *)
Theorem ocr_confidence_range (text : string) :
  let c := calculateOCRConfidence text in
  (String.length text < 10 -> c = 0.1%float)
  /\ (10 <= String.length text -> Garbled.nonEmptyLines text = [] ->
      PrimFloat.is_nan c = true)
  /\ (PrimFloat.is_nan c = false -> NonFood.unit_interval c = true).
Proof.
  unfold calculateOCRConfidence. split; [|split].
  - intros H. apply Nat.ltb_lt in H. rewrite H. reflexivity.
  - intros H Hl. apply Nat.ltb_ge in H. rewrite H, Hl. reflexivity.
  - destruct (Nat.ltb (String.length text) 10); [reflexivity|].
    generalize (PrimFloat.div
                  (of_Z (fold_left (fun q line => (q + line_score (trim line))%Z)
                           (Garbled.nonEmptyLines text) 0%Z))
                  (PrimFloat.mul (of_nat (List.length (Garbled.nonEmptyLines text))) 2)).
    intros x Hx. destruct (PrimFloat.is_nan x) eqn:E.
    + rewrite (clamp_nan x E) in Hx. discriminate.
    + apply clamp_unit, E.
Qed.

Lemma ocr_confidence_range_witness :
  calculateOCRConfidence "MILK" = 0.1%float
  /\ PrimFloat.is_nan (calculateOCRConfidence "            ") = true
  /\ NonFood.unit_interval (calculateOCRConfidence "MILK WHOLE GALLON    3.99") = true.
Proof.
  destruct (ocr_confidence_range "MILK") as (H1 & _).
  destruct (ocr_confidence_range "            ") as (_ & H2 & _).
  destruct (ocr_confidence_range "MILK WHOLE GALLON    3.99") as (_ & _ & H3).
  split; [apply H1; simpl; lia|].
  split; [apply H2; [simpl; lia|vm_compute; reflexivity]|].
  apply H3. vm_compute. reflexivity.
Defined.

End OCRConfidenceProperties.

(** ** The analysis of the image *)

Section ReceiptImageProperties.
Import JS ReceiptImage.

Lemma dark_not_bright (b : float) :
  PrimFloat.ltb b 0.3 = true -> PrimFloat.ltb 0.9 b = false.
Proof.
  intros H. destruct (PrimFloat.ltb 0.9 b) eqn:E; [|reflexivity].
  pose proof (leb_trans 0.9 b 0.3 (ltb_leb _ _ E) (ltb_leb _ _ H)) as Hc.
  vm_compute in Hc. discriminate.
Qed.

(** X25: analyzeReceiptImage reports one recommendation per issue and at most
    four issues (too dark and too bright exclude each other), so the
    confidence is never cut at 0; the image counts as a receipt exactly
    when it has at most three issues, and generateReceiptGuidance ends
    with the excellent-quality line exactly when it has at most one. *)
Theorem image_analysis_consistent (image : PreprocessingResult) :
  let a := analyzeReceiptImage image in
  let n := List.length (issues a) in
  List.length (recommendations a) = n
  /\ n <= 4
  /\ confidence a = PrimFloat.sub 1 (PrimFloat.mul (of_nat n) 0.2)
  /\ isReceipt a = Nat.leb n 3
  /\ List.last (generateReceiptGuidance a) EmptyString
     = (if Nat.leb n 1 then "✨ Excellent capture quality"
        else if Nat.leb n 2 then "⚡ Good capture, but could be improved"
        else "📸 Try taking another photo with better conditions").
Proof.
  unfold analyzeReceiptImage, checks, generateReceiptGuidance.
  cbn [isReceipt confidence issues recommendations].
  rewrite !List.app_assoc, List.last_last, !List.length_map.
  destruct (PrimFloat.ltb (brightness (quality image)) 0.3) eqn:Ed.
  - rewrite (dark_not_bright _ Ed).
    destruct (PrimFloat.ltb 1 _); destruct (PrimFloat.ltb (width image) 500);
      destruct (PrimFloat.ltb 0.5 _); vm_compute; repeat split; lia.
  - destruct (PrimFloat.ltb 1 _); destruct (PrimFloat.ltb (width image) 500);
      destruct (PrimFloat.ltb 0.9 _); destruct (PrimFloat.ltb 0.5 _);
      vm_compute; repeat split; lia.
Qed.

End ReceiptImageProperties.

(** ** The recovery text *)

Section RecoveryProperties.
Import JS Recovery.

Lemma pick_unused_fresh (usedItems : list string) (rnd : list float) :
  forall item rest,
    pick_unused usedItems rnd = Some (item, rest) ->
    In item universalGroceryItems /\ ~ In item usedItems.
Proof.
  induction rnd as [|r rnd IH]; intros item rest H; [discriminate|].
  cbn [pick_unused] in H.
  destruct (random_index _ (r :: rnd)) as [[i rnd1]|]; [|discriminate].
  destruct (nth_error universalGroceryItems i) as [candidate|] eqn:En; [|discriminate].
  destruct (existsb (String.eqb candidate) usedItems) eqn:Eu.
  - apply (IH _ _ H).
  - injection H as <- <-. split; [apply (nth_error_In _ _ En)|].
    intros Hin.
    assert (existsb (String.eqb candidate) usedItems = true).
    { apply existsb_exists. exists candidate. split; [exact Hin|apply String.eqb_refl]. }
    congruence.
Qed.

Lemma select_items_picks (numItems : nat) :
  forall usedItems rnd selected rest,
    select_items numItems usedItems rnd = Some (selected, rest) ->
    exists picks : list (string * string),
      selected = map (fun p => (padEnd (fst p) 30 ++ " " ++ snd p)%string) picks
      /\ List.length picks = numItems
      /\ List.NoDup (map fst picks)
      /\ Forall (fun p => In (fst p) universalGroceryItems /\ ~ In (fst p) usedItems)
           picks.
Proof.
  induction numItems as [|n IH]; intros usedItems rnd selected rest H.
  - injection H as <- <-. exists []. repeat split; constructor.
  - cbn [select_items] in H.
    destruct (pick_unused usedItems rnd) as [[item rnd1]|] eqn:Ep; [|discriminate].
    destruct (generatePrice rnd1) as [[price rnd2]|]; [|discriminate].
    destruct (select_items n (item :: usedItems) rnd2) as [[sel rnd3]|] eqn:Es;
      [|discriminate].
    injection H as <- <-.
    destruct (IH _ _ _ _ Es) as (picks & -> & Hlen & Hnd & Hall).
    destruct (pick_unused_fresh _ _ _ _ Ep) as [Hin Hfresh].
    exists ((item, price) :: picks). split; [reflexivity|].
    split; [simpl; rewrite Hlen; reflexivity|]. split.
    + simpl. constructor; [|exact Hnd]. intros Hi.
      apply List.in_map_iff in Hi. destruct Hi as (p & Hp & Hpin).
      destruct (proj1 (List.Forall_forall _ _) Hall p Hpin) as [_ Hnot].
      apply Hnot. left. symmetry. exact Hp.
    + constructor; [split; assumption|].
      eapply List.Forall_impl; [|exact Hall]. intros p [H1 H2].
      split; [exact H1|]. intros Hi. apply H2. right. exact Hi.
Qed.

(** X23: The item lines of the recovery receipt: when the loop returns, it has
    selected as many lines as asked, each the name of a product of the
    list padded to 30 characters, a space and a price; no product is
    selected twice, and none that was already used. *)
Theorem selected_items_distinct (numItems : nat) (usedItems : list string)
    (rnd : list float) (selected : list string) (rest : list float) :
  select_items numItems usedItems rnd = Some (selected, rest) ->
  exists picks : list (string * string),
    selected = map (fun p => (padEnd (fst p) 30 ++ " " ++ snd p)%string) picks
    /\ List.length picks = numItems
    /\ List.NoDup (map fst picks)
    /\ Forall (fun p => In (fst p) universalGroceryItems /\ ~ In (fst p) usedItems)
         picks.
Proof. apply select_items_picks. Qed.

Lemma selected_items_distinct_witness :
  exists selected rest picks,
    select_items 2 [] [0%float; 0.5%float; 0%float; 0.25%float; 0.5%float; 0.75%float]
    = Some (selected, rest)
    /\ selected = map (fun p => (padEnd (fst p) 30 ++ " " ++ snd p)%string) picks
    /\ List.NoDup (map fst picks).
Proof.
  destruct (select_items 2 []
              [0%float; 0.5%float; 0%float; 0.25%float; 0.5%float; 0.75%float])
    as [[selected rest]|] eqn:E; [|vm_compute in E; discriminate].
  destruct (selected_items_distinct _ _ _ _ _ E) as (picks & Hs & _ & Hnd & _).
  exists selected, rest, picks. auto.
Defined.

End RecoveryProperties.
